(** * Target-propagation training controller: configuration post-processing
      and the per-minibatch training contract

    The development has three parts.

    - [Py] and [Main] embed the configuration handling of [src/main.py]: the
      argparse namespace as a string-keyed attribute dictionary and the two
      post-processing routines ([postprocess_args] and [Args.__post_init__])
      as state-passing computations in an exception monad.
    - [Launch] embeds [launch] and [run] of [src/main.py] as computations
      that record, in order, every call into torch, torchvision and [lib].
    - [Core] holds the layer stack, target propagation, layer selection and
      the angle and distance metrics. Their Python sources
      ([lib/networks.py], [lib/layers.py], [lib/train.py], [lib/utils.py])
      are outside the sources embedded here,
      so this part is modelled from the written specification. *)

From Stdlib Require Import ZArith String Ascii Bool Floats Reals Lra Lia.
From stdpp Require Import base option list gmap strings sorting.

Open Scope string_scope.

(** ** Python values, exceptions and the few built-in operations used *)

Module Py.

(** The dynamically typed values that occur in the attributes read or written
    by the post-processing code. [VFloatList] is a Python list of floats,
    [VArray] a one-dimensional numpy array of float64. *)
Inductive value :=
| VNone
| VBool (b : bool)
| VInt (n : Z)
| VFloat (x : float)
| VStr (s : string)
| VIntList (l : list Z)
| VFloatList (l : list float)
| VArray (l : list float).

Inductive exn :=
| ValueError (msg : string)
| TypeError
| AttributeError (name : string)
| ZeroDivisionError
| OSError.

Inductive result (A : Type) :=
| Ok (a : A)
| Raise (e : exn).
Arguments Ok {A} a.
Arguments Raise {A} e.

Definition bind {A B : Type} (m : result A) (f : A → result B) : result B :=
  match m with
  | Ok a => f a
  | Raise e => Raise e
  end.

Notation "x <- m ; k" := (bind m (λ x, k))
  (at level 20, m at level 100, k at level 200, only parsing).

(** An [argparse.Namespace] (and equally a dataclass instance) is its
    attribute dictionary. *)
Abbreviation Namespace := (gmap string value).

Definition getattr (o : Namespace) (name : string) : result value :=
  match o !! name with
  | Some v => Ok v
  | None => Raise (AttributeError name)
  end.

Definition setattr (name : string) (v : value) (o : Namespace) : Namespace :=
  <[name := v]> o.

(** Truth value testing. A numpy array with more than one element has no
    truth value. *)
Definition truthy (v : value) : result bool :=
  match v with
  | VNone => Ok false
  | VBool b => Ok b
  | VInt n => Ok (negb (n =? 0)%Z)
  | VFloat x => Ok (negb (x =? 0)%float)
  | VStr s => Ok (negb (s =? ""))
  | VIntList l => Ok (negb (Nat.eqb (length l) 0))
  | VFloatList l => Ok (negb (Nat.eqb (length l) 0))
  | VArray [] => Ok false
  | VArray [x] => Ok (negb (x =? 0)%float)
  | VArray _ => Raise (ValueError "The truth value of an array with more than one element is ambiguous.")
  end.

(** [getattr(o, k1) or getattr(o, k2) or ...]: the first truthy operand, else
    the last one; operands to the right of a truthy one are not evaluated. *)
Fixpoint or_attrs (o : Namespace) (names : list string) : result value :=
  match names with
  | [] => Ok VNone
  | [k] => getattr o k
  | k :: rest =>
      v <- getattr o k;
      t <- truthy v;
      if t then Ok v else or_attrs o rest
  end.

Definition is_None (v : value) : bool :=
  match v with VNone => true | _ => false end.

Definition isinstance_str (v : value) : bool :=
  match v with VStr _ => true | _ => false end.

(** [v == s] used as a condition, for a string literal [s]. Comparing an
    array with a string is elementwise and has no usable truth value. *)
Definition eq_str (v : value) (s : string) : result bool :=
  match v with
  | VStr s' => Ok (s' =? s)
  | VArray _ => Raise TypeError
  | _ => Ok false
  end.

(** [v in [s1, s2, ...]] for a list of string literals. *)
Fixpoint in_strs (v : value) (l : list string) : result bool :=
  match l with
  | [] => Ok false
  | s :: rest =>
      b <- eq_str v s;
      if b then Ok true else in_strs v rest
  end.

(** ["," in s] *)
Fixpoint contains_comma (s : string) : bool :=
  match s with
  | EmptyString => false
  | String c rest => if Ascii.eqb c "," then true else contains_comma rest
  end.

Fixpoint ends_with_slash (s : string) : bool :=
  match s with
  | EmptyString => false
  | String c EmptyString => Ascii.eqb c "/"
  | String _ rest => ends_with_slash rest
  end.

Definition starts_with_slash (s : string) : bool :=
  match s with
  | String c _ => Ascii.eqb c "/"
  | EmptyString => false
  end.

(** [os.path.join(a, b)] on a POSIX system. *)
Definition os_path_join (a b : string) : string :=
  if starts_with_slash b then b
  else if (a =? "") || ends_with_slash a then a ++ b
  else a ++ "/" ++ b.

Definition os_path_curdir : string := ".".

End Py.

(** ** [src/main.py]: post-processing of the parsed arguments *)

Module Main.
Import Py.

(** What [main.py] calls but does not define: the helpers of [lib.utils],
    Python built-ins on operand types the code paths below do not fix, and the
    file system. They are parameters of the model; every result below holds
    for all of them. *)
Record Lib := {
  (* lib.utils *)
  process_lr : value → result value;
  process_nb_feedback_iterations : value → result value;
  process_hdim : value → result value;
  process_hdim_fb : value → result value;
  str_to_list : value → result value;      (* utils.str_to_list(s, type="float") *)
  (* built-ins *)
  py_int : value → result value;           (* int(v) *)
  py_float : value → result value;         (* float(v) *)
  py_str : value → string;                 (* "{}".format(v) *)
  truediv_other : value → value → result value;
  np_truediv_other : value → value → result value;
  (* os, open, json *)
  os_path_exists : string → bool;
  os_makedirs : string → result unit;
  dump_json : string → Namespace → result unit
}.

Section WithLib.
Variable L : Lib.

(** [x / d]. Float by float raises on a zero divisor; a numpy array divided by
    a float is divided elementwise under IEEE-754 rules and never raises. *)
Definition truediv (x d : value) : result value :=
  match x, d with
  | VFloat a, VFloat b =>
      if (b =? 0)%float then Raise ZeroDivisionError else Ok (VFloat (a / b)%float)
  | VArray l, VFloat b => Ok (VArray (map (λ a, (a / b)%float) l))
  | _, _ => truediv_other L x d
  end.

(** [np.array(x) / d]. A list of floats becomes an array; a single float
    becomes a zero-dimensional array whose quotient is a numpy scalar. *)
Definition np_array_truediv (x d : value) : result value :=
  match x, d with
  | VFloatList l, VFloat b => Ok (VArray (map (λ a, (a / b)%float) l))
  | VArray l, VFloat b => Ok (VArray (map (λ a, (a / b)%float) l))
  | VFloat a, VFloat b => Ok (VFloat (a / b)%float)
  | _, _ => np_truediv_other L x d
  end.

Definition dataset_not_supported (d : value) : exn :=
  ValueError ("Dataset " ++ py_str L d ++ " is not supported.").

Definition shallow_training_msg : string :=
  "The shallow_training method is only implemented" ++
  "in combination with BP. Make sure to set " ++
  "the network_type argument on BP.".

(** *** Steps shared verbatim by [postprocess_args] and [Args.__post_init__] *)

(** main.py 1298-1304 and 509-515. [print] is not modelled. *)
Definition set_save_angle (args : Namespace) : result Namespace :=
  v <- or_attrs args ["save_GN_activations_angle"; "save_BP_activations_angle";
                      "save_BP_angle"; "save_GN_angle"; "save_GNT_angle"];
  Ok (setattr "save_angle" v args).

(** main.py 1307-1322 and 518-533: the log directory and the dump of the
    namespace into [fname] inside it. *)
Definition create_log_dir (fname : string) (args : Namespace) : result Namespace :=
  d <- getattr args "out_dir";
  r <- (if is_None d then
          let out_dir := os_path_join os_path_curdir "logs" in
          Ok (out_dir, setattr "out_dir" (VStr out_dir) args)
        else
          match d with
          | VStr s =>
              let out_dir := os_path_join os_path_curdir s in
              _ <- (if os_path_exists L out_dir then Ok tt else os_makedirs L out_dir);
              Ok (out_dir, args)
          | _ => Raise TypeError
          end);
  _ <- dump_json L (os_path_join r.1 fname) r.2;
  Ok r.2.

(** main.py 1365-1366: [args.lr = args.lr / args.target_stepsize]. *)
Definition normalize_lr (args : Namespace) : result Namespace :=
  n <- getattr args "normalize_lr";
  t <- truthy n;
  if t then
    lr <- getattr args "lr";
    ts <- getattr args "target_stepsize";
    q <- truediv lr ts;
    Ok (setattr "lr" q args)
  else Ok args.

(** main.py 573-574: [self.lr = np.array(self.lr) / self.target_stepsize]. *)
Definition np_normalize_lr (self : Namespace) : result Namespace :=
  n <- getattr self "normalize_lr";
  t <- truthy n;
  if t then
    lr <- getattr self "lr";
    ts <- getattr self "target_stepsize";
    q <- np_array_truediv lr ts;
    Ok (setattr "lr" q self)
  else Ok self.

(** main.py 1368-1371 and 576-579. *)
Definition freeze_fb_for_GN (args : Namespace) : result Namespace :=
  nt <- getattr args "network_type";
  c <- in_strs nt ["GN"; "GN2"];
  Ok (if c then setattr "freeze_fb_weights" (VBool true) args else args).

(** main.py 1373-1380 and 581-588. *)
Definition rewrite_DFA (args : Namespace) : result Namespace :=
  nt <- getattr args "network_type";
  c <- eq_str nt "DFA";
  Ok (if c then
        setattr "train_randomized" (VBool false)
          (setattr "fb_activation" (VStr "linear")
             (setattr "size_mlp_fb" VNone
                (setattr "network_type" (VStr "DMLPDTP2")
                   (setattr "freeze_fb_weights" (VBool true) args))))
      else args).

(** main.py 1382-1392 and 590-600: the two convolutional aliases. *)
Definition rewrite_DFAConv (alias target : string) (args : Namespace) : result Namespace :=
  nt <- getattr args "network_type";
  c <- eq_str nt alias;
  Ok (if c then
        setattr "train_randomized" (VBool false)
          (setattr "fb_activation" (VStr "linear")
             (setattr "network_type" (VStr target)
                (setattr "freeze_fb_weights" (VBool true) args)))
      else args).

(** main.py 1394-1411 and 602-619. *)
Definition set_diff_rec_loss (args : Namespace) : result Namespace :=
  nt <- getattr args "network_type";
  c <- in_strs nt ["DTPDR"];
  Ok (setattr "diff_rec_loss" (VBool c) args).

Definition set_direct_fb (args : Namespace) : result Namespace :=
  nt <- getattr args "network_type";
  c <- in_strs nt ["DKDTP"; "DKDTP2"; "DMLPDTP"; "DMLPDTP2"; "DDTPControl";
                   "DDTPConv"; "DDTPConvCIFAR"; "DDTPConvControlCIFAR"];
  Ok (setattr "direct_fb" (VBool c) args).

(** main.py 1413-1416 and 621-624. *)
Definition process_gn_damping (args : Namespace) : result Namespace :=
  g <- getattr args "gn_damping";
  g' <- (match g with
         | VStr s => if contains_comma s then str_to_list L g else py_float L g
         | _ => py_float L g
         end);
  Ok (setattr "gn_damping" g' args).

(** main.py 1419-1425 and 627-633. *)
Definition check_shallow_training (args : Namespace) : result Namespace :=
  st <- getattr args "shallow_training";
  t <- truthy st;
  if t then
    nt <- getattr args "network_type";
    c <- eq_str nt "BP";
    if negb c then Raise (ValueError shallow_training_msg) else Ok args
  else Ok args.

(** main.py 1368-1411: everything that depends on [network_type]. *)
Definition rewrite_network_type (args : Namespace) : result Namespace :=
  args <- freeze_fb_for_GN args;
  args <- rewrite_DFA args;
  args <- rewrite_DFAConv "DFAConv" "DDTPConv" args;
  args <- rewrite_DFAConv "DFAConvCIFAR" "DDTPConvCIFAR" args;
  args <- set_diff_rec_loss args;
  set_direct_fb args.

(** *** [postprocess_args] (main.py 1297-1426) *)

(** main.py 1324-1332 *)
Definition set_dataset_kind (args : Namespace) : result Namespace :=
  d <- getattr args "dataset";
  c <- in_strs d ["mnist"; "fashion_mnist"; "cifar10"];
  let args := setattr "classification" (VBool c) args in
  d <- getattr args "dataset";
  r <- in_strs d ["student_teacher"; "boston"];
  Ok (setattr "regression" (VBool r) args).

(** [if args.name is None: args.name = args.fallback] *)
Definition default_from (name fallback : string) (args : Namespace) : result Namespace :=
  v <- getattr args name;
  if is_None v then
    f <- getattr args fallback;
    Ok (setattr name f args)
  else Ok args.

(** main.py 1335-1350 *)
Definition init_None_options (args : Namespace) : result Namespace :=
  oa <- getattr args "output_activation";
  args <- (if is_None oa then
             c <- getattr args "classification";
             tc <- truthy c;
             if tc then Ok (setattr "output_activation" (VStr "softmax") args)
             else
               r <- getattr args "regression";
               tr <- truthy r;
               if tr then Ok (setattr "output_activation" (VStr "linear") args)
               else
                 d <- getattr args "dataset";
                 Raise (dataset_not_supported d)
           else Ok args);
  args <- default_from "fb_activation" "hidden_activation" args;
  args <- default_from "hidden_fb_activation" "hidden_activation" args;
  default_from "optimizer_fb" "optimizer" args.

(** [args.name = f(args.name)] *)
Definition process_attr (f : value → result value) (name : string)
    (args : Namespace) : result Namespace :=
  v <- getattr args name;
  v' <- f v;
  Ok (setattr name v' args).

(** main.py 1353-1363 *)
Definition process_string_options (args : Namespace) : result Namespace :=
  args <- process_attr (process_lr L) "lr" args;
  args <- process_attr (process_lr L) "lr_fb" args;
  args <- process_attr (process_nb_feedback_iterations L) "nb_feedback_iterations" args;
  args <- process_attr (process_lr L) "epsilon_fb" args;
  args <- process_attr (process_lr L) "epsilon" args;
  args <- process_attr (process_hdim L) "size_hidden" args;
  args <- process_attr (py_int L) "random_seed" args;
  m <- getattr args "size_mlp_fb";
  c <- eq_str m "None";
  if c then Ok (setattr "size_mlp_fb" VNone args)
  else process_attr (process_hdim_fb L) "size_mlp_fb" args.

(** Everything of [postprocess_args] before the final validity check. *)
Definition postprocess_args_body (args : Namespace) : result Namespace :=
  args <- set_save_angle args;
  args <- create_log_dir "args.txt" args;
  args <- set_dataset_kind args;
  args <- init_None_options args;
  args <- process_string_options args;
  args <- normalize_lr args;
  args <- rewrite_network_type args;
  process_gn_damping args.

Definition postprocess_args (args : Namespace) : result Namespace :=
  args <- postprocess_args_body args;
  check_shallow_training args.

End WithLib.

(** *** [Args.__post_init__] (main.py 508-633) *)

Module Args.
Section WithLib.
Variable L : Lib.

(** main.py 535-538 *)
Definition set_dataset_kind (self : Namespace) : result Namespace :=
  d <- getattr self "dataset";
  c <- in_strs d ["mnist"; "fashion_mnist"; "cifar10"];
  let self := setattr "classification" (VBool c) self in
  d <- getattr self "dataset";
  r <- in_strs d ["student_teacher"; "boston"];
  let self := setattr "regression" (VBool r) self in
  c <- getattr self "classification";
  tc <- truthy c;
  if tc then Ok self
  else
    r <- getattr self "regression";
    tr <- truthy r;
    if tr then Ok self
    else
      d <- getattr self "dataset";
      Raise (dataset_not_supported L d).

(** [self.name = self.name or self.fallback] *)
Definition default_or (name fallback : string) (self : Namespace) : result Namespace :=
  v <- or_attrs self [name; fallback];
  Ok (setattr name v self).

(** main.py 541-547 *)
Definition init_None_options (self : Namespace) : result Namespace :=
  oa <- getattr self "output_activation";
  t <- truthy oa;
  v <- (if t then Ok oa
        else
          c <- getattr self "classification";
          tc <- truthy c;
          Ok (VStr (if tc then "softmax" else "linear")));
  let self := setattr "output_activation" v self in
  self <- default_or "fb_activation" "hidden_activation" self;
  self <- default_or "hidden_fb_activation" "hidden_activation" self;
  default_or "optimizer_fb" "optimizer" self.

(** [if isinstance(self.name, str): self.name = f(self.name)] *)
Definition process_attr_if_str (f : value → result value) (name : string)
    (self : Namespace) : result Namespace :=
  v <- getattr self name;
  if isinstance_str v then process_attr f name self else Ok self.

(** main.py 552-571 *)
Definition process_string_options (self : Namespace) : result Namespace :=
  self <- process_attr_if_str (process_lr L) "lr" self;
  self <- process_attr_if_str (process_lr L) "lr_fb" self;
  self <- process_attr_if_str (process_nb_feedback_iterations L)
            "nb_feedback_iterations" self;
  self <- process_attr_if_str (process_lr L) "epsilon_fb" self;
  self <- process_attr_if_str (process_lr L) "epsilon" self;
  self <- process_attr_if_str (process_hdim L) "size_hidden" self;
  self <- process_attr (py_int L) "random_seed" self;
  m <- getattr self "size_mlp_fb";
  c <- eq_str m "None";
  if c then Ok (setattr "size_mlp_fb" VNone self)
  else process_attr_if_str (process_hdim_fb L) "size_mlp_fb" self.

(** Everything of [__post_init__] before the final validity check. *)
Definition post_init_body (self : Namespace) : result Namespace :=
  self <- set_save_angle self;
  self <- create_log_dir L "self.txt" self;
  self <- set_dataset_kind self;
  self <- init_None_options self;
  self <- process_string_options self;
  self <- np_normalize_lr L self;
  self <- rewrite_network_type self;
  process_gn_damping L self.

Definition __post_init__ (self : Namespace) : result Namespace :=
  self <- post_init_body self;
  check_shallow_training self.

End WithLib.
End Args.

(** *** [launch] (main.py 1609-1611): the quotient of the logging interval *)

(** [int(n / 100)] for the number [n] of batches of a loader: true division
    followed by truncation toward zero. A batch count is far below 2^53, where
    the rounded binary64 quotient and the exact one have the same integer
    part. *)
Definition int_div_100 (n : Z) : Z := n ÷ 100.

(** *** Vocabulary for stating what post-processing does *)

(** [f] leaves attribute [k] alone whenever it returns. *)
Definition preserves (k : string) (f : Namespace → result Namespace) : Prop :=
  ∀ a a', f a = Ok a' → a' !! k = a !! k.

(** Every attribute that [postprocess_args] or [__post_init__] assigns. *)
Definition assigned_attributes : list string :=
  ["save_angle"; "out_dir"; "classification"; "regression";
   "output_activation"; "fb_activation"; "hidden_fb_activation"; "optimizer_fb";
   "lr"; "lr_fb"; "nb_feedback_iterations"; "epsilon_fb"; "epsilon";
   "size_hidden"; "random_seed"; "size_mlp_fb";
   "freeze_fb_weights"; "network_type"; "train_randomized";
   "diff_rec_loss"; "direct_fb"; "gn_damping"].

(** The three feedback-alignment names are aliases of direct-feedback
    networks with frozen linear feedback. *)
Definition resolve_alias (nt : string) : string :=
  if nt =? "DFA" then "DMLPDTP2"
  else if nt =? "DFAConv" then "DDTPConv"
  else if nt =? "DFAConvCIFAR" then "DDTPConvCIFAR"
  else nt.

Definition resolved (v : value) : value :=
  match v with
  | VStr s => VStr (resolve_alias s)
  | _ => v
  end.

(** The rule in the words of the [--normalize_lr] help text,
    [lr = lr / target_stepsize], taken elementwise for per-layer rates. *)
Definition lr_over_stepsize (lr ts : value) : option value :=
  match lr, ts with
  | VFloat x, VFloat d => Some (VFloat (x / d)%float)
  | VArray l, VFloat d => Some (VArray (map (λ x, (x / d)%float) l))
  | _, _ => None
  end.

(** [np.array(v)] for a list of floats. *)
Definition np_array (v : value) : value :=
  match v with
  | VFloatList l => VArray l
  | _ => v
  end.

(** The five attributes that the ["DFA"] branch assigns (main.py 1376-1380). *)
Definition DFA_rewritten (a : Namespace) : Prop :=
  a !! "network_type" = Some (VStr "DMLPDTP2") ∧
  a !! "fb_activation" = Some (VStr "linear") ∧
  a !! "size_mlp_fb" = Some VNone ∧
  a !! "freeze_fb_weights" = Some (VBool true) ∧
  a !! "train_randomized" = Some (VBool false).

End Main.


(** ** Further vocabulary for the post-processing *)

Module MainSpec.
Import Py Main.

(** The names tested by the [direct_fb] step (main.py 1399-1408). *)
Definition direct_feedback_types : list string :=
  ["DKDTP"; "DKDTP2"; "DMLPDTP"; "DMLPDTP2"; "DDTPControl";
   "DDTPConv"; "DDTPConvCIFAR"; "DDTPConvControlCIFAR"].

(** The names whose feedback weights post-processing freezes, and the
    names whose randomized training it switches off. *)
Definition frozen_feedback_types : list string :=
  ["GN"; "GN2"; "DFA"; "DFAConv"; "DFAConvCIFAR"].
Definition alias_types : list string := ["DFA"; "DFAConv"; "DFAConvCIFAR"].

Definition is_in (s : string) (l : list string) : bool := existsb (String.eqb s) l.

(** The whole network-type stage (main.py 1368-1411) on a namespace whose
    [network_type] is the string [s], as one expression. *)
Definition rewritten (s : string) (a : Namespace) : Namespace :=
  let a := if is_in s ["GN"; "GN2"]
           then setattr "freeze_fb_weights" (VBool true) a else a in
  let a := if s =? "DFA"
           then setattr "train_randomized" (VBool false)
                  (setattr "fb_activation" (VStr "linear")
                     (setattr "size_mlp_fb" VNone
                        (setattr "network_type" (VStr "DMLPDTP2")
                           (setattr "freeze_fb_weights" (VBool true) a))))
           else a in
  let a := if s =? "DFAConv"
           then setattr "train_randomized" (VBool false)
                  (setattr "fb_activation" (VStr "linear")
                     (setattr "network_type" (VStr "DDTPConv")
                        (setattr "freeze_fb_weights" (VBool true) a)))
           else a in
  let a := if s =? "DFAConvCIFAR"
           then setattr "train_randomized" (VBool false)
                  (setattr "fb_activation" (VStr "linear")
                     (setattr "network_type" (VStr "DDTPConvCIFAR")
                        (setattr "freeze_fb_weights" (VBool true) a)))
           else a in
  setattr "direct_fb" (VBool (is_in (resolve_alias s) direct_feedback_types))
    (setattr "diff_rec_loss" (VBool (s =? "DTPDR")) a).

(** The attributes assigned before the network-type stage. *)
Definition early_attributes : list string :=
  ["save_angle"; "out_dir"; "classification"; "regression";
   "output_activation"; "fb_activation"; "hidden_fb_activation"; "optimizer_fb";
   "lr"; "lr_fb"; "nb_feedback_iterations"; "epsilon_fb"; "epsilon";
   "size_hidden"; "random_seed"; "size_mlp_fb"].

Definition classification_datasets : list string :=
  ["mnist"; "fashion_mnist"; "cifar10"].
Definition regression_datasets : list string := ["student_teacher"; "boston"].

(** An attribute that is present and not [None], and one that is present and
    true in a condition. *)
Definition filled (a : Namespace) (k : string) : Prop :=
  ∃ v, a !! k = Some v ∧ v ≠ VNone.
Definition truthy_at (a : Namespace) (k : string) : Prop :=
  ∃ v, a !! k = Some v ∧ truthy v = Ok true.

(** The options that fall back on another option when not given. *)
Definition defaulted_options : list string :=
  ["output_activation"; "fb_activation"; "hidden_fb_activation"; "optimizer_fb"].

End MainSpec.
(** ** The training core, from the written specification

    [main.py] hands the post-processed configuration to [lib.builders] and
    [lib.train]; the layer classes, the target propagation, the feedback and
    forward training steps and the diagnostics live in [lib/], outside the
    sources embedded above. This module states that part of the system the
    way the specification describes it, over the real numbers. *)

Module Core.
Local Close Scope string_scope.
Local Open Scope R_scope.

(** *** Arrays *)

Definition array := list R.
Definition matrix := list array.          (* a list of rows *)

Definition vadd (u v : array) : array := zip_with Rplus u v.
Definition vsub (u v : array) : array := zip_with Rminus u v.
Definition vscale (c : R) (v : array) : array := map (Rmult c) v.
Definition dot (u v : array) : R := foldr Rplus 0 (zip_with Rmult u v).
Definition norm (u : array) : R := sqrt (dot u u).
Definition matvec (W : matrix) (x : array) : array := map (λ row, dot row x) W.

Definition affine (W : matrix) (b : option array) (x : array) : array :=
  match b with
  | Some b => vadd (matvec W x) b
  | None => matvec W x
  end.

(** *** Layers and feedback mappings *)

(** Modelled from the spec: the feedback-mapping variants of the layer classes
    in [lib/layers.py] (section 3, FeedbackMapping): a linear map, a small MLP,
    or a fixed random projection. *)
Inductive FeedbackKind :=
| Linear (W : matrix) (b : option array)
| SmallMLP (hidden : list (matrix * option array)) (W : matrix) (b : option array)
| FixedRandom (W : matrix).

(** Modelled from the spec: a FeedbackMapping of [lib/layers.py] with its
    nonlinearity and its optional "recurrent" input (section 3). *)
Record FeedbackMapping := {
  fb_kind : FeedbackKind;
  fb_nonlinearity : R → R;
  fb_recurrent : bool
}.

(** Modelled from the spec: applying a FeedbackMapping of [lib/layers.py]; a
    recurrent mapping also consumes the owning layer's current activation. *)
Definition apply_feedback (m : FeedbackMapping) (own_activation x : array) : array :=
  let input := if fb_recurrent m then x ++ own_activation else x in
  match fb_kind m with
  | Linear W b => map (fb_nonlinearity m) (affine W b input)
  | SmallMLP hidden W b =>
      let h := foldl (λ h Wb, map (fb_nonlinearity m) (affine Wb.1 Wb.2 h)) input hidden in
      map (fb_nonlinearity m) (affine W b h)
  | FixedRandom W => matvec W input
  end.

(** Modelled from the spec: the Layer entity of [lib/layers.py] (section 3):
    forward weight and optional bias, a FeedbackMapping, the cached pre- and
    post-activation of the last forward pass, a target and a local
    reconstruction loss. *)
Record Layer := {
  weights : matrix;
  bias : option array;
  nonlinearity : R → R;
  feedback_mapping : FeedbackMapping;
  linear_activation : array;
  activation : array;
  target : option array;
  reconstruction_loss : R
}.

Definition set_target (t : array) (l : Layer) : Layer :=
  {| weights := weights l; bias := bias l; nonlinearity := nonlinearity l;
     feedback_mapping := feedback_mapping l;
     linear_activation := linear_activation l; activation := activation l;
     target := Some t; reconstruction_loss := reconstruction_loss l |}.

Definition set_feedback_mapping (m : FeedbackMapping) (l : Layer) : Layer :=
  {| weights := weights l; bias := bias l; nonlinearity := nonlinearity l;
     feedback_mapping := m;
     linear_activation := linear_activation l; activation := activation l;
     target := target l; reconstruction_loss := reconstruction_loss l |}.

Definition set_forward (W : matrix) (b : option array) (l : Layer) : Layer :=
  {| weights := W; bias := b; nonlinearity := nonlinearity l;
     feedback_mapping := feedback_mapping l;
     linear_activation := linear_activation l; activation := activation l;
     target := target l; reconstruction_loss := reconstruction_loss l |}.

(** A layer's feedback path applied to [x]. *)
Definition feedback (l : Layer) (x : array) : array :=
  apply_feedback (feedback_mapping l) (activation l) x.

(** Modelled from the spec: [Layer.compute_target] of [lib/layers.py]
    (section 4.1), the chained rule. [l] is the layer receiving a target and
    [downstream] the next layer toward the output, whose FeedbackMapping
    carries the target back (section 3, invariants). *)
Definition compute_target (diff_rec : bool) (l downstream : Layer)
    (downstream_target : array) : array :=
  if diff_rec then
    vsub (vadd (activation l) (feedback downstream downstream_target))
         (feedback downstream (activation downstream))
  else feedback downstream downstream_target.

(** Modelled from the spec: the Network of [lib/networks.py] (section 3): the
    ordered layers, with the output layer last, and the global flags. *)
Record Network := {
  hidden_layers : list Layer;
  output_layer : Layer;
  direct_fb : bool;
  diff_rec : bool;
  target_stepsize : R
}.

Definition num_hidden (net : Network) : nat := length (hidden_layers net).
Definition all_layers (net : Network) : list Layer :=
  hidden_layers net ++ [output_layer net].

(** *** TargetPropagator *)

(** What the loss is differentiated against: a class label under a
    softmax/cross-entropy pair, or a loss whose output gradient is given. *)
Inductive Supervision :=
| ClassLabel (k : nat)
| OutputGradient (g : array).

Definition one_hot (n k : nat) : array :=
  map (λ i, if Nat.eqb i k then 1 else 0) (seq 0 n).

(** Modelled from the spec: the analytic loss gradient used by the target
    propagation of [lib/networks.py] (section 4.3). *)
Definition analytic_loss_gradient (prediction : array) (s : Supervision) : array :=
  match s with
  | ClassLabel k => vsub prediction (one_hot (length prediction) k)
  | OutputGradient g => g
  end.

(** Modelled from the spec: the first transition of the TargetPropagator of
    [lib/networks.py] (section 4.3). *)
Definition output_target (net : Network) (s : Supervision) : array :=
  vsub (activation (output_layer net))
       (vscale (target_stepsize net)
               (analytic_loss_gradient (activation (output_layer net)) s)).

(** One backward transition of the chained pass. The state is the layer last
    handled, its target, and the targets of the layers after it. *)
Definition chained_step (diff_rec : bool) (l : Layer)
    (st : Layer * array * list array) : Layer * array * list array :=
  let '(downstream, t, later) := st in
  (l, compute_target diff_rec l downstream t, t :: later).

(** Modelled from the spec: the chained pass of the TargetPropagator of
    [lib/networks.py] (section 4.3), from the output-adjacent hidden layer to
    the input-adjacent one. *)
Definition chained_targets (diff_rec : bool) (hidden : list Layer) (out : Layer)
    (out_target : array) : list array :=
  let '(_, t, later) := foldr (chained_step diff_rec) (out, out_target, []) hidden in
  t :: later.

(** Modelled from the spec: the direct-feedback pass of the TargetPropagator
    of [lib/networks.py] (section 4.3): every hidden target in one hop from
    the output target, through the layer's own mapping. *)
Definition direct_targets (hidden : list Layer) (out_target : array) : list array :=
  map (λ l, feedback l out_target) hidden ++ [out_target].

(** Modelled from the spec: one pass of the TargetPropagator of
    [lib/networks.py] (section 4.3): one target per layer, output last. *)
Definition compute_targets (net : Network) (s : Supervision) : list array :=
  if direct_fb net then direct_targets (hidden_layers net) (output_target net s)
  else chained_targets (diff_rec net) (hidden_layers net) (output_layer net)
         (output_target net s).

(** The pass as the in-place update of the layers' targets. *)
Definition propagate_targets (net : Network) (s : Supervision) : Network :=
  let ts := compute_targets net s in
  {| hidden_layers := zip_with set_target ts (hidden_layers net);
     output_layer := set_target (output_target net s) (output_layer net);
     direct_fb := direct_fb net; diff_rec := diff_rec net;
     target_stepsize := target_stepsize net |}.

(** *** LayerSelectionPolicy and the two training steps *)

(** Modelled from the spec: the layer selection of [lib/train.py]
    (section 4.5). *)
Inductive LayerSelectionPolicy := ALL | RANDOM_SINGLE.

(** Modelled from the spec: which hidden layers train at a step of
    [lib/train.py] (section 4.5), as the list of the equally likely outcomes
    of the selection: the one outcome "every hidden layer" under [ALL], and
    under [RANDOM_SINGLE] one outcome per hidden layer, the uniform draw among
    the [L] hidden layers. *)
Definition select_layers (p : LayerSelectionPolicy) (L : nat) : list (list nat) :=
  match p with
  | ALL => [seq 0 L]
  | RANDOM_SINGLE => map (λ i, [i]) (seq 0 L)
  end.

(** The probability of an event over equally likely outcomes. *)
Definition probability {A : Type} (P : A → Prop) `{∀ x, Decision (P x)}
    (outcomes : list A) : R :=
  INR (length (filter P outcomes)) / INR (length outcomes).

Section Training.

(** One optimizer step on a single layer: its new feedback mapping, from the
    reconstruction loss on a noise-corrupted activation, and its new forward
    weight and bias, from its target. *)
Variable feedback_step : Network → nat → array → Layer → FeedbackMapping.
Variable forward_step : Network → nat → Layer → matrix * option array.

Definition update_hidden (f : nat → Layer → Layer) (selected : list nat)
    (net : Network) : Network :=
  {| hidden_layers := foldr (λ i ls, alter (f i) i ls) (hidden_layers net) selected;
     output_layer := output_layer net;
     direct_fb := direct_fb net; diff_rec := diff_rec net;
     target_stepsize := target_stepsize net |}.

(** Modelled from the spec: one FeedbackTrainer step of [lib/train.py]
    (sections 4.2 and 4.5) on the layers [selected] for this step; [noise i]
    is the noise drawn for layer [i]. *)
Definition train_feedback (selected : list nat) (noise : nat → array)
    (net : Network) : Network :=
  update_hidden
    (λ i l, set_feedback_mapping (feedback_step net i (noise i) l) l)
    selected net.

(** Modelled from the spec: one forward step of [lib/train.py] on the hidden
    layers [selected] in the randomized-forward mode (section 4.5). *)
Definition train_forward (selected : list nat) (net : Network) : Network :=
  update_hidden
    (λ i l, let Wb := forward_step net i l in set_forward Wb.1 Wb.2 l)
    selected net.

(** The equally likely results of one step under the policy [p]: the step on
    each outcome of the selection. *)
Definition feedback_outcomes (p : LayerSelectionPolicy) (noise : nat → array)
    (net : Network) : list Network :=
  map (λ selected, train_feedback selected noise net)
      (select_layers p (num_hidden net)).

Definition forward_outcomes (p : LayerSelectionPolicy) (net : Network)
    : list Network :=
  map (λ selected, train_forward selected net)
      (select_layers p (num_hidden net)).

End Training.

(** *** The metrics of the DiagnosticsEngine *)

Definition clip (lo hi x : R) : R := Rmax lo (Rmin hi x).

(** Modelled from the spec: the angle of the diagnostics in [lib/utils.py]
    (section 4.6), in degrees. *)
Definition angle (u v : array) : R :=
  acos (clip (-1) 1 (dot u v / (norm u * norm v))) * (180 / PI).

(** Modelled from the spec: the normalized distance of the diagnostics in
    [lib/utils.py] (section 4.6). *)
Definition distance (u v : array) : R := norm (vsub u v) / norm v.

End Core.

(** ** [src/main.py]: [launch] and [run] *)

Module Launch.
Import Py Main.

(** [launch] talks to torch, torchvision, tensorboardX, [lib.builders] and
    [lib.train]. The model records each such call as an event, in order, and
    lets a [World] decide what the call does. *)

Inductive generator := TorchGen | TorchCudaGen | NumpyGen | RandomGen.
Inductive role := TrainRole | ValRole | TestRole.
Inductive data_source :=
| TrainTotal                 (* trainset_total *)
| SplitPart (k : nat)        (* trainset, valset = random_split(...) *)
| TestSet.
Inductive transform := ToTensorOnly | NormalizeMNIST | NormalizeCIFAR.

Inductive event :=
| ManualSeed (g : generator) (seed : value)
| CudnnDeterministic                  (* deterministic = True, benchmark = False *)
| DefaultTensorTypeCuda
| DefaultDtypeFloat64
| OpenDataset (name data_dir : string) (train : bool) (tf : transform)
| CudaGenerator                       (* torch.Generator(device="cuda") *)
| RandomSplit (sizes : list Z) (with_generator : bool)
| MakeLoader (r : role) (src : data_source) (batch_size : value)
    (shuffle with_generator : bool)
| GenerateTeacherData
| SetupSummary
| BuildNetwork
| Train
| TrainBP
| ReadAngles                          (* the eight net.* trajectories *)
| SaveSummary
| PlotLoss (logdir : value)
| PickleDump (path : string).

Inductive error :=
| PyExn (e : exn)
| NameError (name : string)
| UnboundLocalError (name : string)
| External (what : string).

Inductive outcome (A : Type) :=
| Done (a : A)
| Failed (e : error).
Arguments Done {A} a.
Arguments Failed {A} e.

(** A computation: the events it caused, oldest first, and how it ended. *)
Definition M (A : Type) : Type := list event * outcome A.

Definition ret {A : Type} (a : A) : M A := ([], Done a).
Definition fail {A : Type} (e : error) : M A := ([], Failed e).

Definition mbind {A B : Type} (m : M A) (f : A → M B) : M B :=
  match m with
  | (t, Done a) => ((t ++ (f a).1)%list, (f a).2)
  | (t, Failed e) => (t, Failed e)
  end.

Notation "x <~ m ; k" := (mbind m (λ x, k))
  (at level 20, m at level 100, k at level 200, only parsing).

Definition lift {A : Type} (r : result A) : M A :=
  match r with
  | Ok a => ret a
  | Raise e => fail (PyExn e)
  end.

(** What [launch] writes into the summary returned by the training loop. *)
Record Summary := {
  finished : value;                     (* summary["finished"] *)
  training_time : option float;         (* summary["training_time"], if launch set it *)
  angle_entries : bool                  (* the eight angle and distance entries *)
}.

Record World := {
  cuda_is_available : bool;
  call : event → option error;          (* does this external call raise? *)
  len_train_loader : Z;                 (* len(train_loader) *)
  finished_after_training : value;      (* summary["finished"] as train returns it *)
  elapsed : float                       (* time.time() - start_time *)
}.

(** [x == 0] as a condition. *)
Definition eq_zero (v : value) : result bool :=
  match v with
  | VInt n => Ok (n =? 0)%Z
  | VBool b => Ok (negb b)
  | VFloat x => Ok (x =? 0)%float
  | VArray [] => Ok false
  | VArray [x] => Ok (x =? 0)%float
  | VArray _ => Raise (ValueError "The truth value of an array with more than one element is ambiguous.")
  | _ => Ok false
  end.

Section WithWorld.
Variable L : Lib.
Variable W : World.

Definition emit (e : event) : M unit :=
  ([e], match call W e with
        | None => Done tt
        | Some err => Failed err
        end).

(** [bool(args.name)] *)
Definition flag (args : Namespace) (name : string) : M bool :=
  lift (v <- getattr args name; truthy v).

(** main.py 1431-1436. [int(args.random_seed)] is evaluated for each call. *)
Definition int_random_seed (args : Namespace) : M value :=
  lift (v <- getattr args "random_seed"; py_int L v).

Definition seed_all (args : Namespace) : M unit :=
  s <~ int_random_seed args; _ <~ emit (ManualSeed TorchGen s);
  s <~ int_random_seed args; _ <~ emit (ManualSeed TorchCudaGen s);
  s <~ int_random_seed args; _ <~ emit (ManualSeed NumpyGen s);
  s <~ int_random_seed args; emit (ManualSeed RandomGen s).

(** main.py 1441-1443 *)
Definition set_determinism (args : Namespace) : M unit :=
  d <~ flag args "cuda_deterministic";
  if d then emit CudnnDeterministic else ret tt.

(** main.py 1445-1449 *)
Definition select_device (args : Namespace) : M unit :=
  no_cuda <~ flag args "no_cuda";
  if negb no_cuda && cuda_is_available W then emit DefaultTensorTypeCuda else ret tt.

(** main.py 1451-1452 *)
Definition set_precision (args : Namespace) : M unit :=
  dp <~ flag args "double_precision";
  if dp then emit DefaultDtypeFloat64 else ret tt.

(** main.py 1459-1464, 1498-1503, 1531-1536 *)
Definition data_dir (args : Namespace) : M string :=
  m <~ flag args "multiple_hpsearch";
  if m then ret "../../../../../data"
  else
    h <~ flag args "hpsearch";
    if h then ret "../../../../data" else ret "./data".

Definition make_loader (args : Namespace) (r : role) (src : data_source)
    (shuffle with_generator : bool) : M unit :=
  bs <~ lift (getattr args "batch_size");
  emit (MakeLoader r src bs shuffle with_generator).

(** The three image branches (main.py 1456-1494, 1496-1527, 1529-1571) differ
    in the data set, the transform, the sizes of the validation split and the
    CUDA generator that only the CIFAR-10 split uses. The result tells whether
    there is a validation loader. *)
Definition image_loaders (args : Namespace) (name : string) (tf : M transform)
    (sizes : list Z) (gen : bool) : M bool :=
  dir <~ data_dir args;
  tf <~ tf;
  _ <~ emit (OpenDataset name dir true tf);
  no_val <~ flag args "no_val_set";
  has_val <~ (if no_val then
                _ <~ make_loader args TrainRole TrainTotal true false;
                ret false
              else
                _ <~ (if gen then emit CudaGenerator else ret tt);
                _ <~ emit (RandomSplit sizes gen);
                _ <~ make_loader args TrainRole (SplitPart 0) true gen;
                _ <~ make_loader args ValRole (SplitPart 1) false gen;
                ret true);
  _ <~ emit (OpenDataset name dir false tf);
  _ <~ make_loader args TestRole TestSet false false;
  ret has_val.

Definition mnist_transform (args : Namespace) : M transform :=
  raw <~ flag args "no_preprocessing_mnist";
  ret (if raw then ToTensorOnly else NormalizeMNIST).

(** main.py 1573-1604. [DataLoader] is a local name of [launch], bound only by
    the import inside the CIFAR-10 branch (main.py 1557); here it is read
    unbound. *)
Definition teacher_loaders (args : Namespace) : M bool :=
  _ <~ lift (getattr args "size_input");
  _ <~ lift (getattr args "size_output");
  _ <~ lift (getattr args "num_train");
  _ <~ lift (getattr args "num_test");
  _ <~ lift (getattr args "num_val");
  _ <~ emit GenerateTeacherData;
  fail (UnboundLocalError "DataLoader").

(** main.py 1456-1607 *)
Definition create_dataloaders (args : Namespace) : M bool :=
  d <~ lift (getattr args "dataset");
  c <~ lift (eq_str d "mnist");
  if c then image_loaders args "MNIST" (mnist_transform args) [55000; 5000]%Z false
  else
    c <~ lift (eq_str d "fashion_mnist");
    if c then image_loaders args "FashionMNIST" (ret ToTensorOnly) [55000; 5000]%Z false
    else
      c <~ lift (eq_str d "cifar10");
      if c then image_loaders args "CIFAR10" (ret NormalizeCIFAR) [45000; 5000]%Z true
      else
        c <~ lift (eq_str d "student_teacher");
        if c then teacher_loaders args
        else fail (PyExn (ValueError
                     ("The provided dataset " ++ py_str L d ++ " is not supported."))).

(** main.py 1609-1611 *)
Definition set_log_interval (args : Namespace) : M Namespace :=
  li <~ lift (getattr args "log_interval");
  if is_None li then
    ret (setattr "log_interval"
           (VInt (Z.max 1 (int_div_100 (len_train_loader W)))) args)
  else ret args.

(** main.py 1613-1616. [out_dir] is neither a local of [launch] nor a global
    of the module. *)
Definition open_writer (args : Namespace) : M unit :=
  s <~ flag args "save_logs";
  if s then fail (NameError "out_dir") else ret tt.

(** Everything before the network is built (main.py 1431-1616). *)
Definition prepare (args : Namespace) : M Namespace :=
  _ <~ seed_all args;
  _ <~ set_determinism args;
  _ <~ select_device args;
  _ <~ set_precision args;
  _ <~ create_dataloaders args;
  args <~ set_log_interval args;
  _ <~ open_writer args;
  ret args.

(** main.py 1618-1651 *)
Definition train_network (args : Namespace) : M Summary :=
  _ <~ emit SetupSummary;
  _ <~ emit BuildNetwork;
  nt <~ lift (getattr args "network_type");
  bp <~ lift (in_strs nt ["BP"; "BPConv"]);
  _ <~ emit (if bp then TrainBP else Train);
  ret {| finished := finished_after_training W; training_time := None;
         angle_entries := false |}.

(** main.py 1655-1663 *)
Definition collect_angles (args : Namespace) (s : Summary) : M Summary :=
  nt <~ lift (getattr args "network_type");
  bp <~ lift (eq_str nt "BP");
  if negb bp then
    _ <~ emit ReadAngles;
    ret {| finished := finished s; training_time := training_time s;
           angle_entries := true |}
  else ret s.

(** main.py 1667-1671 *)
Definition mark_finished (s : Summary) : M Summary :=
  z <~ lift (eq_zero (finished s));
  if z then
    let s' := {| finished := VInt 1; training_time := Some (elapsed W);
                 angle_entries := angle_entries s |} in
    _ <~ emit SaveSummary;
    ret s'
  else ret s.

(** main.py 1672-1683. The writer is [None] whenever this point is reached. *)
Definition write_results (args : Namespace) (s : Summary) : M Summary :=
  p <~ flag args "save_loss_plot";
  _ <~ (if p then
          d <~ lift (getattr args "out_dir");
          emit (PlotLoss d)
        else ret tt);
  d <~ lift (getattr args "out_dir");
  match d with
  | VStr dir =>
      _ <~ emit (PickleDump (os_path_join dir "results.pickle"));
      ret s
  | _ => fail (PyExn TypeError)
  end.

(** main.py 1429-1683 *)
Definition launch (args : Namespace) : M Summary :=
  args <~ prepare args;
  s <~ train_network args;
  s <~ collect_angles args s;
  s <~ mark_finished s;
  write_results args s.

(** main.py 75-91, from the parsed namespace on. *)
Definition run (parsed : Namespace) : M Summary :=
  args <~ lift (postprocess_args L parsed);
  launch args.

End WithWorld.

(** *** Vocabulary for stating what [launch] does *)

Definition trace {A : Type} (m : M A) : list event := m.1.
Definition result_of {A : Type} (m : M A) : outcome A := m.2.

(** Every event of [m] satisfies [P]. *)
Definition events {A : Type} (P : event → Prop) (m : M A) : Prop :=
  Forall P (trace m).

Definition seed_events (s : value) : list event :=
  [ManualSeed TorchGen s; ManualSeed TorchCudaGen s;
   ManualSeed NumpyGen s; ManualSeed RandomGen s].

(** The stage of [launch] an event belongs to. *)
Definition phase (e : event) : nat :=
  match e with
  | ManualSeed _ _ => 0
  | CudnnDeterministic => 1
  | DefaultTensorTypeCuda => 2
  | DefaultDtypeFloat64 => 3
  | OpenDataset _ _ _ _ | CudaGenerator | RandomSplit _ _
  | MakeLoader _ _ _ _ _ | GenerateTeacherData => 4
  | SetupSummary => 5
  | BuildNetwork => 6
  | Train | TrainBP => 7
  | ReadAngles => 8
  | SaveSummary => 9
  | PlotLoss _ => 10
  | PickleDump _ => 11
  end.

(** The events of [m] lie in phases [lo..hi]. *)
Definition within {A : Type} (lo hi : nat) (m : M A) : Prop :=
  events (λ e, (lo ≤ phase e ≤ hi)%nat) m.

(** The events of [m] lie in phases [lo..hi] and their phases never
    decrease. *)
Definition phased {A : Type} (lo hi : nat) (m : M A) : Prop :=
  within lo hi m ∧ StronglySorted (λ a b, (phase a ≤ phase b)%nat) (trace m).

(** The events of phase [p], in order. *)
Definition at_phase (p : nat) (t : list event) : list event :=
  filter (λ e, phase e = p) t.

(** The loaders created, in order: role, data, batch size, [shuffle] and
    whether a generator was passed. *)
Definition loader_of (e : event)
    : option (role * data_source * value * bool * bool) :=
  match e with
  | MakeLoader r src bs shuffle gen => Some (r, src, bs, shuffle, gen)
  | _ => None
  end.

Definition loaders (t : list event)
    : list (role * data_source * value * bool * bool) :=
  omap loader_of t.

(** What holds of every loader and split that [launch] creates: only the
    training loader shuffles, a split keeps 5000 samples for validation, and
    a CUDA generator goes with the CIFAR-10 split only. *)
Definition loader_ok (e : event) : Prop :=
  match e with
  | MakeLoader r src _ shuffle gen =>
      shuffle = (match r with TrainRole => true | _ => false end) ∧
      (r = TestRole ↔ src = TestSet) ∧
      (gen = true → src = SplitPart 0 ∨ src = SplitPart 1)
  | RandomSplit sizes gen =>
      sizes = (if gen then [45000; 5000] else [55000; 5000])%Z
  | _ => True
  end.

(** No validation data is split off or loaded. *)
Definition no_validation (e : event) : Prop :=
  match e with
  | MakeLoader r src _ _ _ => r ≠ ValRole ∧ src ≠ SplitPart 0 ∧ src ≠ SplitPart 1
  | RandomSplit _ _ | CudaGenerator => False
  | _ => True
  end.

End Launch.

(** ** A concrete command line, for running the model *)

Module Example.
Import Py Main.

#[local] Set Warnings "-inexact-float".

(** A stand-in for [lib.utils] and the built-ins on the handful of strings
    that the command lines below contain. *)
Definition float_table : list (string * float) :=
  [("0.01", 0.01%float); ("0.000101149118237", 0.000101149118237%float);
   ("1e-4", 0.0001%float); ("0.", 0%float); ("0.5", 0.5%float)].

Definition list_table : list (string * list float) :=
  [("0.1,0.2,0.4", [0.1; 0.2; 0.4]%float)].

Fixpoint assoc {A : Type} (s : string) (t : list (string * A)) : option A :=
  match t with
  | [] => None
  | (k, v) :: rest => if k =? s then Some v else assoc s rest
  end.

Definition parse_lr (v : value) : result value :=
  match v with
  | VStr s =>
      if contains_comma s then
        match assoc s list_table with
        | Some l => Ok (VArray l)
        | None => Raise (ValueError "could not convert string to float")
        end
      else
        match assoc s float_table with
        | Some x => Ok (VFloat x)
        | None => Raise (ValueError "could not convert string to float")
        end
  | _ => Raise TypeError
  end.

Definition parse_int (v : value) : result value :=
  match v with
  | VInt n => Ok (VInt n)
  | VStr "1" => Ok (VInt 1)
  | VStr "100" => Ok (VInt 100)
  | VStr "500" => Ok (VInt 500)
  | VStr _ => Raise (ValueError "invalid literal for int()")
  | _ => Raise TypeError
  end.

Definition parse_float (v : value) : result value :=
  match v with
  | VFloat x => Ok (VFloat x)
  | VStr s =>
      match assoc s float_table with
      | Some x => Ok (VFloat x)
      | None => Raise (ValueError "could not convert string to float")
      end
  | _ => Raise TypeError
  end.

Definition show (v : value) : string :=
  match v with
  | VStr s => s
  | VNone => "None"
  | _ => "<value>"
  end.

Definition table_lib : Lib := {|
  process_lr := parse_lr;
  process_nb_feedback_iterations := parse_int;
  process_hdim := parse_int;
  process_hdim_fb := parse_int;
  str_to_list := parse_lr;
  py_int := parse_int;
  py_float := parse_float;
  py_str := show;
  truediv_other := λ _ _, Raise TypeError;
  np_truediv_other := λ _ _, Raise TypeError;
  os_path_exists := λ _, true;
  os_makedirs := λ _, Ok tt;
  dump_json := λ _ _, Ok tt
|}.

(** The attributes that post-processing reads, at the defaults of
    [add_command_line_args] (main.py 646-1294). *)
Definition default_args : Namespace :=
  list_to_map
    [("dataset", VStr "cifar10");
     ("lr", VStr "0.01");
     ("lr_fb", VStr "0.000101149118237");
     ("nb_feedback_iterations", VStr "1");
     ("target_stepsize", VFloat 0.01%float);
     ("optimizer", VStr "SGD");
     ("optimizer_fb", VNone);
     ("train_randomized", VBool false);
     ("normalize_lr", VBool false);
     ("freeze_fb_weights", VBool false);
     ("shallow_training", VBool false);
     ("epsilon", VStr "1e-4");
     ("epsilon_fb", VStr "1e-4");
     ("size_hidden", VStr "500");
     ("hidden_activation", VStr "tanh");
     ("output_activation", VStr "softmax");
     ("fb_activation", VNone);
     ("network_type", VStr "DDTPConvCIFAR");
     ("size_mlp_fb", VStr "100");
     ("hidden_fb_activation", VNone);
     ("random_seed", VInt 42);
     ("out_dir", VStr "logs");
     ("save_BP_angle", VBool false);
     ("save_GN_angle", VBool false);
     ("save_GNT_angle", VBool false);
     ("save_GN_activations_angle", VBool false);
     ("save_BP_activations_angle", VBool false);
     ("gn_damping", VStr "0.");
     ("log_interval", VNone)].

(** [--network_type DFA --dataset mnist --train_randomized --fb_activation tanh] *)
Definition dfa_args : Namespace :=
  <["network_type" := VStr "DFA"]>
    (<["dataset" := VStr "mnist"]>
       (<["train_randomized" := VBool true]>
          (<["fb_activation" := VStr "tanh"]> default_args))).

(** [--network_type DTP --shallow_training] and [--network_type BP --shallow_training] *)
Definition shallow_dtp_args : Namespace :=
  <["shallow_training" := VBool true]> (<["network_type" := VStr "DTP"]> default_args).

Definition shallow_bp_args : Namespace :=
  <["shallow_training" := VBool true]> (<["network_type" := VStr "BP"]> default_args).

(** [--normalize_lr --target_stepsize 0.5 --lr 0.1,0.2,0.4 --network_type DTP] *)
Definition normalized_args : Namespace :=
  <["normalize_lr" := VBool true]>
    (<["target_stepsize" := VFloat 0.5%float]>
       (<["lr" := VStr "0.1,0.2,0.4"]>
          (<["network_type" := VStr "DTP"]> default_args))).


(** The namespace a run leaves behind, or the empty one if it raised. *)
Definition returned (r : result Namespace) : Namespace :=
  match r with
  | Ok a => a
  | Raise _ => ∅
  end.

Definition returns (r : result Namespace) : bool :=
  match r with
  | Ok _ => true
  | Raise _ => false
  end.

Definition dfa_args_post : Namespace := returned (postprocess_args table_lib dfa_args).
Definition shallow_dtp_body : Namespace :=
  returned (postprocess_args_body table_lib shallow_dtp_args).
Definition shallow_bp_body : Namespace :=
  returned (postprocess_args_body table_lib shallow_bp_args).
Definition normalized_args_post : Namespace :=
  returned (postprocess_args table_lib normalized_args).

End Example.

(** ** A small network, for running the core *)

Module CoreExample.
Import Core.
Local Close Scope string_scope.
Local Open Scope R_scope.

Definition identity_feedback (W : matrix) : FeedbackMapping :=
  {| fb_kind := Linear W None; fb_nonlinearity := λ x, x; fb_recurrent := false |}.

Definition layer (W Q : matrix) (a : array) : Layer :=
  {| weights := W; bias := None; nonlinearity := λ x, x;
     feedback_mapping := identity_feedback Q;
     linear_activation := a; activation := a;
     target := None; reconstruction_loss := 0 |}.

Definition h1 : Layer := layer [[1; 0]; [0; 1]] [[1; 0]; [0; 1]] [1; 2].
Definition h2 : Layer := layer [[0; 1]; [1; 0]] [[2; 0]; [0; 2]] [2; 1].
Definition out : Layer := layer [[1; 1]; [1; -1]] [[1; 0]; [0; 1]] [0; 1].

(** Two hidden layers, chained feedback, difference reconstruction. *)
Definition chained_net : Network :=
  {| hidden_layers := [h1; h2]; output_layer := out;
     direct_fb := false; diff_rec := true; target_stepsize := 1 / 2 |}.

(** No hidden layer at all. *)
Definition single_layer_net : Network :=
  {| hidden_layers := []; output_layer := out;
     direct_fb := false; diff_rec := false; target_stepsize := 1 / 2 |}.

(** Stand-ins for the optimizer: a feedback step that doubles the weights of
    a linear mapping, and a forward step that keeps the weights and sets the
    bias to the cached activation. *)
Definition doubling_feedback_step (_ : Network) (_ : nat) (_ : array) (l : Layer)
    : FeedbackMapping :=
  match fb_kind (feedback_mapping l) with
  | Linear W b => identity_feedback (map (vscale 2) W)
  | _ => feedback_mapping l
  end.

Definition bias_forward_step (_ : Network) (_ : nat) (l : Layer)
    : matrix * option array :=
  (weights l, Some (activation l)).

End CoreExample.

(** ** A data set that the program does not know *)

Module DatasetExample.
Import Py Main Example.

(** [--network_type DFA --dataset imagenet ...]: [output_activation] is at
    its default ["softmax"]. *)
Definition imagenet_args : Namespace := <["dataset" := VStr "imagenet"]> dfa_args.

Definition imagenet_args_post : Namespace :=
  returned (postprocess_args table_lib imagenet_args).

Definition imagenet_args_logged : Namespace :=
  returned (bind (set_save_angle imagenet_args) (create_log_dir table_lib "self.txt")).

End DatasetExample.

(** ** A concrete world, for running [launch] *)

Module LaunchExample.
Import Py Main Launch Example.

#[local] Set Warnings "-inexact-float".

(** The attributes that [launch] reads besides those of [default_args], at
    the defaults of [add_command_line_args] (main.py 646-1294). *)
Definition launch_defaults : list (string * value) :=
  [("num_train", VInt 1000); ("num_test", VInt 1000); ("num_val", VInt 1000);
   ("batch_size", VInt 100);
   ("size_input", VInt 3072); ("size_output", VInt 10);
   ("no_cuda", VBool false); ("cuda_deterministic", VBool false);
   ("double_precision", VBool false);
   ("multiple_hpsearch", VBool false); ("hpsearch", VBool false);
   ("no_preprocessing_mnist", VBool false); ("no_val_set", VBool false);
   ("save_logs", VBool false); ("save_loss_plot", VBool false)].

Definition with_options (opts : list (string * value)) (a : Namespace) : Namespace :=
  foldr (λ kv, setattr kv.1 kv.2) a opts.

(** No option given, [--network_type BPConv], [--dataset student_teacher],
    [--save_logs], and the DFA command line of [dfa_args]. *)
Definition cli_args : Namespace := with_options launch_defaults default_args.
Definition bpconv_args : Namespace := <["network_type" := VStr "BPConv"]> cli_args.
Definition teacher_args : Namespace := <["dataset" := VStr "student_teacher"]> cli_args.
Definition save_logs_args : Namespace := <["save_logs" := VBool true]> cli_args.
Definition dfa_cli_args : Namespace := with_options launch_defaults dfa_args.

(** A machine with a GPU on which no call fails, 450 batches per epoch, and a
    training loop that leaves [finished] at 0. *)
Definition quiet_world : World := {|
  cuda_is_available := true;
  call := λ _, None;
  len_train_loader := 450;
  finished_after_training := VInt 0;
  elapsed := 3600%float
|}.

(** The summary of a run, or an empty one if it failed. *)
Definition summary_of (m : M Summary) : Summary :=
  match result_of m with
  | Done s => s
  | Failed _ => {| finished := VNone; training_time := None; angle_entries := false |}
  end.

(** The namespace [prepare] hands on, or the empty one if it failed. *)
Definition prepared (m : M Namespace) : Namespace :=
  match result_of m with
  | Done a => a
  | Failed _ => ∅
  end.

Definition completes (m : M Namespace) : bool :=
  match result_of m with
  | Done _ => true
  | Failed _ => false
  end.

Definition finishes (m : M Summary) : bool :=
  match result_of m with
  | Done _ => true
  | Failed _ => false
  end.

End LaunchExample.


(** * Properties of the post-processing *)

Section MainFacts.
Import Py Main.
Variable L : Lib.

Lemma bind_Ok {A B : Type} (m : result A) (f : A → result B) (b : B) :
  bind m f = Ok b → ∃ a, m = Ok a ∧ f a = Ok b.
Proof. destruct m as [a|e]; simpl; [eauto | discriminate]. Qed.

Lemma getattr_Ok (o : Namespace) (k : string) (v : value) :
  getattr o k = Ok v → o !! k = Some v.
Proof. unfold getattr. destruct (o !! k); congruence. Qed.

Lemma getattr_lookup (o : Namespace) (k : string) (v : value) :
  o !! k = Some v → getattr o k = Ok v.
Proof. unfold getattr. intros ->. reflexivity. Qed.

(** Break a successful run [H : c = Ok _] of a monadic computation [c] into the
    successful runs of its parts. *)
Ltac run_inv H :=
  match type of H with
  | bind _ _ = Ok _ =>
      let a := fresh "a" in
      let E := fresh "E" in
      apply bind_Ok in H as (a & E & H); run_inv E; run_inv H
  | (if ?c then _ else _) = Ok _ =>
      let C := fresh "C" in destruct c eqn:C; run_inv H
  | Ok _ = Ok _ => injection H as H; subst
  | Raise _ = Ok _ => discriminate H
  | getattr _ _ = Ok _ => apply getattr_Ok in H
  | match ?x with _ => _ end = Ok _ =>
      let C := fresh "C" in destruct x eqn:C; run_inv H
  | _ => idtac
  end.

Lemma preserves_bind k (f g : Namespace → result Namespace) :
  preserves k f → preserves k g → preserves k (λ a, bind (f a) g).
Proof.
  intros Hf Hg a a' H. apply bind_Ok in H as (b & Hb & H).
  rewrite (Hg _ _ H). apply (Hf _ _ Hb).
Qed.

Lemma preserves_set_save_angle k : k ≠ "save_angle" → preserves k set_save_angle.
Proof.
  intros Hk a a' H. unfold set_save_angle in H. run_inv H.
  unfold setattr. by rewrite lookup_insert_ne.
Qed.

Lemma preserves_create_log_dir k fname :
  k ≠ "out_dir" → preserves k (create_log_dir L fname).
Proof.
  intros Hk a a' H. unfold create_log_dir in H. run_inv H.
  all: simpl; unfold setattr; by rewrite ?lookup_insert_ne.
Qed.


Ltac frame_run H :=
  run_inv H; simpl; repeat case_match;
  unfold setattr; rewrite ?lookup_insert_ne by done; done.

Tactic Notation "frame_step" reference(def) :=
  intros; unfold preserves;
  let H := fresh "Hrun" in
  intros ? ? H; unfold def in H; frame_run H.

Lemma preserves_set_dataset_kind k :
  k ≠ "classification" → k ≠ "regression" → preserves k set_dataset_kind.
Proof. frame_step set_dataset_kind. Qed.

Lemma preserves_default_from k name fallback :
  k ≠ name → preserves k (default_from name fallback).
Proof. frame_step default_from. Qed.

Lemma preserves_process_attr k f name :
  k ≠ name → preserves k (process_attr f name).
Proof. frame_step process_attr. Qed.

Lemma preserves_init_None_options k :
  k ≠ "output_activation" → k ≠ "fb_activation" →
  k ≠ "hidden_fb_activation" → k ≠ "optimizer_fb" →
  preserves k (init_None_options L).
Proof.
  intros ? ? ? ? a a' Hrun.
  unfold init_None_options, default_from in Hrun. frame_run Hrun.
Qed.

Create HintDb frame discriminated.
#[local] Hint Resolve preserves_process_attr preserves_default_from : frame.
#[local] Hint Extern 1 (_ ≠ _) => done : frame.

Ltac frame_chain :=
  repeat (apply preserves_bind; [ solve [eauto with frame] | ]).

Lemma preserves_process_string_options k :
  k ∉ ["lr"; "lr_fb"; "nb_feedback_iterations"; "epsilon_fb"; "epsilon";
       "size_hidden"; "random_seed"; "size_mlp_fb"] →
  preserves k (process_string_options L).
Proof.
  intros Hk. repeat (apply not_elem_of_cons in Hk as [? Hk]).
  unfold process_string_options. frame_chain.
  intros a a' Hrun. unfold process_attr in Hrun. frame_run Hrun.
Qed.

Lemma preserves_normalize_lr k : k ≠ "lr" → preserves k (normalize_lr L).
Proof. frame_step normalize_lr. Qed.

Lemma preserves_freeze_fb_for_GN k :
  k ≠ "freeze_fb_weights" → preserves k freeze_fb_for_GN.
Proof. frame_step freeze_fb_for_GN. Qed.

Lemma preserves_set_diff_rec_loss k :
  k ≠ "diff_rec_loss" → preserves k set_diff_rec_loss.
Proof. frame_step set_diff_rec_loss. Qed.

Lemma preserves_set_direct_fb k : k ≠ "direct_fb" → preserves k set_direct_fb.
Proof. frame_step set_direct_fb. Qed.

Lemma preserves_process_gn_damping k :
  k ≠ "gn_damping" → preserves k (process_gn_damping L).
Proof. frame_step process_gn_damping. Qed.

Lemma check_shallow_training_Ok a a' : check_shallow_training a = Ok a' → a' = a.
Proof. intros H. unfold check_shallow_training in H. run_inv H; reflexivity. Qed.


Lemma preserves_Args_set_dataset_kind k :
  k ≠ "classification" → k ≠ "regression" → preserves k (Args.set_dataset_kind L).
Proof. frame_step Args.set_dataset_kind. Qed.

Lemma preserves_Args_init_None_options k :
  k ≠ "output_activation" → k ≠ "fb_activation" →
  k ≠ "hidden_fb_activation" → k ≠ "optimizer_fb" →
  preserves k Args.init_None_options.
Proof.
  intros ? ? ? ? a a' Hrun.
  unfold Args.init_None_options, Args.default_or in Hrun. frame_run Hrun.
Qed.

Lemma preserves_process_attr_if_str k f name :
  k ≠ name → preserves k (Args.process_attr_if_str f name).
Proof.
  intros Hk a a' Hrun.
  unfold Args.process_attr_if_str, process_attr in Hrun. frame_run Hrun.
Qed.

#[local] Hint Resolve preserves_process_attr_if_str : frame.

Lemma preserves_Args_process_string_options k :
  k ∉ ["lr"; "lr_fb"; "nb_feedback_iterations"; "epsilon_fb"; "epsilon";
       "size_hidden"; "random_seed"; "size_mlp_fb"] →
  preserves k (Args.process_string_options L).
Proof.
  intros Hk. repeat (apply not_elem_of_cons in Hk as [? Hk]).
  unfold Args.process_string_options. frame_chain.
  intros a a' Hrun. unfold Args.process_attr_if_str, process_attr in Hrun.
  frame_run Hrun.
Qed.

Lemma preserves_np_normalize_lr k : k ≠ "lr" → preserves k (np_normalize_lr L).
Proof. frame_step np_normalize_lr. Qed.

Lemma preserves_rewrite_DFA k :
  k ∉ ["freeze_fb_weights"; "network_type"; "size_mlp_fb"; "fb_activation";
       "train_randomized"] →
  preserves k rewrite_DFA.
Proof.
  intros Hk a a' Hrun. repeat (apply not_elem_of_cons in Hk as [? Hk]).
  unfold rewrite_DFA in Hrun. frame_run Hrun.
Qed.

Lemma preserves_rewrite_DFAConv k alias target :
  k ∉ ["freeze_fb_weights"; "network_type"; "fb_activation"; "train_randomized"] →
  preserves k (rewrite_DFAConv alias target).
Proof.
  intros Hk a a' Hrun. repeat (apply not_elem_of_cons in Hk as [? Hk]).
  unfold rewrite_DFAConv in Hrun. frame_run Hrun.
Qed.


#[local] Hint Resolve preserves_set_save_angle preserves_create_log_dir
  preserves_set_dataset_kind preserves_init_None_options
  preserves_process_string_options preserves_normalize_lr
  preserves_freeze_fb_for_GN preserves_rewrite_DFA preserves_rewrite_DFAConv
  preserves_set_diff_rec_loss preserves_set_direct_fb
  preserves_process_gn_damping preserves_Args_set_dataset_kind
  preserves_Args_init_None_options preserves_Args_process_string_options
  preserves_np_normalize_lr : frame.
#[local] Hint Extern 1 (_ ∉ _) =>
  solve [repeat (apply not_elem_of_cons; split; [done|]); apply not_elem_of_nil] : frame.

Lemma preserves_rewrite_network_type k :
  k ∉ ["freeze_fb_weights"; "network_type"; "size_mlp_fb"; "fb_activation";
       "train_randomized"; "diff_rec_loss"; "direct_fb"] →
  preserves k rewrite_network_type.
Proof.
  intros Hk. repeat (apply not_elem_of_cons in Hk as [? Hk]).
  unfold rewrite_network_type. frame_chain. by apply preserves_set_direct_fb.
Qed.

#[local] Hint Resolve preserves_rewrite_network_type : frame.

(** Attributes outside [assigned_attributes] come out of post-processing as
    they went in. *)
Lemma preserves_postprocess_args_body k :
  k ∉ assigned_attributes → preserves k (postprocess_args_body L).
Proof.
  intros Hk. repeat (apply not_elem_of_cons in Hk as [? Hk]).
  unfold postprocess_args_body. frame_chain. by apply preserves_process_gn_damping.
Qed.

Lemma preserves_post_init_body k :
  k ∉ assigned_attributes → preserves k (Args.post_init_body L).
Proof.
  intros Hk. repeat (apply not_elem_of_cons in Hk as [? Hk]).
  unfold Args.post_init_body. frame_chain. by apply preserves_process_gn_damping.
Qed.

(** *** What becomes of [network_type] *)

Lemma rewrite_DFA_network_type a a' v :
  rewrite_DFA a = Ok a' → a !! "network_type" = Some v →
  a' !! "network_type" =
    Some (match v with
          | VStr s => if s =? "DFA" then VStr "DMLPDTP2" else v
          | _ => v
          end).
Proof.
  intros H Hv. unfold rewrite_DFA in H. run_inv H.
  rewrite Hv in E; injection E as <-.
  destruct v; simpl in *; simplify_eq; try done.
  destruct (s =? "DFA"); unfold setattr; by simplify_map_eq.
Qed.

Lemma rewrite_DFAConv_network_type alias target a a' v :
  rewrite_DFAConv alias target a = Ok a' → a !! "network_type" = Some v →
  a' !! "network_type" =
    Some (match v with
          | VStr s => if s =? alias then VStr target else v
          | _ => v
          end).
Proof.
  intros H Hv. unfold rewrite_DFAConv in H. run_inv H.
  rewrite Hv in E; injection E as <-.
  destruct v; simpl in *; simplify_eq; try done.
  destruct (s =? alias); unfold setattr; by simplify_map_eq.
Qed.

Lemma rewrite_network_type_resolved a a' v :
  rewrite_network_type a = Ok a' → a !! "network_type" = Some v →
  a' !! "network_type" = Some (resolved v).
Proof.
  intros H Hv. unfold rewrite_network_type in H. run_inv H.
  rewrite (preserves_set_direct_fb "network_type" ltac:(done) _ _ H).
  rewrite (preserves_set_diff_rec_loss "network_type" ltac:(done) _ _ E3).
  rewrite <- (preserves_freeze_fb_for_GN "network_type" ltac:(done) _ _ E) in Hv.
  pose proof (rewrite_DFA_network_type _ _ _ E0 Hv) as H1.
  pose proof (rewrite_DFAConv_network_type _ _ _ _ _ E1 H1) as H2.
  rewrite (rewrite_DFAConv_network_type _ _ _ _ _ E2 H2).
  f_equal. destruct v; try reflexivity. unfold resolved, resolve_alias.
  destruct (s =? "DFA") eqn:Hs; [reflexivity|].
  destruct (s =? "DFAConv") eqn:Hs'; [reflexivity|].
  by destruct (s =? "DFAConvCIFAR").
Qed.


(** *** The feedback-alignment alias *)

Lemma rewrite_DFA_fields a a' :
  a !! "network_type" = Some (VStr "DFA") → rewrite_DFA a = Ok a' →
  DFA_rewritten a'.
Proof.
  intros Hnt H. unfold rewrite_DFA in H. run_inv H.
  rewrite Hnt in E; injection E as <-. simpl in E0. injection E0 as <-.
  unfold DFA_rewritten, setattr. by simplify_map_eq.
Qed.

Lemma rewrite_DFAConv_skip alias target a a' s :
  a !! "network_type" = Some (VStr s) → (s =? alias) = false →
  rewrite_DFAConv alias target a = Ok a' → a' = a.
Proof.
  intros Hnt Hs H. unfold rewrite_DFAConv in H. run_inv H.
  rewrite Hnt in E; injection E as <-. simpl in E0. rewrite Hs in E0.
  by injection E0 as <-.
Qed.

(** Later steps that keep the five attributes keep [DFA_rewritten]. *)
Lemma DFA_rewritten_preserved f a a' :
  (∀ k, k ∈ ["network_type"; "fb_activation"; "size_mlp_fb";
             "freeze_fb_weights"; "train_randomized"] → preserves k f) →
  f a = Ok a' → DFA_rewritten a → DFA_rewritten a'.
Proof.
  intros Hf H (H1 & H2 & H3 & H4 & H5). unfold DFA_rewritten.
  rewrite (Hf "network_type" ltac:(repeat constructor) _ _ H).
  rewrite (Hf "fb_activation" ltac:(repeat constructor) _ _ H).
  rewrite (Hf "size_mlp_fb" ltac:(repeat constructor) _ _ H).
  rewrite (Hf "freeze_fb_weights" ltac:(repeat constructor) _ _ H).
  rewrite (Hf "train_randomized" ltac:(repeat constructor) _ _ H).
  done.
Qed.

(** A goal about each member [k] of a literal list [Hk : k ∈ [...]]. *)
Ltac each_key Hk :=
  repeat (apply elem_of_cons in Hk as [-> | Hk]);
  [.. | by apply elem_of_nil in Hk].

Lemma rewrite_network_type_DFA a a' :
  a !! "network_type" = Some (VStr "DFA") → rewrite_network_type a = Ok a' →
  DFA_rewritten a'.
Proof.
  intros Hnt H. unfold rewrite_network_type in H. run_inv H.
  rewrite <- (preserves_freeze_fb_for_GN "network_type" ltac:(done) _ _ E) in Hnt.
  pose proof (rewrite_DFA_fields _ _ Hnt E0) as HD.
  assert (a2 = a1) as ->
    by (eapply rewrite_DFAConv_skip with (3 := E1); [apply HD | reflexivity]).
  assert (a3 = a1) as ->
    by (eapply rewrite_DFAConv_skip with (3 := E2); [apply HD | reflexivity]).
  eapply DFA_rewritten_preserved; [| apply H |].
  { intros k Hk. apply preserves_set_direct_fb. each_key Hk; done. }
  eapply DFA_rewritten_preserved; [| apply E3 |]; [| assumption].
  intros k Hk. apply preserves_set_diff_rec_loss. each_key Hk; done.
Qed.

Lemma postprocess_args_body_DFA a a' :
  a !! "network_type" = Some (VStr "DFA") → postprocess_args_body L a = Ok a' →
  DFA_rewritten a'.
Proof.
  intros Hnt H. unfold postprocess_args_body in H. run_inv H.
  eapply DFA_rewritten_preserved; [| apply H |].
  { intros k Hk. apply preserves_process_gn_damping. each_key Hk; done. }
  eapply rewrite_network_type_DFA; [| apply E5].
  rewrite (preserves_normalize_lr "network_type" ltac:(done) _ _ E4).
  rewrite (preserves_process_string_options "network_type" ltac:(eauto with frame) _ _ E3).
  rewrite (preserves_init_None_options "network_type"
             ltac:(done) ltac:(done) ltac:(done) ltac:(done) _ _ E2).
  rewrite (preserves_set_dataset_kind "network_type" ltac:(done) ltac:(done) _ _ E1).
  rewrite (preserves_create_log_dir "network_type" _ ltac:(done) _ _ E0).
  by rewrite (preserves_set_save_angle "network_type" ltac:(done) _ _ E).
Qed.

Lemma post_init_body_DFA a a' :
  a !! "network_type" = Some (VStr "DFA") → Args.post_init_body L a = Ok a' →
  DFA_rewritten a'.
Proof.
  intros Hnt H. unfold Args.post_init_body in H. run_inv H.
  eapply DFA_rewritten_preserved; [| apply H |].
  { intros k Hk. apply preserves_process_gn_damping. each_key Hk; done. }
  eapply rewrite_network_type_DFA; [| apply E5].
  rewrite (preserves_np_normalize_lr "network_type" ltac:(done) _ _ E4).
  rewrite (preserves_Args_process_string_options "network_type"
             ltac:(eauto with frame) _ _ E3).
  rewrite (preserves_Args_init_None_options "network_type"
             ltac:(done) ltac:(done) ltac:(done) ltac:(done) _ _ E2).
  rewrite (preserves_Args_set_dataset_kind "network_type"
             ltac:(done) ltac:(done) _ _ E1).
  rewrite (preserves_create_log_dir "network_type" _ ltac:(done) _ _ E0).
  by rewrite (preserves_set_save_angle "network_type" ltac:(done) _ _ E).
Qed.

(** C1. A configuration with [network_type = "DFA"] leaves post-processing,
    by either routine, with [network_type = "DMLPDTP2"], a linear feedback
    activation, no feedback-MLP hidden size, frozen feedback weights and
    randomized training off, whatever those five attributes were before. *)
Theorem DFA_becomes_frozen_linear_DMLPDTP2 (args args' : Namespace) :
  args !! "network_type" = Some (VStr "DFA") →
  postprocess_args L args = Ok args' ∨ Args.__post_init__ L args = Ok args' →
  args' !! "network_type" = Some (VStr "DMLPDTP2") ∧
  args' !! "fb_activation" = Some (VStr "linear") ∧
  args' !! "size_mlp_fb" = Some VNone ∧
  args' !! "freeze_fb_weights" = Some (VBool true) ∧
  args' !! "train_randomized" = Some (VBool false).
Proof.
  intros Hnt [H | H].
  - unfold postprocess_args in H. run_inv H.
    apply check_shallow_training_Ok in H as ->.
    exact (postprocess_args_body_DFA _ _ Hnt E).
  - unfold Args.__post_init__ in H. run_inv H.
    apply check_shallow_training_Ok in H as ->.
    exact (post_init_body_DFA _ _ Hnt E).
Qed.


(** *** The shallow-training check *)

Lemma resolve_alias_BP s : (resolve_alias s =? "BP") = (s =? "BP").
Proof.
  unfold resolve_alias.
  destruct (s =? "DFA") eqn:H1; [apply String.eqb_eq in H1 as ->; reflexivity|].
  destruct (s =? "DFAConv") eqn:H2; [apply String.eqb_eq in H2 as ->; reflexivity|].
  destruct (s =? "DFAConvCIFAR") eqn:H3; [apply String.eqb_eq in H3 as ->|]; reflexivity.
Qed.

(** A value that could be compared with one string literal can be compared
    with any. *)
Lemma eq_str_comparable v s c s' :
  eq_str v s = Ok c → eq_str (resolved v) s' = Ok (match resolved v with
                                                   | VStr x => x =? s'
                                                   | _ => false
                                                   end).
Proof. destruct v; simpl; intros H; try reflexivity. discriminate. Qed.

Lemma rewrite_network_type_comparable a a' v :
  rewrite_network_type a = Ok a' → a !! "network_type" = Some v →
  ∃ c, eq_str v "GN" = Ok c.
Proof.
  intros H Hv. unfold rewrite_network_type in H. run_inv H.
  unfold freeze_fb_for_GN in E. apply bind_Ok in E as (x & Hx & E).
  apply getattr_Ok in Hx. rewrite Hv in Hx; injection Hx as <-.
  apply bind_Ok in E as (c & Hc & _). simpl in Hc.
  apply bind_Ok in Hc as (c' & Hc' & _). eauto.
Qed.

Lemma check_shallow_training_spec (a : Namespace) (v : value) :
  a !! "shallow_training" = Some (VBool true) →
  a !! "network_type" = Some (resolved v) →
  (∃ c, eq_str v "GN" = Ok c) →
  (v = VStr "BP" → check_shallow_training a = Ok a) ∧
  (v ≠ VStr "BP" → check_shallow_training a = Raise (ValueError shallow_training_msg)).
Proof.
  intros Hst Hnt [c Hc]. unfold check_shallow_training.
  rewrite (getattr_lookup _ _ _ Hst), (getattr_lookup _ _ _ Hnt). simpl.
  rewrite (eq_str_comparable _ _ _ "BP" Hc). simpl.
  destruct v; simpl; try (split; [discriminate | reflexivity]).
  rewrite resolve_alias_BP. destruct (s =? "BP") eqn:Hs; simpl.
  - apply String.eqb_eq in Hs as ->. split; [reflexivity | congruence].
  - apply String.eqb_neq in Hs. split; [congruence | reflexivity].
Qed.

Lemma postprocess_args_body_network_type a a' v :
  postprocess_args_body L a = Ok a' → a !! "network_type" = Some v →
  a' !! "network_type" = Some (resolved v) ∧ ∃ c, eq_str v "GN" = Ok c.
Proof.
  intros H Hnt. unfold postprocess_args_body in H. run_inv H.
  rewrite (preserves_process_gn_damping "network_type" ltac:(done) _ _ H).
  assert (a5 !! "network_type" = Some v) as Hnt5.
  { rewrite (preserves_normalize_lr "network_type" ltac:(done) _ _ E4).
    rewrite (preserves_process_string_options "network_type" ltac:(eauto with frame) _ _ E3).
    rewrite (preserves_init_None_options "network_type"
               ltac:(done) ltac:(done) ltac:(done) ltac:(done) _ _ E2).
    rewrite (preserves_set_dataset_kind "network_type" ltac:(done) ltac:(done) _ _ E1).
    rewrite (preserves_create_log_dir "network_type" _ ltac:(done) _ _ E0).
    by rewrite (preserves_set_save_angle "network_type" ltac:(done) _ _ E). }
  split; [by eapply rewrite_network_type_resolved
         | by eapply rewrite_network_type_comparable].
Qed.

Lemma post_init_body_network_type a a' v :
  Args.post_init_body L a = Ok a' → a !! "network_type" = Some v →
  a' !! "network_type" = Some (resolved v) ∧ ∃ c, eq_str v "GN" = Ok c.
Proof.
  intros H Hnt. unfold Args.post_init_body in H. run_inv H.
  rewrite (preserves_process_gn_damping "network_type" ltac:(done) _ _ H).
  assert (a5 !! "network_type" = Some v) as Hnt5.
  { rewrite (preserves_np_normalize_lr "network_type" ltac:(done) _ _ E4).
    rewrite (preserves_Args_process_string_options "network_type"
               ltac:(eauto with frame) _ _ E3).
    rewrite (preserves_Args_init_None_options "network_type"
               ltac:(done) ltac:(done) ltac:(done) ltac:(done) _ _ E2).
    rewrite (preserves_Args_set_dataset_kind "network_type"
               ltac:(done) ltac:(done) _ _ E1).
    rewrite (preserves_create_log_dir "network_type" _ ltac:(done) _ _ E0).
    by rewrite (preserves_set_save_angle "network_type" ltac:(done) _ _ E). }
  split; [by eapply rewrite_network_type_resolved
         | by eapply rewrite_network_type_comparable].
Qed.

(** A routine [body ; check_shallow_training] under [shallow_training = True]. *)
Lemma shallow_check_after (body : Namespace → result Namespace) (args : Namespace) (nt : value) :
  preserves "shallow_training" body →
  (∀ a', body args = Ok a' →
     a' !! "network_type" = Some (resolved nt) ∧ ∃ c, eq_str nt "GN" = Ok c) →
  args !! "shallow_training" = Some (VBool true) →
  (nt ≠ VStr "BP" →
     (∃ e, bind (body args) check_shallow_training = Raise e) ∧
     (∀ a', body args = Ok a' →
        bind (body args) check_shallow_training = Raise (ValueError shallow_training_msg))) ∧
  (nt = VStr "BP" →
     ∀ a', body args = Ok a' → bind (body args) check_shallow_training = Ok a').
Proof.
  intros Hframe Hbody Hst.
  assert (∀ a', body args = Ok a' →
            (nt = VStr "BP" → check_shallow_training a' = Ok a') ∧
            (nt ≠ VStr "BP" →
             check_shallow_training a' = Raise (ValueError shallow_training_msg))) as Hc.
  { intros a' Ha'. destruct (Hbody _ Ha') as [Hnt' Hcmp].
    apply check_shallow_training_spec; [| done | done].
    by rewrite (Hframe _ _ Ha'). }
  split.
  - intros Hne. split.
    + destruct (body args) as [a'|e] eqn:Hb; simpl; [| eauto].
      destruct (Hc a' eq_refl) as [_ ->]; eauto.
    + intros a' Ha'. rewrite Ha'. simpl. by destruct (Hc a' Ha') as [_ ->].
  - intros Heq a' Ha'. rewrite Ha'. simpl. by destruct (Hc a' Ha') as [-> _].
Qed.

(** C6. With [shallow_training = True], a [network_type] other than ["BP"]
    never gets through post-processing: the routine raises, and once the
    preceding steps have completed the exception is the [ValueError] of the
    validity check. With [network_type = "BP"] the check lets the
    configuration through unchanged. This holds for [postprocess_args] and
    for [Args.__post_init__]. *)
Theorem shallow_training_only_with_BP (args : Namespace) (nt : value) :
  args !! "shallow_training" = Some (VBool true) →
  args !! "network_type" = Some nt →
  (nt ≠ VStr "BP" →
     (∃ e, postprocess_args L args = Raise e) ∧
     (∃ e, Args.__post_init__ L args = Raise e) ∧
     (∀ a, postprocess_args_body L args = Ok a →
        postprocess_args L args = Raise (ValueError shallow_training_msg)) ∧
     (∀ a, Args.post_init_body L args = Ok a →
        Args.__post_init__ L args = Raise (ValueError shallow_training_msg))) ∧
  (nt = VStr "BP" →
     (∀ a, postprocess_args_body L args = Ok a → postprocess_args L args = Ok a) ∧
     (∀ a, Args.post_init_body L args = Ok a → Args.__post_init__ L args = Ok a)).
Proof.
  intros Hst Hnt.
  pose proof (shallow_check_after (postprocess_args_body L) args nt
    (preserves_postprocess_args_body "shallow_training" ltac:(eauto with frame))
    (λ a' H, postprocess_args_body_network_type _ _ _ H Hnt) Hst) as [P1 P2].
  pose proof (shallow_check_after (Args.post_init_body L) args nt
    (preserves_post_init_body "shallow_training" ltac:(eauto with frame))
    (λ a' H, post_init_body_network_type _ _ _ H Hnt) Hst) as [Q1 Q2].
  split.
  - intros Hne. destruct (P1 Hne) as [? ?], (Q1 Hne) as [? ?]. done.
  - intros Heq. split; [exact (P2 Heq) | exact (Q2 Heq)].
Qed.


(** *** Learning-rate normalisation *)

(** Rewrite [b !! k] into [a !! k] along every step [f a = Ok b] in the
    context that is known to keep [k]. *)
Ltac carry :=
  repeat match goal with
  | H : ?f ?a = Ok ?b |- context [?b !! ?k] =>
      let P := fresh in
      assert (P : preserves k f) by (eauto with frame);
      rewrite (P a b H); clear P
  end.

Lemma process_attr_spec f name a a' :
  process_attr f name a = Ok a' →
  ∃ v v', a !! name = Some v ∧ f v = Ok v' ∧ a' = setattr name v' a.
Proof. intros H. unfold process_attr in H. run_inv H. eauto. Qed.

Lemma process_attr_if_str_spec f name a a' :
  Args.process_attr_if_str f name a = Ok a' →
  ∃ v v', a !! name = Some v ∧
          (if isinstance_str v then f v = Ok v' else v' = v) ∧
          a' !! name = Some v'.
Proof.
  intros H. unfold Args.process_attr_if_str in H. run_inv H.
  - apply process_attr_spec in H as (v & v' & Hv & Hf & ->).
    rewrite Hv in E; injection E as <-. exists v, v'. rewrite C.
    unfold setattr. by simplify_map_eq.
  - exists a0, a0. by rewrite C.
Qed.

Lemma process_string_options_lr a a' :
  process_string_options L a = Ok a' →
  ∃ lr0 lr fb0 fb,
    a !! "lr" = Some lr0 ∧ process_lr L lr0 = Ok lr ∧ a' !! "lr" = Some lr ∧
    a !! "lr_fb" = Some fb0 ∧ process_lr L fb0 = Ok fb ∧ a' !! "lr_fb" = Some fb.
Proof.
  intros H. unfold process_string_options in H. run_inv H.
  all: apply process_attr_spec in E as (lr0 & lr & Hlr0 & Hlr & ->).
  all: apply process_attr_spec in E0 as (fb0 & fb & Hfb0 & Hfb & ->).
  all: exists lr0, lr, fb0, fb.
  all: unfold setattr in *; rewrite ?lookup_insert_ne by done; carry.
  all: by simplify_map_eq.
Qed.

Lemma Args_process_string_options_lr a a' :
  Args.process_string_options L a = Ok a' →
  ∃ lr0 lr fb0 fb,
    a !! "lr" = Some lr0 ∧
    (if isinstance_str lr0 then process_lr L lr0 = Ok lr else lr = lr0) ∧
    a' !! "lr" = Some lr ∧
    a !! "lr_fb" = Some fb0 ∧
    (if isinstance_str fb0 then process_lr L fb0 = Ok fb else fb = fb0) ∧
    a' !! "lr_fb" = Some fb.
Proof.
  intros H. unfold Args.process_string_options in H. run_inv H.
  all: pose proof E as E'; pose proof E0 as E0'.
  all: apply process_attr_if_str_spec in E' as (lr0 & lr & Hlr0 & Hlr & Hlr').
  all: apply process_attr_if_str_spec in E0' as (fb0 & fb & Hfb0 & Hfb & Hfb').
  all: exists lr0, lr, fb0, fb.
  all: rewrite (preserves_process_attr_if_str "lr_fb" _ "lr" ltac:(done) _ _ E) in Hfb0.
  all: unfold setattr in *; rewrite ?lookup_insert_ne by done; carry.
  all: done.
Qed.

Lemma truediv_spec lr ts q q' :
  truediv L lr ts = Ok q → lr_over_stepsize lr ts = Some q' → q = q'.
Proof.
  unfold truediv, lr_over_stepsize. intros H Hs.
  destruct lr, ts; try discriminate; simplify_eq; [| done].
  by destruct (x0 =? 0)%float; simplify_eq.
Qed.

Lemma np_array_truediv_spec lr ts q q' :
  np_array_truediv L lr ts = Ok q →
  lr_over_stepsize (np_array lr) ts = Some q' → q = q'.
Proof.
  unfold np_array_truediv, lr_over_stepsize, np_array. intros H Hs.
  by destruct lr, ts; try discriminate; simplify_eq.
Qed.

Lemma normalize_lr_spec a a' (b : bool) ts lr :
  normalize_lr L a = Ok a' →
  a !! "normalize_lr" = Some (VBool b) → a !! "target_stepsize" = Some ts →
  a !! "lr" = Some lr →
  if b then ∃ q, truediv L lr ts = Ok q ∧ a' = setattr "lr" q a else a' = a.
Proof.
  intros H Hb Hts Hlr. unfold normalize_lr in H. run_inv H; simplify_eq; simpl in *;
    simplify_eq; eauto.
Qed.

Lemma np_normalize_lr_spec a a' (b : bool) ts lr :
  np_normalize_lr L a = Ok a' →
  a !! "normalize_lr" = Some (VBool b) → a !! "target_stepsize" = Some ts →
  a !! "lr" = Some lr →
  if b then ∃ q, np_array_truediv L lr ts = Ok q ∧ a' = setattr "lr" q a else a' = a.
Proof.
  intros H Hb Hts Hlr. unfold np_normalize_lr in H. run_inv H; simplify_eq; simpl in *;
    simplify_eq; eauto.
Qed.


Lemma postprocess_args_lr (args args' : Namespace) (b : bool) (ts : value) :
  args !! "normalize_lr" = Some (VBool b) →
  args !! "target_stepsize" = Some ts →
  postprocess_args L args = Ok args' →
  ∃ lr0 lr fb0 fb,
    args !! "lr" = Some lr0 ∧ process_lr L lr0 = Ok lr ∧
    args !! "lr_fb" = Some fb0 ∧ process_lr L fb0 = Ok fb ∧
    args' !! "lr_fb" = Some fb ∧
    (b = false → args' !! "lr" = Some lr) ∧
    (b = true → ∃ q, args' !! "lr" = Some q ∧
                     ∀ q', lr_over_stepsize lr ts = Some q' → q = q').
Proof.
  intros Hb Hts H. unfold postprocess_args in H.
  apply bind_Ok in H as (a8 & Hbody & Hcheck).
  apply check_shallow_training_Ok in Hcheck as ->.
  unfold postprocess_args_body in Hbody.
  apply bind_Ok in Hbody as (a1 & S1 & Hbody).
  apply bind_Ok in Hbody as (a2 & S2 & Hbody).
  apply bind_Ok in Hbody as (a3 & S3 & Hbody).
  apply bind_Ok in Hbody as (a4 & S4 & Hbody).
  apply bind_Ok in Hbody as (a5 & S5 & Hbody).
  apply bind_Ok in Hbody as (a6 & S6 & Hbody).
  apply bind_Ok in Hbody as (a7 & S7 & S8).
  destruct (process_string_options_lr _ _ S5)
    as (lr0 & lr & fb0 & fb & Hlr0 & Hlr & Hlr' & Hfb0 & Hfb & Hfb').
  assert (a5 !! "normalize_lr" = Some (VBool b)) as Hb5 by (carry; done).
  assert (a5 !! "target_stepsize" = Some ts) as Hts5 by (carry; done).
  pose proof (normalize_lr_spec _ _ _ _ _ S6 Hb5 Hts5 Hlr') as Hn.
  exists lr0, lr, fb0, fb. repeat split; try done.
  - rewrite <- Hlr0. symmetry. by carry.
  - rewrite <- Hfb0. symmetry. by carry.
  - by carry.
  - intros ->. subst a6. by carry.
  - intros ->. destruct Hn as (q & Hq & ->). exists q. split.
    + carry. unfold setattr. by simplify_map_eq.
    + intros q'. by apply truediv_spec.
Qed.

Lemma post_init_lr (args args' : Namespace) (b : bool) (ts : value) :
  args !! "normalize_lr" = Some (VBool b) →
  args !! "target_stepsize" = Some ts →
  Args.__post_init__ L args = Ok args' →
  ∃ lr0 lr fb0 fb,
    args !! "lr" = Some lr0 ∧
    (if isinstance_str lr0 then process_lr L lr0 = Ok lr else lr = lr0) ∧
    args !! "lr_fb" = Some fb0 ∧
    (if isinstance_str fb0 then process_lr L fb0 = Ok fb else fb = fb0) ∧
    args' !! "lr_fb" = Some fb ∧
    (b = false → args' !! "lr" = Some lr) ∧
    (b = true → ∃ q, args' !! "lr" = Some q ∧
                     ∀ q', lr_over_stepsize (np_array lr) ts = Some q' → q = q').
Proof.
  intros Hb Hts H. unfold Args.__post_init__ in H.
  apply bind_Ok in H as (a8 & Hbody & Hcheck).
  apply check_shallow_training_Ok in Hcheck as ->.
  unfold Args.post_init_body in Hbody.
  apply bind_Ok in Hbody as (a1 & S1 & Hbody).
  apply bind_Ok in Hbody as (a2 & S2 & Hbody).
  apply bind_Ok in Hbody as (a3 & S3 & Hbody).
  apply bind_Ok in Hbody as (a4 & S4 & Hbody).
  apply bind_Ok in Hbody as (a5 & S5 & Hbody).
  apply bind_Ok in Hbody as (a6 & S6 & Hbody).
  apply bind_Ok in Hbody as (a7 & S7 & S8).
  destruct (Args_process_string_options_lr _ _ S5)
    as (lr0 & lr & fb0 & fb & Hlr0 & Hlr & Hlr' & Hfb0 & Hfb & Hfb').
  assert (a5 !! "normalize_lr" = Some (VBool b)) as Hb5 by (carry; done).
  assert (a5 !! "target_stepsize" = Some ts) as Hts5 by (carry; done).
  pose proof (np_normalize_lr_spec _ _ _ _ _ S6 Hb5 Hts5 Hlr') as Hn.
  exists lr0, lr, fb0, fb. repeat split; try done.
  - rewrite <- Hlr0. symmetry. by carry.
  - rewrite <- Hfb0. symmetry. by carry.
  - by carry.
  - intros ->. subst a6. by carry.
  - intros ->. destruct Hn as (q & Hq & ->). exists q. split.
    + carry. unfold setattr. by simplify_map_eq.
    + intros q'. by apply np_array_truediv_spec.
Qed.

(** C10. With [normalize_lr = True] the forward learning rate that leaves
    post-processing is the parsed [lr] divided by [target_stepsize], each
    entry separately when [lr] holds one rate per layer; with
    [normalize_lr = False] it is the parsed [lr] itself. In both cases the
    feedback rate [lr_fb] is only parsed, never rescaled. *)
Theorem normalize_lr_divides_by_target_stepsize
    (args args' : Namespace) (b : bool) (ts : value) :
  args !! "normalize_lr" = Some (VBool b) →
  args !! "target_stepsize" = Some ts →
  (postprocess_args L args = Ok args' →
   ∃ lr0 lr fb0 fb,
     args !! "lr" = Some lr0 ∧ process_lr L lr0 = Ok lr ∧
     args !! "lr_fb" = Some fb0 ∧ process_lr L fb0 = Ok fb ∧
     args' !! "lr_fb" = Some fb ∧
     (b = false → args' !! "lr" = Some lr) ∧
     (b = true → ∃ q, args' !! "lr" = Some q ∧
                      ∀ q', lr_over_stepsize lr ts = Some q' → q = q')) ∧
  (Args.__post_init__ L args = Ok args' →
   ∃ lr0 lr fb0 fb,
     args !! "lr" = Some lr0 ∧
     (if isinstance_str lr0 then process_lr L lr0 = Ok lr else lr = lr0) ∧
     args !! "lr_fb" = Some fb0 ∧
     (if isinstance_str fb0 then process_lr L fb0 = Ok fb else fb = fb0) ∧
     args' !! "lr_fb" = Some fb ∧
     (b = false → args' !! "lr" = Some lr) ∧
     (b = true → ∃ q, args' !! "lr" = Some q ∧
                      ∀ q', lr_over_stepsize (np_array lr) ts = Some q' → q = q')).
Proof.
  intros Hb Hts. split; intros H.
  - by eapply postprocess_args_lr.
  - by eapply post_init_lr.
Qed.

(** *** The default logging interval *)

Lemma int_div_100_floor (n : Z) : (0 ≤ n)%Z → int_div_100 n = (n `div` 100)%Z.
Proof. intros Hn. unfold int_div_100. apply Z.quot_div_nonneg; lia. Qed.


(** ** Further properties of the post-processing *)

Import MainSpec.

Lemma in_strs_str (s : string) (l : list string) :
  in_strs (VStr s) l = Ok (is_in s l).
Proof.
  induction l as [|x l IH]; [reflexivity|].
  simpl. destruct (s =? x); [reflexivity | exact IH].
Qed.

(** The network-type stage never raises on a string and is the function
    [rewritten]. *)
Lemma rewrite_network_type_str (a : Namespace) (s : string) :
  a !! "network_type" = Some (VStr s) →
  rewrite_network_type a = Ok (rewritten s a).
Proof.
  intros Hnt.
  unfold rewrite_network_type, freeze_fb_for_GN, rewrite_DFA, rewrite_DFAConv,
    set_diff_rec_loss, set_direct_fb, rewritten.
  rewrite (getattr_lookup _ _ _ Hnt). cbn [bind]. rewrite in_strs_str. cbn [bind].
  set (a1 := if is_in s ["GN"; "GN2"] then _ else a).
  assert (a1 !! "network_type" = Some (VStr s)) as H1.
  { subst a1. destruct (is_in s _); unfold setattr; by simplify_map_eq. }
  rewrite (getattr_lookup _ _ _ H1). cbn [bind eq_str].
  destruct (s =? "DFA") eqn:E1.
  { apply String.eqb_eq in E1 as ->. unfold setattr. simpl.
    repeat (first [ rewrite getattr_lookup with (v := VStr "DMLPDTP2")
                      by (by simplify_map_eq)
                  | rewrite in_strs_str ];
            cbn [bind eq_str]; simpl).
    reflexivity. }
  rewrite (getattr_lookup _ _ _ H1). cbn [bind eq_str].
  destruct (s =? "DFAConv") eqn:E2.
  { apply String.eqb_eq in E2 as ->. unfold setattr. simpl.
    repeat (first [ rewrite getattr_lookup with (v := VStr "DDTPConv")
                      by (by simplify_map_eq)
                  | rewrite in_strs_str ];
            cbn [bind eq_str]; simpl).
    reflexivity. }
  rewrite (getattr_lookup _ _ _ H1). cbn [bind eq_str].
  destruct (s =? "DFAConvCIFAR") eqn:E3.
  { apply String.eqb_eq in E3 as ->. unfold setattr. simpl.
    repeat (first [ rewrite getattr_lookup with (v := VStr "DDTPConvCIFAR")
                      by (by simplify_map_eq)
                  | rewrite in_strs_str ];
            cbn [bind eq_str]; simpl).
    reflexivity. }
  rewrite (getattr_lookup _ _ _ H1). cbn [bind]. rewrite in_strs_str. cbn [bind].
  rewrite getattr_lookup with (v := VStr s)
    by (unfold setattr; by rewrite lookup_insert_ne).
  cbn [bind]. rewrite in_strs_str. cbn [bind].
  unfold resolve_alias. rewrite E1, E2, E3.
  unfold is_in. simpl. by rewrite !orb_false_r.
Qed.


(** Either routine, seen from the network-type stage: the namespace [mid]
    that enters the stage differs from the input only on
    [early_attributes], and the result differs from [rewritten s mid] only on
    [gn_damping]. *)
Lemma around_network_stage (args args' : Namespace) (s : string) :
  args !! "network_type" = Some (VStr s) →
  postprocess_args L args = Ok args' ∨ Args.__post_init__ L args = Ok args' →
  ∃ mid,
    (∀ k, k ∉ early_attributes → mid !! k = args !! k) ∧
    (∀ k, k ≠ "gn_damping" → args' !! k = rewritten s mid !! k).
Proof.
  intros Hnt [H | H].
  - unfold postprocess_args in H.
    apply bind_Ok in H as (a8 & Hbody & Hcheck).
    apply check_shallow_training_Ok in Hcheck as ->.
    unfold postprocess_args_body in Hbody.
    apply bind_Ok in Hbody as (a1 & S1 & Hbody).
    apply bind_Ok in Hbody as (a2 & S2 & Hbody).
    apply bind_Ok in Hbody as (a3 & S3 & Hbody).
    apply bind_Ok in Hbody as (a4 & S4 & Hbody).
    apply bind_Ok in Hbody as (a5 & S5 & Hbody).
    apply bind_Ok in Hbody as (a6 & S6 & Hbody).
    apply bind_Ok in Hbody as (a7 & S7 & S8).
    assert (a6 !! "network_type" = Some (VStr s)) as H6 by (carry; done).
    rewrite (rewrite_network_type_str _ _ H6) in S7. injection S7 as <-.
    exists a6. split.
    + intros k Hk. repeat (apply not_elem_of_cons in Hk as [? Hk]). by carry.
    + intros k Hk. by carry.
  - unfold Args.__post_init__ in H.
    apply bind_Ok in H as (a8 & Hbody & Hcheck).
    apply check_shallow_training_Ok in Hcheck as ->.
    unfold Args.post_init_body in Hbody.
    apply bind_Ok in Hbody as (a1 & S1 & Hbody).
    apply bind_Ok in Hbody as (a2 & S2 & Hbody).
    apply bind_Ok in Hbody as (a3 & S3 & Hbody).
    apply bind_Ok in Hbody as (a4 & S4 & Hbody).
    apply bind_Ok in Hbody as (a5 & S5 & Hbody).
    apply bind_Ok in Hbody as (a6 & S6 & Hbody).
    apply bind_Ok in Hbody as (a7 & S7 & S8).
    assert (a6 !! "network_type" = Some (VStr s)) as H6 by (carry; done).
    rewrite (rewrite_network_type_str _ _ H6) in S7. injection S7 as <-.
    exists a6. split.
    + intros k Hk. repeat (apply not_elem_of_cons in Hk as [? Hk]). by carry.
    + intros k Hk. by carry.
Qed.

Lemma is_in_frozen s :
  is_in s frozen_feedback_types
    = is_in s ["GN"; "GN2"] || (s =? "DFA") || (s =? "DFAConv") || (s =? "DFAConvCIFAR").
Proof.
  unfold is_in, frozen_feedback_types. simpl.
  by destruct (s =? "GN"), (s =? "GN2"), (s =? "DFA"), (s =? "DFAConv"),
    (s =? "DFAConvCIFAR").
Qed.

Lemma is_in_alias s :
  is_in s alias_types = (s =? "DFA") || (s =? "DFAConv") || (s =? "DFAConvCIFAR").
Proof.
  unfold is_in, alias_types. simpl.
  by destruct (s =? "DFA"), (s =? "DFAConv"), (s =? "DFAConvCIFAR").
Qed.

(** Look an attribute up in [rewritten s a], by cases on the four tests. *)
Ltac rewritten_cases s :=
  rewrite ?is_in_frozen, ?is_in_alias; unfold rewritten;
  destruct (is_in s ["GN"; "GN2"]), (s =? "DFA"), (s =? "DFAConv"),
    (s =? "DFAConvCIFAR");
  cbn [orb]; unfold setattr;
  repeat first [ rewrite lookup_insert_eq | rewrite lookup_insert_ne by done ];
  reflexivity.

Lemma rewritten_freeze_fb_weights s a :
  rewritten s a !! "freeze_fb_weights" =
    if is_in s frozen_feedback_types then Some (VBool true)
    else a !! "freeze_fb_weights".
Proof. rewritten_cases s. Qed.

Lemma rewritten_train_randomized s a :
  rewritten s a !! "train_randomized" =
    if is_in s alias_types then Some (VBool false) else a !! "train_randomized".
Proof. rewritten_cases s. Qed.

Lemma rewritten_fb_activation s a :
  rewritten s a !! "fb_activation" =
    if is_in s alias_types then Some (VStr "linear") else a !! "fb_activation".
Proof. rewritten_cases s. Qed.

Lemma rewritten_size_mlp_fb s a :
  rewritten s a !! "size_mlp_fb" =
    if s =? "DFA" then Some VNone else a !! "size_mlp_fb".
Proof. rewritten_cases s. Qed.

Lemma rewritten_flags s a :
  rewritten s a !! "direct_fb"
    = Some (VBool (is_in (resolve_alias s) direct_feedback_types)) ∧
  rewritten s a !! "diff_rec_loss" = Some (VBool (s =? "DTPDR")).
Proof.
  split; unfold rewritten, setattr;
    repeat first [ rewrite lookup_insert_eq | rewrite lookup_insert_ne by done ];
    reflexivity.
Qed.

Lemma rewritten_other s a k :
  k ∉ ["freeze_fb_weights"; "network_type"; "size_mlp_fb"; "fb_activation";
       "train_randomized"; "diff_rec_loss"; "direct_fb"] →
  rewritten s a !! k = a !! k.
Proof.
  intros Hk. repeat (apply not_elem_of_cons in Hk as [? Hk]).
  unfold rewritten.
  destruct (is_in s _), (s =? "DFA"), (s =? "DFAConv"), (s =? "DFAConvCIFAR");
    unfold setattr; by rewrite ?lookup_insert_ne.
Qed.


Lemma routine_body (args args' : Namespace) :
  postprocess_args L args = Ok args' ∨ Args.__post_init__ L args = Ok args' →
  postprocess_args_body L args = Ok args' ∨ Args.post_init_body L args = Ok args'.
Proof.
  intros [H | H]; [left; unfold postprocess_args in H
                  | right; unfold Args.__post_init__ in H].
  all: apply bind_Ok in H as (a & Hbody & Hcheck).
  all: by apply check_shallow_training_Ok in Hcheck as ->.
Qed.

(** X1. Post-processing, by either routine, writes to the attributes listed
    in [assigned_attributes] and to nothing else: any other attribute of the
    namespace (batch size, epochs, seeds of the data, flags) comes out
    exactly as it went in. *)
Theorem other_attributes_untouched (args args' : Namespace) (k : string) :
  k ∉ assigned_attributes →
  postprocess_args L args = Ok args' ∨ Args.__post_init__ L args = Ok args' →
  args' !! k = args !! k.
Proof.
  intros Hk H. destruct (routine_body _ _ H) as [Hb | Hb].
  - exact (preserves_postprocess_args_body k Hk _ _ Hb).
  - exact (preserves_post_init_body k Hk _ _ Hb).
Qed.

(** X2. Whatever the parsed [network_type], the one that leaves
    post-processing is its alias resolution: ["DFA"], ["DFAConv"] and
    ["DFAConvCIFAR"] become ["DMLPDTP2"], ["DDTPConv"] and ["DDTPConvCIFAR"],
    and every other value is returned as given. *)
Theorem network_type_alias_resolution (args args' : Namespace) (v : value) :
  args !! "network_type" = Some v →
  postprocess_args L args = Ok args' ∨ Args.__post_init__ L args = Ok args' →
  args' !! "network_type" = Some (resolved v) ∧
  resolved (VStr "DFA") = VStr "DMLPDTP2" ∧
  resolved (VStr "DFAConv") = VStr "DDTPConv" ∧
  resolved (VStr "DFAConvCIFAR") = VStr "DDTPConvCIFAR" ∧
  (∀ s, is_in s alias_types = false → resolved (VStr s) = VStr s) ∧
  (∀ w, isinstance_str w = false → resolved w = w).
Proof.
  intros Hnt H. split; [| repeat split].
  - destruct (routine_body _ _ H) as [Hb | Hb].
    + exact (proj1 (postprocess_args_body_network_type _ _ _ Hb Hnt)).
    + exact (proj1 (post_init_body_network_type _ _ _ Hb Hnt)).
  - intros s Hs. rewrite is_in_alias in Hs. unfold resolved, resolve_alias.
    by destruct (s =? "DFA"), (s =? "DFAConv"), (s =? "DFAConvCIFAR").
  - intros w Hw. by destruct w.
Qed.

(** X3. Post-processing only ever freezes feedback weights and only ever
    switches randomized training off. [freeze_fb_weights] becomes [True] for
    the Gauss-Newton and the three feedback-alignment names and keeps its
    parsed value otherwise; [train_randomized] becomes [False] for the three
    feedback-alignment names and keeps its parsed value otherwise; for those
    three names the feedback activation becomes linear. *)
Theorem feedback_freezing_by_network_type (args args' : Namespace) (s : string) :
  args !! "network_type" = Some (VStr s) →
  postprocess_args L args = Ok args' ∨ Args.__post_init__ L args = Ok args' →
  args' !! "freeze_fb_weights"
    = (if is_in s frozen_feedback_types then Some (VBool true)
       else args !! "freeze_fb_weights") ∧
  args' !! "train_randomized"
    = (if is_in s alias_types then Some (VBool false)
       else args !! "train_randomized") ∧
  (is_in s alias_types = true → args' !! "fb_activation" = Some (VStr "linear")).
Proof.
  intros Hnt H. destruct (around_network_stage _ _ _ Hnt H) as (mid & Hmid & Hout).
  rewrite !Hout by done.
  rewrite rewritten_freeze_fb_weights, rewritten_train_randomized,
    rewritten_fb_activation.
  rewrite !Hmid by (unfold early_attributes; eauto with frame).
  split; [done | split; [done |]]. by intros ->.
Qed.

(** X4. The two derived flags are functions of the network type alone:
    [direct_fb] tells whether the resolved type is one of the eight
    direct-feedback names, so it is [True] for every feedback-alignment alias;
    [diff_rec_loss] is [True] for ["DTPDR"] and for nothing else. *)
Theorem derived_flags_by_network_type (args args' : Namespace) (s : string) :
  args !! "network_type" = Some (VStr s) →
  postprocess_args L args = Ok args' ∨ Args.__post_init__ L args = Ok args' →
  args' !! "direct_fb"
    = Some (VBool (is_in (resolve_alias s) direct_feedback_types)) ∧
  args' !! "diff_rec_loss" = Some (VBool (s =? "DTPDR")) ∧
  (is_in s alias_types = true →
     args' !! "direct_fb" = Some (VBool true) ∧
     args' !! "diff_rec_loss" = Some (VBool false)).
Proof.
  intros Hnt H. destruct (around_network_stage _ _ _ Hnt H) as (mid & _ & Hout).
  rewrite !Hout by done. destruct (rewritten_flags s mid) as [-> ->].
  split; [done | split; [done |]].
  intros Hs. rewrite is_in_alias in Hs. unfold resolve_alias.
  destruct (s =? "DFA") eqn:E1; [by apply String.eqb_eq in E1 as ->|].
  destruct (s =? "DFAConv") eqn:E2; [by apply String.eqb_eq in E2 as ->|].
  destruct (s =? "DFAConvCIFAR") eqn:E3; [by apply String.eqb_eq in E3 as ->|].
  discriminate.
Qed.


(** The two routines cut at their middle steps. *)
Lemma postprocess_args_stages (args args' : Namespace) (s : string) :
  args !! "network_type" = Some (VStr s) →
  postprocess_args L args = Ok args' →
  ∃ a1 a2 a3 a4 a5 a6,
    set_save_angle args = Ok a1 ∧ create_log_dir L "args.txt" a1 = Ok a2 ∧
    set_dataset_kind a2 = Ok a3 ∧
    init_None_options L a3 = Ok a4 ∧ process_string_options L a4 = Ok a5 ∧
    normalize_lr L a5 = Ok a6 ∧
    (∀ k, k ≠ "gn_damping" → args' !! k = rewritten s a6 !! k).
Proof.
  intros Hnt H. unfold postprocess_args in H.
  apply bind_Ok in H as (a8 & Hbody & Hcheck).
  apply check_shallow_training_Ok in Hcheck as ->.
  unfold postprocess_args_body in Hbody.
  apply bind_Ok in Hbody as (a1 & S1 & Hbody).
  apply bind_Ok in Hbody as (a2 & S2 & Hbody).
  apply bind_Ok in Hbody as (a3 & S3 & Hbody).
  apply bind_Ok in Hbody as (a4 & S4 & Hbody).
  apply bind_Ok in Hbody as (a5 & S5 & Hbody).
  apply bind_Ok in Hbody as (a6 & S6 & Hbody).
  apply bind_Ok in Hbody as (a7 & S7 & S8).
  assert (a6 !! "network_type" = Some (VStr s)) as H6 by (carry; done).
  rewrite (rewrite_network_type_str _ _ H6) in S7. injection S7 as <-.
  exists a1, a2, a3, a4, a5, a6. repeat split; try done.
  intros k Hk. by carry.
Qed.

Lemma post_init_stages (args args' : Namespace) (s : string) :
  args !! "network_type" = Some (VStr s) →
  Args.__post_init__ L args = Ok args' →
  ∃ a1 a2 a3 a4 a5 a6,
    set_save_angle args = Ok a1 ∧ create_log_dir L "self.txt" a1 = Ok a2 ∧
    Args.set_dataset_kind L a2 = Ok a3 ∧
    Args.init_None_options a3 = Ok a4 ∧ Args.process_string_options L a4 = Ok a5 ∧
    np_normalize_lr L a5 = Ok a6 ∧
    (∀ k, k ≠ "gn_damping" → args' !! k = rewritten s a6 !! k).
Proof.
  intros Hnt H. unfold Args.__post_init__ in H.
  apply bind_Ok in H as (a8 & Hbody & Hcheck).
  apply check_shallow_training_Ok in Hcheck as ->.
  unfold Args.post_init_body in Hbody.
  apply bind_Ok in Hbody as (a1 & S1 & Hbody).
  apply bind_Ok in Hbody as (a2 & S2 & Hbody).
  apply bind_Ok in Hbody as (a3 & S3 & Hbody).
  apply bind_Ok in Hbody as (a4 & S4 & Hbody).
  apply bind_Ok in Hbody as (a5 & S5 & Hbody).
  apply bind_Ok in Hbody as (a6 & S6 & Hbody).
  apply bind_Ok in Hbody as (a7 & S7 & S8).
  assert (a6 !! "network_type" = Some (VStr s)) as H6 by (carry; done).
  rewrite (rewrite_network_type_str _ _ H6) in S7. injection S7 as <-.
  exists a1, a2, a3, a4, a5, a6. repeat split; try done.
  intros k Hk. by carry.
Qed.

Lemma eq_str_true v s : eq_str v s = Ok true → v = VStr s.
Proof.
  destruct v; simpl; intros H; try discriminate.
  injection H as H. by apply String.eqb_eq in H as ->.
Qed.

Lemma eq_str_false v s : eq_str v s = Ok false → v ≠ VStr s.
Proof.
  destruct v; simpl; intros H; try discriminate.
  injection H as H. apply String.eqb_neq in H. congruence.
Qed.

Lemma process_string_options_size_mlp_fb a a' :
  process_string_options L a = Ok a' →
  ∃ m m', a !! "size_mlp_fb" = Some m ∧ a' !! "size_mlp_fb" = Some m' ∧
    (m = VStr "None" ∧ m' = VNone ∨
     m ≠ VStr "None" ∧ process_hdim_fb L m = Ok m').
Proof.
  intros H. unfold process_string_options in H. run_inv H.
  - exists a7, VNone. split; [rewrite <- E6; symmetry; by carry|]. split.
    + unfold setattr. by rewrite lookup_insert_eq.
    + left. split; [by apply eq_str_true | done].
  - apply process_attr_spec in H as (m & m' & Hm & Hf & ->).
    rewrite E6 in Hm. injection Hm as <-.
    exists a7, m'. split; [rewrite <- E6; symmetry; by carry|]. split.
    + unfold setattr. by rewrite lookup_insert_eq.
    + right. split; [by apply eq_str_false | done].
Qed.

Lemma Args_process_string_options_size_mlp_fb a a' :
  Args.process_string_options L a = Ok a' →
  ∃ m m', a !! "size_mlp_fb" = Some m ∧ a' !! "size_mlp_fb" = Some m' ∧
    (m = VStr "None" ∧ m' = VNone ∨
     m ≠ VStr "None" ∧
       if isinstance_str m then process_hdim_fb L m = Ok m' else m' = m).
Proof.
  intros H. unfold Args.process_string_options in H. run_inv H.
  - exists a7, VNone. split; [rewrite <- E6; symmetry; by carry|]. split.
    + unfold setattr. by rewrite lookup_insert_eq.
    + left. split; [by apply eq_str_true | done].
  - apply process_attr_if_str_spec in H as (m & m' & Hm & Hf & Hm').
    rewrite E6 in Hm. injection Hm as <-.
    exists a7, m'. split; [rewrite <- E6; symmetry; by carry|]. split; [done|].
    right. split; [by apply eq_str_false | done].
Qed.

(** X5. Only ["DFA"] clears the hidden size of the feedback MLP. For every
    other network type, the convolutional aliases included, [size_mlp_fb]
    leaves post-processing as parsed: [None] for the string ["None"], and
    otherwise what [utils.process_hdim_fb] makes of it (in [__post_init__], of
    a string only). *)
Theorem size_mlp_fb_parsed_unless_DFA (args args' : Namespace) (s : string) :
  args !! "network_type" = Some (VStr s) →
  (s =? "DFA") = false →
  (postprocess_args L args = Ok args' →
   ∃ m m', args !! "size_mlp_fb" = Some m ∧ args' !! "size_mlp_fb" = Some m' ∧
     (m = VStr "None" ∧ m' = VNone ∨
      m ≠ VStr "None" ∧ process_hdim_fb L m = Ok m')) ∧
  (Args.__post_init__ L args = Ok args' →
   ∃ m m', args !! "size_mlp_fb" = Some m ∧ args' !! "size_mlp_fb" = Some m' ∧
     (m = VStr "None" ∧ m' = VNone ∨
      m ≠ VStr "None" ∧
        if isinstance_str m then process_hdim_fb L m = Ok m' else m' = m)).
Proof.
  intros Hnt Hs. split; intros H.
  - destruct (postprocess_args_stages _ _ _ Hnt H)
      as (a1 & a2 & a3 & a4 & a5 & a6 & S1 & S2 & S3 & S4 & S5 & S6 & Hout).
    destruct (process_string_options_size_mlp_fb _ _ S5) as (m & m' & Hm & Hm' & Hc).
    exists m, m'. split; [| split; [| done]].
    + rewrite <- Hm. symmetry. by carry.
    + rewrite Hout by done. rewrite rewritten_size_mlp_fb, Hs. by carry.
  - destruct (post_init_stages _ _ _ Hnt H)
      as (a1 & a2 & a3 & a4 & a5 & a6 & S1 & S2 & S3 & S4 & S5 & S6 & Hout).
    destruct (Args_process_string_options_size_mlp_fb _ _ S5)
      as (m & m' & Hm & Hm' & Hc).
    exists m, m'. split; [| split; [| done]].
    + rewrite <- Hm. symmetry. by carry.
    + rewrite Hout by done. rewrite rewritten_size_mlp_fb, Hs. by carry.
Qed.


(** *** The angle flag and the log file *)

Lemma set_save_angle_bools (a : Namespace) (b1 b2 b3 b4 b5 : bool) :
  a !! "save_GN_activations_angle" = Some (VBool b1) →
  a !! "save_BP_activations_angle" = Some (VBool b2) →
  a !! "save_BP_angle" = Some (VBool b3) →
  a !! "save_GN_angle" = Some (VBool b4) →
  a !! "save_GNT_angle" = Some (VBool b5) →
  set_save_angle a = Ok (setattr "save_angle" (VBool (b1 || b2 || b3 || b4 || b5)) a).
Proof.
  intros H1 H2 H3 H4 H5. unfold set_save_angle, or_attrs.
  rewrite (getattr_lookup _ _ _ H1), (getattr_lookup _ _ _ H2),
    (getattr_lookup _ _ _ H3), (getattr_lookup _ _ _ H4), (getattr_lookup _ _ _ H5).
  by destruct b1, b2, b3, b4, b5.
Qed.

(** X6. With boolean flags, [save_angle] leaves post-processing as the
    disjunction of the five [save_*_angle] flags. *)
Theorem save_angle_is_any_angle_flag (args args' : Namespace) (b1 b2 b3 b4 b5 : bool) :
  args !! "save_GN_activations_angle" = Some (VBool b1) →
  args !! "save_BP_activations_angle" = Some (VBool b2) →
  args !! "save_BP_angle" = Some (VBool b3) →
  args !! "save_GN_angle" = Some (VBool b4) →
  args !! "save_GNT_angle" = Some (VBool b5) →
  postprocess_args L args = Ok args' ∨ Args.__post_init__ L args = Ok args' →
  args' !! "save_angle" = Some (VBool (b1 || b2 || b3 || b4 || b5)).
Proof.
  intros H1 H2 H3 H4 H5 H.
  pose proof (set_save_angle_bools _ _ _ _ _ _ H1 H2 H3 H4 H5) as Hs.
  destruct (routine_body _ _ H) as [Hb | Hb].
  - unfold postprocess_args_body in Hb. apply bind_Ok in Hb as (a1 & S1 & Hb).
    rewrite Hs in S1. injection S1 as <-.
    fold (postprocess_args_body L) in Hb.
    assert (preserves "save_angle"
              (λ a, a <- create_log_dir L "args.txt" a; a <- set_dataset_kind a;
                    a <- init_None_options L a; a <- process_string_options L a;
                    a <- normalize_lr L a; a <- rewrite_network_type a;
                    process_gn_damping L a)) as P.
    { frame_chain. by apply preserves_process_gn_damping. }
    rewrite (P _ _ Hb). unfold setattr. by rewrite lookup_insert_eq.
  - unfold Args.post_init_body in Hb. apply bind_Ok in Hb as (a1 & S1 & Hb).
    rewrite Hs in S1. injection S1 as <-.
    assert (preserves "save_angle"
              (λ a, a <- create_log_dir L "self.txt" a;
                    a <- Args.set_dataset_kind L a;
                    a <- Args.init_None_options a;
                    a <- Args.process_string_options L a;
                    a <- np_normalize_lr L a; a <- rewrite_network_type a;
                    process_gn_damping L a)) as P.
    { frame_chain. by apply preserves_process_gn_damping. }
    rewrite (P _ _ Hb). unfold setattr. by rewrite lookup_insert_eq.
Qed.

Lemma set_save_angle_spec a a1 :
  set_save_angle a = Ok a1 → ∃ sa, a1 = <["save_angle" := sa]> a.
Proof. intros H. unfold set_save_angle in H. run_inv H. eauto. Qed.

Lemma create_log_dir_spec fname a a' :
  create_log_dir L fname a = Ok a' →
  (∀ d, a !! "out_dir" = Some (VStr d) →
     a' = a ∧
     dump_json L (os_path_join (os_path_join "." d) fname) a = Ok tt ∧
     (os_path_exists L (os_path_join "." d) = false →
      os_makedirs L (os_path_join "." d) = Ok tt)) ∧
  (a !! "out_dir" = Some VNone →
     a' = <["out_dir" := VStr "./logs"]> a ∧
     dump_json L (os_path_join "./logs" fname) a' = Ok tt).
Proof.
  intros H. unfold create_log_dir in H. run_inv H; simpl in *.
  - destruct a0; try discriminate. destruct a1.
    split; [intros d Hd; congruence | done].
  - destruct a0. split; [| intros Hn; congruence].
    intros d Hd. rewrite Hd in E. injection E as <-.
    unfold os_path_curdir in *. split; [done|]. split; [done|]. congruence.
  - destruct a0, a2. split; [| intros Hn; congruence].
    intros d Hd. rewrite Hd in E. injection E as <-.
    unfold os_path_curdir in *. done.
Qed.

(** After the first two steps of either routine. *)
Lemma log_file_after (fname : string) (rest : Namespace → result Namespace)
    (args args' : Namespace) :
  preserves "out_dir" rest →
  (a <- set_save_angle args; a <- create_log_dir L fname a; rest a) = Ok args' →
  ∃ sa,
    (∀ d, args !! "out_dir" = Some (VStr d) →
       dump_json L (os_path_join (os_path_join "." d) fname)
         (<["save_angle" := sa]> args) = Ok tt ∧
       args' !! "out_dir" = Some (VStr d)) ∧
    (args !! "out_dir" = Some VNone →
       dump_json L (os_path_join "./logs" fname)
         (<["out_dir" := VStr "./logs"]> (<["save_angle" := sa]> args)) = Ok tt ∧
       args' !! "out_dir" = Some (VStr "./logs")).
Proof.
  intros P Hb.
  apply bind_Ok in Hb as (a1 & S1 & Hb). apply bind_Ok in Hb as (a2 & S2 & Hb).
  destruct (set_save_angle_spec _ _ S1) as (sa & ->). exists sa.
  destruct (create_log_dir_spec _ _ _ S2) as [Hd Hn].
  rewrite (P _ _ Hb). split.
  - intros d Hod. destruct (Hd d) as (-> & Hdump & _);
      [by rewrite lookup_insert_ne|]. split; [done|].
    by rewrite lookup_insert_ne.
  - intros Hod. destruct Hn as (-> & Hdump); [by rewrite lookup_insert_ne|].
    split; [done|]. by rewrite lookup_insert_eq.
Qed.

(** X7. The namespace dumped to [args.txt] (or [self.txt]) is the parsed
    one: it is written right after [save_angle] is added, before any option
    is defaulted, parsed or rewritten, so it shows ["DFA"] and the raw
    learning-rate strings. The file goes to [os.path.join(".", out_dir)];
    with [out_dir = None] it goes to ["./logs"], which is also recorded as
    [out_dir]. *)
Theorem log_file_holds_parsed_namespace (args args' : Namespace) :
  (postprocess_args L args = Ok args' →
   ∃ sa,
     (∀ d, args !! "out_dir" = Some (VStr d) →
        dump_json L (os_path_join (os_path_join "." d) "args.txt")
          (<["save_angle" := sa]> args) = Ok tt ∧
        args' !! "out_dir" = Some (VStr d)) ∧
     (args !! "out_dir" = Some VNone →
        dump_json L "./logs/args.txt"
          (<["out_dir" := VStr "./logs"]> (<["save_angle" := sa]> args)) = Ok tt ∧
        args' !! "out_dir" = Some (VStr "./logs"))) ∧
  (Args.__post_init__ L args = Ok args' →
   ∃ sa,
     (∀ d, args !! "out_dir" = Some (VStr d) →
        dump_json L (os_path_join (os_path_join "." d) "self.txt")
          (<["save_angle" := sa]> args) = Ok tt ∧
        args' !! "out_dir" = Some (VStr d)) ∧
     (args !! "out_dir" = Some VNone →
        dump_json L "./logs/self.txt"
          (<["out_dir" := VStr "./logs"]> (<["save_angle" := sa]> args)) = Ok tt ∧
        args' !! "out_dir" = Some (VStr "./logs"))).
Proof.
  split; intros H.
  - unfold postprocess_args in H. apply bind_Ok in H as (a & Hb & Hc).
    apply check_shallow_training_Ok in Hc as ->.
    apply (log_file_after "args.txt"
             (λ a, a <- set_dataset_kind a;
                   a <- init_None_options L a; a <- process_string_options L a;
                   a <- normalize_lr L a; a <- rewrite_network_type a;
                   process_gn_damping L a)); [| exact Hb].
    frame_chain. by apply preserves_process_gn_damping.
  - unfold Args.__post_init__ in H. apply bind_Ok in H as (a & Hb & Hc).
    apply check_shallow_training_Ok in Hc as ->.
    apply (log_file_after "self.txt"
             (λ a, a <- Args.set_dataset_kind L a;
                   a <- Args.init_None_options a;
                   a <- Args.process_string_options L a;
                   a <- np_normalize_lr L a; a <- rewrite_network_type a;
                   process_gn_damping L a)); [| exact Hb].
    frame_chain. by apply preserves_process_gn_damping.
Qed.


(** *** Options that default to other options *)

Lemma is_None_false v : is_None v = false → v ≠ VNone.
Proof. by destruct v. Qed.

Lemma default_from_fills name fallback a a' :
  default_from name fallback a = Ok a' → filled a fallback →
  filled a' name ∧ ∀ k, k ≠ name → a' !! k = a !! k.
Proof.
  intros H (f & Hf & Hfn). unfold default_from in H. run_inv H.
  - rewrite Hf in E0. injection E0 as <-. split.
    + exists f. unfold setattr. by rewrite lookup_insert_eq.
    + intros k Hk. unfold setattr. by rewrite lookup_insert_ne.
  - split; [| done]. exists a0. split; [done | by apply is_None_false].
Qed.

Lemma init_None_options_fills a a' :
  init_None_options L a = Ok a' →
  filled a "hidden_activation" → filled a "optimizer" →
  Forall (filled a') defaulted_options.
Proof.
  intros H Hh Ho. unfold init_None_options in H.
  apply bind_Ok in H as (oa & Hoa & H). apply getattr_Ok in Hoa.
  apply bind_Ok in H as (a0 & H0 & H).
  apply bind_Ok in H as (a1 & H1 & H). apply bind_Ok in H as (a2 & H2 & H3).
  assert (filled a0 "output_activation" ∧
          ∀ k, k ≠ "output_activation" → a0 !! k = a !! k) as [F0 K0].
  { run_inv H0.
    - split; [exists (VStr "softmax") | intros k Hk]; unfold setattr;
        by rewrite ?lookup_insert_eq, ?lookup_insert_ne.
    - split; [exists (VStr "linear") | intros k Hk]; unfold setattr;
        by rewrite ?lookup_insert_eq, ?lookup_insert_ne.
    - split; [| done]. exists oa. split; [done | by apply is_None_false]. }
  destruct (default_from_fills _ _ _ _ H1) as [F1 K1].
  { destruct Hh as (h & Hh & ?). exists h. by rewrite K0. }
  destruct (default_from_fills _ _ _ _ H2) as [F2 K2].
  { destruct Hh as (h & Hh & ?). exists h. by rewrite K1, K0. }
  destruct (default_from_fills _ _ _ _ H3) as [F3 K3].
  { destruct Ho as (o & Ho & ?). exists o. by rewrite K2, K1, K0. }
  unfold filled in *. repeat constructor.
  - rewrite K3, K2, K1 by done. exact F0.
  - rewrite K3, K2 by done. exact F1.
  - rewrite K3 by done. exact F2.
  - exact F3.
Qed.

Lemma default_or_fills name fallback a a' :
  Args.default_or name fallback a = Ok a' → truthy_at a fallback →
  truthy_at a' name ∧ ∀ k, k ≠ name → a' !! k = a !! k.
Proof.
  intros H (f & Hf & Hft). unfold Args.default_or, or_attrs in H. run_inv H.
  - split.
    + exists a0. unfold setattr. by rewrite lookup_insert_eq.
    + intros k Hk. unfold setattr. by rewrite lookup_insert_ne.
  - rewrite Hf in E. injection E as <-. split.
    + exists f. unfold setattr. by rewrite lookup_insert_eq.
    + intros k Hk. unfold setattr. by rewrite lookup_insert_ne.
Qed.

Lemma Args_init_None_options_fills a a' :
  Args.init_None_options a = Ok a' →
  truthy_at a "hidden_activation" → truthy_at a "optimizer" →
  Forall (truthy_at a') defaulted_options.
Proof.
  intros H Hh Ho. unfold Args.init_None_options in H.
  apply bind_Ok in H as (oa & Hoa & H). apply getattr_Ok in Hoa.
  apply bind_Ok in H as (t & Ht & H). apply bind_Ok in H as (v & Hv & H).
  apply bind_Ok in H as (a1 & H1 & H). apply bind_Ok in H as (a2 & H2 & H3).
  assert (truthy v = Ok true) as Hvt.
  { destruct t.
    - by injection Hv as <-.
    - apply bind_Ok in Hv as (c & _ & Hv). apply bind_Ok in Hv as (tc & _ & Hv).
      injection Hv as <-. by destruct tc. }
  set (a0 := setattr "output_activation" v a) in *.
  assert (∀ k, k ≠ "output_activation" → a0 !! k = a !! k) as K0
    by (intros k Hk; unfold a0, setattr; by rewrite lookup_insert_ne).
  destruct (default_or_fills _ _ _ _ H1) as [F1 K1].
  { destruct Hh as (h & Hh & ?). exists h. by rewrite K0. }
  destruct (default_or_fills _ _ _ _ H2) as [F2 K2].
  { destruct Hh as (h & Hh & ?). exists h. by rewrite K1, K0. }
  destruct (default_or_fills _ _ _ _ H3) as [F3 K3].
  { destruct Ho as (o & Ho & ?). exists o. by rewrite K2, K1, K0. }
  unfold truthy_at in *. repeat constructor.
  - rewrite K3, K2, K1 by done. exists v. unfold a0, setattr.
    by rewrite lookup_insert_eq.
  - rewrite K3, K2 by done. exact F1.
  - rewrite K3 by done. exact F2.
  - exact F3.
Qed.

(** Both notions survive the steps after the defaulting: parsing and
    normalisation do not touch these options, and the network-type stage can
    only replace the feedback activation by ["linear"]. *)
Lemma defaulted_options_kept (P : value → Prop) (s : string) (a4 a6 args' : Namespace) :
  P (VStr "linear") →
  (∀ k, k ∈ defaulted_options → a6 !! k = a4 !! k) →
  (∀ k, k ≠ "gn_damping" → args' !! k = rewritten s a6 !! k) →
  Forall (λ k, ∃ v, a4 !! k = Some v ∧ P v) defaulted_options →
  Forall (λ k, ∃ v, args' !! k = Some v ∧ P v) defaulted_options.
Proof.
  intros Plin H64 Hout HF. rewrite Forall_forall in HF. apply Forall_forall.
  intros k Hk. specialize (HF k Hk). pose proof (H64 k Hk) as Hk64.
  each_key Hk.
  all: rewrite Hout by done.
  2: { rewrite rewritten_fb_activation. destruct (is_in s alias_types); [eauto|].
       by rewrite Hk64. }
  all: rewrite rewritten_other by (eauto with frame); by rewrite Hk64.
Qed.

(** X8. Once post-processing has returned, none of the four defaulted
    options is left open. After [postprocess_args] the output, feedback and
    hidden-feedback activations and the feedback optimizer are not [None]
    (given [hidden_activation] and [optimizer]); after [__post_init__], which
    uses [or], they are moreover not empty. *)
Theorem defaulted_options_are_filled (args args' : Namespace) (s : string) :
  args !! "network_type" = Some (VStr s) →
  (filled args "hidden_activation" → filled args "optimizer" →
   postprocess_args L args = Ok args' →
   Forall (filled args') defaulted_options) ∧
  (truthy_at args "hidden_activation" → truthy_at args "optimizer" →
   Args.__post_init__ L args = Ok args' →
   Forall (truthy_at args') defaulted_options).
Proof.
  intros Hnt. split; intros Hh Ho H.
  - destruct (postprocess_args_stages _ _ _ Hnt H)
      as (a1 & a2 & a3 & a4 & a5 & a6 & S1 & S2 & S3 & S4 & S5 & S6 & Hout).
    apply (defaulted_options_kept (λ v, v ≠ VNone) s a4 a6); [done | | done |].
    + intros k Hk. each_key Hk; by carry.
    + apply (init_None_options_fills _ _ S4).
      * destruct Hh as (h & Hh & ?). exists h. split; [| done]. by carry.
      * destruct Ho as (o & Ho & ?). exists o. split; [| done]. by carry.
  - destruct (post_init_stages _ _ _ Hnt H)
      as (a1 & a2 & a3 & a4 & a5 & a6 & S1 & S2 & S3 & S4 & S5 & S6 & Hout).
    apply (defaulted_options_kept (λ v, truthy v = Ok true) s a4 a6);
      [done | | done |].
    + intros k Hk. each_key Hk; by carry.
    + apply (Args_init_None_options_fills _ _ S4).
      * destruct Hh as (h & Hh & ?). exists h. split; [| done]. by carry.
      * destruct Ho as (o & Ho & ?). exists o. split; [| done]. by carry.
Qed.


(** *** Data sets *)

Lemma set_dataset_kind_str a a' d :
  a !! "dataset" = Some (VStr d) → set_dataset_kind a = Ok a' →
  a' = setattr "regression" (VBool (is_in d regression_datasets))
         (setattr "classification" (VBool (is_in d classification_datasets)) a).
Proof.
  intros Hd. unfold set_dataset_kind.
  rewrite (getattr_lookup _ _ _ Hd). cbn [bind]. rewrite in_strs_str. cbn [bind].
  rewrite getattr_lookup with (v := VStr d)
    by (unfold setattr; by rewrite lookup_insert_ne).
  cbn [bind]. rewrite in_strs_str. cbn [bind]. by intros [= <-].
Qed.

Lemma Args_set_dataset_kind_str a a' d :
  a !! "dataset" = Some (VStr d) → Args.set_dataset_kind L a = Ok a' →
  a' = setattr "regression" (VBool (is_in d regression_datasets))
         (setattr "classification" (VBool (is_in d classification_datasets)) a) ∧
  is_in d classification_datasets || is_in d regression_datasets = true.
Proof.
  intros Hd. unfold Args.set_dataset_kind, classification_datasets, regression_datasets.
  rewrite (getattr_lookup _ _ _ Hd). cbn [bind]. rewrite in_strs_str. cbn [bind].
  set (c := is_in d ["mnist"; "fashion_mnist"; "cifar10"]).
  rewrite getattr_lookup with (v := VStr d)
    by (unfold setattr; by rewrite lookup_insert_ne).
  cbn [bind]. rewrite in_strs_str. cbn [bind].
  set (r := is_in d ["student_teacher"; "boston"]).
  rewrite getattr_lookup with (v := VBool c)
    by (unfold setattr; by rewrite lookup_insert_ne, lookup_insert_eq).
  cbn [bind truthy].
  destruct c; [intros [= <-]; done|].
  rewrite getattr_lookup with (v := VBool r)
    by (unfold setattr; by rewrite lookup_insert_eq).
  cbn [bind truthy].
  destruct r; [intros [= <-]; done|].
  rewrite getattr_lookup with (v := VStr d)
    by (unfold setattr; by rewrite !lookup_insert_ne).
  discriminate.
Qed.

Lemma init_None_options_output a a' (c r : bool) :
  a !! "output_activation" = Some VNone →
  a !! "classification" = Some (VBool c) → a !! "regression" = Some (VBool r) →
  init_None_options L a = Ok a' →
  c || r = true ∧
  a' !! "output_activation" = Some (VStr (if c then "softmax" else "linear")).
Proof.
  intros Ho Hc Hr H. unfold init_None_options in H.
  rewrite (getattr_lookup _ _ _ Ho) in H. cbn [bind is_None] in H.
  rewrite (getattr_lookup _ _ _ Hc) in H. cbn [bind truthy] in H.
  assert (preserves "output_activation"
            (λ a, a <- default_from "fb_activation" "hidden_activation" a;
                  a <- default_from "hidden_fb_activation" "hidden_activation" a;
                  default_from "optimizer_fb" "optimizer" a)) as P
    by (frame_chain; by apply preserves_default_from).
  destruct c.
  - cbn [bind] in H. rewrite (P _ _ H). split; [done|].
    unfold setattr. by rewrite lookup_insert_eq.
  - rewrite (getattr_lookup _ _ _ Hr) in H. cbn [bind truthy] in H. destruct r.
    + cbn [bind] in H. rewrite (P _ _ H). split; [done|].
      unfold setattr. by rewrite lookup_insert_eq.
    + apply bind_Ok in H as (x & Hx & _). apply bind_Ok in Hx as (? & _ & ?).
      discriminate.
Qed.

Lemma default_from_present name fallback a :
  is_Some (a !! name) → is_Some (a !! fallback) →
  ∃ a', default_from name fallback a = Ok a' ∧
        (∀ k, k ≠ name → a' !! k = a !! k) ∧ is_Some (a' !! name).
Proof.
  intros [v Hv] [f Hf]. unfold default_from.
  rewrite (getattr_lookup _ _ _ Hv). cbn [bind].
  destruct (is_None v).
  - rewrite (getattr_lookup _ _ _ Hf). cbn [bind].
    eexists. split; [reflexivity|]. split.
    + intros k Hk. unfold setattr. by rewrite lookup_insert_ne.
    + unfold setattr. rewrite lookup_insert_eq. eauto.
  - exists a. eauto.
Qed.

(** With [output_activation] given, the defaulting never looks at the kind of
    the data set. *)
Lemma init_None_options_given a v :
  a !! "output_activation" = Some v → v ≠ VNone →
  Forall (λ k, is_Some (a !! k))
    ["fb_activation"; "hidden_fb_activation"; "optimizer_fb";
     "hidden_activation"; "optimizer"] →
  ∃ a', init_None_options L a = Ok a' ∧
        ∀ k, k ∉ ["fb_activation"; "hidden_fb_activation"; "optimizer_fb"] →
          a' !! k = a !! k.
Proof.
  intros Ho Hv Hp.
  apply Forall_cons in Hp as [P1 Hp]. apply Forall_cons in Hp as [P2 Hp].
  apply Forall_cons in Hp as [P3 Hp]. apply Forall_cons in Hp as [P4 Hp].
  apply Forall_cons in Hp as [P5 _].
  unfold init_None_options. rewrite (getattr_lookup _ _ _ Ho). cbn [bind].
  assert (is_None v = false) as -> by (by destruct v).
  cbn [bind].
  destruct (default_from_present "fb_activation" "hidden_activation" a P1 P4)
    as (a1 & -> & K1 & _).
  cbn [bind].
  destruct (default_from_present "hidden_fb_activation" "hidden_activation" a1)
    as (a2 & -> & K2 & _); [by rewrite K1 | by rewrite K1 |].
  cbn [bind].
  destruct (default_from_present "optimizer_fb" "optimizer" a2)
    as (a3 & -> & K3 & _); [by rewrite K2, K1 | by rewrite K2, K1 |].
  exists a3. split; [reflexivity|].
  intros k Hk. apply not_elem_of_cons in Hk as [? Hk].
  apply not_elem_of_cons in Hk as [? Hk]. apply not_elem_of_cons in Hk as [? _].
  by rewrite K3, K2, K1.
Qed.

Lemma is_in_unsupported d :
  is_in d classification_datasets || is_in d regression_datasets = false →
  is_in d classification_datasets = false ∧ is_in d regression_datasets = false.
Proof. apply orb_false_elim. Qed.

(** X9. What the two routines make of the data set. Both record
    [classification] for mnist, fashion_mnist and cifar10 and [regression] for
    student_teacher and boston. A data set outside these five never gets
    through [__post_init__], which raises on it as soon as the log file is
    written. [postprocess_args] rejects it only when [output_activation] is
    [None]: with [output_activation] given, the data set steps raise nothing,
    set both kinds to [False], keep [output_activation], and the routine goes
    on with the string options. An [output_activation] left [None] becomes
    ["softmax"] for a classification data set and ["linear"] for a regression
    one. *)
Theorem dataset_kind_and_support (args args' : Namespace) (d : string) :
  args !! "dataset" = Some (VStr d) →
  (postprocess_args L args = Ok args' ∨ Args.__post_init__ L args = Ok args' →
   args' !! "classification" = Some (VBool (is_in d classification_datasets)) ∧
   args' !! "regression" = Some (VBool (is_in d regression_datasets))) ∧
  (Args.__post_init__ L args = Ok args' →
   is_in d classification_datasets || is_in d regression_datasets = true) ∧
  (postprocess_args L args = Ok args' →
   args !! "output_activation" = Some VNone →
   is_in d classification_datasets || is_in d regression_datasets = true ∧
   args' !! "output_activation"
     = Some (VStr (if is_in d classification_datasets then "softmax" else "linear"))) ∧
  (is_in d classification_datasets || is_in d regression_datasets = false →
   (∀ a2, bind (set_save_angle args) (create_log_dir L "self.txt") = Ok a2 →
      Args.__post_init__ L args = Raise (dataset_not_supported L (VStr d))) ∧
   (∀ v a2,
      args !! "output_activation" = Some v → v ≠ VNone →
      Forall (λ k, is_Some (args !! k))
        ["fb_activation"; "hidden_fb_activation"; "optimizer_fb";
         "hidden_activation"; "optimizer"] →
      bind (set_save_angle args) (create_log_dir L "args.txt") = Ok a2 →
      ∃ a4,
        bind (set_dataset_kind a2) (init_None_options L) = Ok a4 ∧
        a4 !! "classification" = Some (VBool false) ∧
        a4 !! "regression" = Some (VBool false) ∧
        a4 !! "output_activation" = Some v ∧
        postprocess_args L args
          = bind (a <- process_string_options L a4; a <- normalize_lr L a;
                  a <- rewrite_network_type a; process_gn_damping L a)
                 check_shallow_training)).
Proof.
  intros Hd. split; [| split; [| split]].
  - intros H. destruct (routine_body _ _ H) as [Hb | Hb].
    + unfold postprocess_args_body in Hb.
      apply bind_Ok in Hb as (a1 & S1 & Hb). apply bind_Ok in Hb as (a2 & S2 & Hb).
      apply bind_Ok in Hb as (a3 & S3 & Hb).
      assert (a2 !! "dataset" = Some (VStr d)) as Hd2 by (carry; done).
      rewrite (set_dataset_kind_str _ _ _ Hd2 S3) in Hb.
      assert (∀ k, k = "classification" ∨ k = "regression" →
                preserves k
                  (λ a, a <- init_None_options L a; a <- process_string_options L a;
                        a <- normalize_lr L a; a <- rewrite_network_type a;
                        process_gn_damping L a)) as P.
      { intros k [-> | ->]; frame_chain; by apply preserves_process_gn_damping. }
      rewrite (P "classification" (or_introl eq_refl) _ _ Hb),
        (P "regression" (or_intror eq_refl) _ _ Hb).
      unfold setattr. by rewrite lookup_insert_ne, !lookup_insert_eq.
    + unfold Args.post_init_body in Hb.
      apply bind_Ok in Hb as (a1 & S1 & Hb). apply bind_Ok in Hb as (a2 & S2 & Hb).
      apply bind_Ok in Hb as (a3 & S3 & Hb).
      assert (a2 !! "dataset" = Some (VStr d)) as Hd2 by (carry; done).
      destruct (Args_set_dataset_kind_str _ _ _ Hd2 S3) as [-> _].
      assert (∀ k, k = "classification" ∨ k = "regression" →
                preserves k
                  (λ a, a <- Args.init_None_options a;
                        a <- Args.process_string_options L a;
                        a <- np_normalize_lr L a; a <- rewrite_network_type a;
                        process_gn_damping L a)) as P.
      { intros k [-> | ->]; frame_chain; by apply preserves_process_gn_damping. }
      rewrite (P "classification" (or_introl eq_refl) _ _ Hb),
        (P "regression" (or_intror eq_refl) _ _ Hb).
      unfold setattr. by rewrite lookup_insert_ne, !lookup_insert_eq.
  - intros H. destruct (routine_body _ _ (or_intror H)) as [Hb | Hb].
    + unfold Args.__post_init__ in H. apply bind_Ok in H as (a & Hb' & Hc).
      unfold Args.post_init_body in Hb'.
      apply bind_Ok in Hb' as (a1 & S1 & Hb'). apply bind_Ok in Hb' as (a2 & S2 & Hb').
      apply bind_Ok in Hb' as (a3 & S3 & Hb').
      assert (a2 !! "dataset" = Some (VStr d)) as Hd2 by (carry; done).
      exact (proj2 (Args_set_dataset_kind_str _ _ _ Hd2 S3)).
    + unfold Args.post_init_body in Hb.
      apply bind_Ok in Hb as (a1 & S1 & Hb). apply bind_Ok in Hb as (a2 & S2 & Hb).
      apply bind_Ok in Hb as (a3 & S3 & Hb).
      assert (a2 !! "dataset" = Some (VStr d)) as Hd2 by (carry; done).
      exact (proj2 (Args_set_dataset_kind_str _ _ _ Hd2 S3)).
  - intros H Ho. unfold postprocess_args in H. apply bind_Ok in H as (a & Hb & Hc).
    apply check_shallow_training_Ok in Hc as ->.
    unfold postprocess_args_body in Hb.
    apply bind_Ok in Hb as (a1 & S1 & Hb). apply bind_Ok in Hb as (a2 & S2 & Hb).
    apply bind_Ok in Hb as (a3 & S3 & Hb). apply bind_Ok in Hb as (a4 & S4 & Hb).
    assert (a2 !! "dataset" = Some (VStr d)) as Hd2 by (carry; done).
    assert (a2 !! "output_activation" = Some VNone) as Ho2 by (carry; done).
    rewrite (set_dataset_kind_str _ _ _ Hd2 S3) in S4.
    eapply init_None_options_output in S4 as [Hsup Hout].
    2: { unfold setattr. by rewrite !lookup_insert_ne. }
    2: { unfold setattr. by rewrite lookup_insert_ne, lookup_insert_eq. }
    2: { unfold setattr. by rewrite lookup_insert_eq. }
    split; [exact Hsup|].
    assert (preserves "output_activation"
              (λ a, a <- process_string_options L a;
                    a <- normalize_lr L a; a <- rewrite_network_type a;
                    process_gn_damping L a)) as P
      by (frame_chain; by apply preserves_process_gn_damping).
    by rewrite (P _ _ Hb).
  - intros Hun. apply is_in_unsupported in Hun as [Hc Hr]. split.
    + intros a2 H2. apply bind_Ok in H2 as (a1 & S1 & S2).
      assert (a2 !! "dataset" = Some (VStr d)) as Hd2 by (carry; done).
      unfold Args.__post_init__, Args.post_init_body.
      rewrite S1. cbn [bind]. rewrite S2. cbn [bind].
      unfold Args.set_dataset_kind.
      rewrite (getattr_lookup _ _ _ Hd2). cbn [bind]. rewrite in_strs_str. cbn [bind].
      rewrite getattr_lookup with (v := VStr d)
        by (unfold setattr; by rewrite lookup_insert_ne).
      cbn [bind]. rewrite in_strs_str. cbn [bind].
      fold classification_datasets regression_datasets. rewrite Hc, Hr.
      rewrite getattr_lookup with (v := VBool false)
        by (unfold setattr; by rewrite lookup_insert_ne, lookup_insert_eq).
      cbn [bind truthy].
      rewrite getattr_lookup with (v := VBool false)
        by (unfold setattr; by rewrite lookup_insert_eq).
      cbn [bind truthy].
      rewrite getattr_lookup with (v := VStr d)
        by (unfold setattr; by rewrite !lookup_insert_ne).
      reflexivity.
    + intros v a2 Ho Hv Hp H2. apply bind_Ok in H2 as (a1 & S1 & S2).
      assert (a2 !! "dataset" = Some (VStr d)) as Hd2 by (carry; done).
      assert (set_dataset_kind a2
              = Ok (setattr "regression" (VBool false)
                      (setattr "classification" (VBool false) a2))) as S3.
      { unfold set_dataset_kind.
        rewrite (getattr_lookup _ _ _ Hd2). cbn [bind]. rewrite in_strs_str. cbn [bind].
        rewrite getattr_lookup with (v := VStr d)
          by (unfold setattr; by rewrite lookup_insert_ne).
        cbn [bind]. rewrite in_strs_str. cbn [bind].
        fold classification_datasets regression_datasets. by rewrite Hc, Hr. }
      set (a3 := setattr "regression" (VBool false)
                   (setattr "classification" (VBool false) a2)) in *.
      assert (∀ k, k ∈ ["output_activation"; "fb_activation"; "hidden_fb_activation";
                        "optimizer_fb"; "hidden_activation"; "optimizer"] →
                a3 !! k = args !! k) as K3.
      { intros k Hk. subst a3. unfold setattr.
        each_key Hk; rewrite !lookup_insert_ne by done; by carry. }
      destruct (init_None_options_given a3 v) as (a4 & S4 & K4).
      { rewrite K3; [exact Ho | repeat constructor]. }
      { exact Hv. }
      { rewrite Forall_forall in Hp. apply Forall_forall. intros k Hk.
        rewrite K3; [by apply Hp | apply elem_of_cons; by right]. }
      exists a4. split; [by rewrite S3|].
      assert (∀ k, k ∈ ["classification"; "regression"; "output_activation"] →
                a4 !! k = a3 !! k) as K4'.
      { intros k Hk. apply K4. each_key Hk;
          repeat (apply not_elem_of_cons; split; [done|]); apply not_elem_of_nil. }
      split; [rewrite K4' by repeat constructor; subst a3; unfold setattr;
              by rewrite lookup_insert_ne, lookup_insert_eq|].
      split; [rewrite K4' by repeat constructor; subst a3; unfold setattr;
              by rewrite lookup_insert_eq|].
      split; [rewrite K4', K3 by repeat constructor; exact Ho|].
      unfold postprocess_args, postprocess_args_body.
      rewrite S1. cbn [bind]. rewrite S2. cbn [bind]. rewrite S3. cbn [bind].
      rewrite S4. reflexivity.
Qed.

End MainFacts.

(** * Properties of the training core *)

Section CoreFacts.
Import Core.
Local Close Scope string_scope.
Local Open Scope R_scope.

(** *** Angles *)

Lemma dot_cons x y (u v : array) : dot (x :: u) (y :: v) = x * y + dot u v.
Proof. reflexivity. Qed.

Lemma dot_self_nonneg (u : array) : 0 <= dot u u.
Proof.
  induction u as [|x u IH]; [unfold dot; simpl; lra|].
  rewrite dot_cons. nra.
Qed.

Lemma dot_self_pos (u : array) : (∃ x, x ∈ u ∧ x ≠ 0) → 0 < dot u u.
Proof.
  intros (x & Hin & Hx). induction u as [|y u IH]; [by apply elem_of_nil in Hin|].
  rewrite dot_cons. pose proof (dot_self_nonneg u).
  apply elem_of_cons in Hin as [<- | Hin].
  - assert (0 < x * x) by nra. lra.
  - specialize (IH Hin). nra.
Qed.

Lemma clip_inside lo hi x : lo <= x → x <= hi → clip lo hi x = x.
Proof.
  intros Hlo Hhi. unfold clip. rewrite Rmin_right by lra. by rewrite Rmax_right.
Qed.

Lemma norm_unit_x : norm [1; 0] = 1.
Proof. unfold norm, dot. simpl. replace (1 * 1 + (0 * 0 + 0)) with 1 by lra. apply sqrt_1. Qed.

Lemma norm_unit_y : norm [0; 1] = 1.
Proof. unfold norm, dot. simpl. replace (0 * 0 + (1 * 1 + 0)) with 1 by lra. apply sqrt_1. Qed.

Lemma norm_minus_unit_x : norm [-1; 0] = 1.
Proof.
  unfold norm, dot. simpl. replace (-1 * -1 + (0 * 0 + 0)) with 1 by lra. apply sqrt_1.
Qed.

(** C7. The angle of a nonzero vector with itself is 0 degrees, opposite unit
    vectors are at 180 degrees and orthogonal unit vectors at 90 degrees. *)
Theorem angle_reference_values :
  (∀ u : array, (∃ x, x ∈ u ∧ x ≠ 0) → angle u u = 0) ∧
  angle [1; 0] [-1; 0] = 180 ∧
  angle [1; 0] [0; 1] = 90.
Proof.
  split; [| split].
  - intros u Hu. pose proof (dot_self_pos u Hu) as Hpos. unfold angle, norm.
    rewrite sqrt_sqrt by lra.
    replace (dot u u / dot u u) with 1 by (field; lra).
    rewrite clip_inside by lra. rewrite acos_1. lra.
  - unfold angle. rewrite norm_unit_x, norm_minus_unit_x.
    replace (dot [1; 0] [-1; 0] / (1 * 1)) with (- (1)) by (unfold dot; simpl; lra).
    rewrite clip_inside by lra. rewrite acos_opp, acos_1.
    field. apply PI_neq0.
  - unfold angle. rewrite norm_unit_x, norm_unit_y.
    replace (dot [1; 0] [0; 1] / (1 * 1)) with 0 by (unfold dot; simpl; lra).
    rewrite clip_inside by lra. rewrite acos_0.
    field. apply PI_neq0.
Qed.


(** *** Target propagation *)

(** The state of the chained pass after the hidden layers [hidden]: the layer
    last handled is the first of [hidden ++ [out]], and the targets end with
    the output target. *)
Lemma chained_state (dr : bool) (hidden : list Layer) (out : Layer) (ot : array) :
  ∃ first t later,
    foldr (chained_step dr) (out, ot, []) hidden = (first, t, later) ∧
    (hidden ++ [out])%list !! 0%nat = Some first ∧
    length (t :: later) = S (length hidden) ∧
    last (t :: later) = Some ot.
Proof.
  induction hidden as [|l hidden IH]; simpl.
  - by exists out, ot, [].
  - destruct IH as (first & t & later & -> & Hfirst & Hlen & Hlast). simpl.
    exists l, (compute_target dr l first t), (t :: later).
    repeat split; simpl in *; [lia | done].
Qed.

Lemma chained_targets_length dr hidden out ot :
  length (chained_targets dr hidden out ot) = S (length hidden).
Proof.
  unfold chained_targets.
  destruct (chained_state dr hidden out ot) as (first & t & later & -> & _ & Hlen & _).
  done.
Qed.

Lemma chained_targets_last dr hidden out ot :
  last (chained_targets dr hidden out ot) = Some ot.
Proof.
  unfold chained_targets.
  destruct (chained_state dr hidden out ot) as (first & t & later & -> & _ & _ & Hlast).
  done.
Qed.

(** Adding a layer in front adds one target in front, computed from the
    target and the layer that were first before. *)
Lemma chained_targets_cons dr l hidden out ot :
  ∃ down t,
    (hidden ++ [out])%list !! 0%nat = Some down ∧
    chained_targets dr hidden out ot !! 0%nat = Some t ∧
    chained_targets dr (l :: hidden) out ot
      = compute_target dr l down t :: chained_targets dr hidden out ot.
Proof.
  unfold chained_targets. simpl.
  destruct (chained_state dr hidden out ot) as (first & t & later & -> & Hfirst & _ & _).
  simpl. by exists first, t.
Qed.

Lemma chained_targets_rule dr hidden out ot (i : nat) :
  (i < length hidden)%nat →
  ∃ l down t,
    (hidden ++ [out])%list !! i = Some l ∧
    (hidden ++ [out])%list !! S i = Some down ∧
    chained_targets dr hidden out ot !! S i = Some t ∧
    chained_targets dr hidden out ot !! i = Some (compute_target dr l down t).
Proof.
  revert i. induction hidden as [|l hidden IH]; intros i Hi; simpl in Hi; [lia|].
  destruct (chained_targets_cons dr l hidden out ot) as (down & t & Hdown & Ht & ->).
  destruct i as [|i].
  - exists l, down, t. by repeat split.
  - destruct (IH i ltac:(lia)) as (l' & down' & t' & Hl & Hd & Ht' & Hrule).
    exists l', down', t'. by repeat split.
Qed.

Lemma direct_targets_last hidden ot : last (direct_targets hidden ot) = Some ot.
Proof. unfold direct_targets. by rewrite last_snoc. Qed.

(** Arrays entry by entry. *)
Lemma map_lookup {A B : Type} (f : A → B) (l : list A) (j : nat) (a : A) :
  l !! j = Some a → map f l !! j = Some (f a).
Proof.
  revert j. induction l as [|x l IH]; intros [|j]; simpl; try done.
  - by intros [= ->].
  - apply IH.
Qed.

Lemma vsub_lookup (u v : array) (j : nat) (a b : R) :
  u !! j = Some a → v !! j = Some b → vsub u v !! j = Some (a - b).
Proof.
  intros Hu Hv. unfold vsub. apply lookup_zip_with_Some. by exists a, b.
Qed.

Lemma vadd_lookup (u v : array) (j : nat) (a b : R) :
  u !! j = Some a → v !! j = Some b → vadd u v !! j = Some (a + b).
Proof.
  intros Hu Hv. unfold vadd. apply lookup_zip_with_Some. by exists a, b.
Qed.

Lemma vscale_lookup (c : R) (v : array) (j : nat) (a : R) :
  v !! j = Some a → vscale c v !! j = Some (c * a).
Proof. apply map_lookup. Qed.

Lemma vsub_length (u v : array) : length (vsub u v) = (length u `min` length v)%nat.
Proof. apply length_zip_with. Qed.

Lemma vadd_length (u v : array) : length (vadd u v) = (length u `min` length v)%nat.
Proof. apply length_zip_with. Qed.

Lemma vscale_length (c : R) (v : array) : length (vscale c v) = length v.
Proof. apply length_map. Qed.

Lemma one_hot_length (n k : nat) : length (one_hot n k) = n.
Proof. unfold one_hot. by rewrite length_map, length_seq. Qed.

Lemma one_hot_lookup (n k j : nat) :
  (j < n)%nat → one_hot n k !! j = Some (if Nat.eqb j k then 1 else 0).
Proof.
  intros Hj. unfold one_hot.
  apply (map_lookup (λ i : nat, if Nat.eqb i k then 1 else 0) (seq 0 n) j j).
  by apply lookup_seq_lt.
Qed.

Lemma output_target_lookup (n : Network) (s : Supervision) (j : nat) (a d : R) :
  activation (output_layer n) !! j = Some a →
  analytic_loss_gradient (activation (output_layer n)) s !! j = Some d →
  output_target n s !! j = Some (a - target_stepsize n * d).
Proof.
  intros Ha Hd. unfold output_target.
  apply vsub_lookup; [exact Ha|]. by apply vscale_lookup.
Qed.

Lemma class_gradient_lookup (p : array) (k j : nat) (x : R) :
  p !! j = Some x →
  analytic_loss_gradient p (ClassLabel k) !! j
    = Some (x - (if Nat.eqb j k then 1 else 0)).
Proof.
  intros Hx. simpl. apply vsub_lookup; [exact Hx|].
  apply one_hot_lookup. by eapply lookup_lt_Some.
Qed.

(** C2. In every pass the output layer's target is, entry by entry, its
    activation minus [target_stepsize] times the analytic loss gradient, which
    for a class label under softmax/cross-entropy is the prediction minus the
    one-hot label. Without hidden layers and without direct feedback this is
    the only target of the pass. *)
Theorem output_target_is_activation_minus_step (net : Network) (s : Supervision) :
  let out := activation (output_layer net) in
  let g := analytic_loss_gradient out s in
  ∃ t,
    last (compute_targets net s) = Some t ∧
    target (output_layer (propagate_targets net s)) = Some t ∧
    length t = (length out `min` length g)%nat ∧
    (∀ j a d, out !! j = Some a → g !! j = Some d →
       t !! j = Some (a - target_stepsize net * d)) ∧
    (∀ k, length (analytic_loss_gradient out (ClassLabel k)) = length out ∧
          ∀ j p, out !! j = Some p →
            analytic_loss_gradient out (ClassLabel k) !! j
              = Some (p - (if Nat.eqb j k then 1 else 0))) ∧
    (direct_fb net = false → num_hidden net = 0%nat →
       compute_targets net s = [t] ∧ hidden_layers (propagate_targets net s) = []).
Proof.
  intros out g. exists (output_target net s).
  split; [| split; [| split; [| split; [| split]]]].
  - unfold compute_targets. destruct (direct_fb net).
    + apply direct_targets_last.
    + apply chained_targets_last.
  - reflexivity.
  - unfold output_target. by rewrite vsub_length, vscale_length.
  - intros j a d Ha Hd. by apply output_target_lookup.
  - intros k. split.
    + simpl. rewrite vsub_length, one_hot_length. lia.
    + intros j p Hp. by apply class_gradient_lookup.
  - intros Hd Hn. unfold num_hidden in Hn. split.
    + unfold compute_targets. rewrite Hd.
      destruct (hidden_layers net); [reflexivity | discriminate].
    + simpl. destruct (hidden_layers net); [| discriminate]. by rewrite zip_with_nil_r.
Qed.

Lemma compute_target_diff_rec (l down : Layer) (dt : array) :
  let back := apply_feedback (feedback_mapping down) (activation down) in
  length (compute_target true l down dt)
    = ((length (activation l) `min` length (back dt))
         `min` length (back (activation down)))%nat ∧
  ∀ j a p q,
    activation l !! j = Some a → back dt !! j = Some p →
    back (activation down) !! j = Some q →
    compute_target true l down dt !! j = Some (a + p - q).
Proof.
  intros back. unfold compute_target, feedback. split.
  - by rewrite vsub_length, vadd_length.
  - intros j a p q Ha Hp Hq. apply vsub_lookup; [| exact Hq]. by apply vadd_lookup.
Qed.

(** C3. In a chained network every hidden layer [i] has a downstream layer
    [i+1] with a target [t], and its own target is derived from [t] through
    the feedback mapping of layer [i+1] alone: without difference
    reconstruction it is [feedback(t)], with it, entry by entry,
    [activation + feedback(t) - feedback(downstream activation)]. This is
    what [compute_target] returns for every layer, downstream layer and
    downstream target. *)
Theorem chained_target_from_downstream (net : Network) (s : Supervision) (i : nat) :
  direct_fb net = false →
  (i < num_hidden net)%nat →
  (∃ l down t ti,
     all_layers net !! i = Some l ∧
     all_layers net !! S i = Some down ∧
     compute_targets net s !! S i = Some t ∧
     compute_targets net s !! i = Some ti ∧
     ti = compute_target (diff_rec net) l down t) ∧
  ∀ (l down : Layer) (dt : array),
    let back := apply_feedback (feedback_mapping down) (activation down) in
    compute_target false l down dt = back dt ∧
    length (compute_target true l down dt)
      = ((length (activation l) `min` length (back dt))
           `min` length (back (activation down)))%nat ∧
    ∀ j a p q,
      activation l !! j = Some a → back dt !! j = Some p →
      back (activation down) !! j = Some q →
      compute_target true l down dt !! j = Some (a + p - q).
Proof.
  intros Hd Hi. split.
  - unfold compute_targets, all_layers. rewrite Hd.
    destruct (chained_targets_rule (diff_rec net) (hidden_layers net) (output_layer net)
                (output_target net s) i Hi) as (l & down & t & Hl & Hdown & Ht & Hrule).
    by exists l, down, t, (compute_target (diff_rec net) l down t).
  - intros l down dt back. split; [reflexivity|]. apply compute_target_diff_rec.
Qed.


(** *** Layer selection *)

Lemma random_single_outcomes (L : nat) (sel : list nat) :
  sel ∈ select_layers RANDOM_SINGLE L ↔ ∃ i, (i < L)%nat ∧ sel = [i].
Proof.
  unfold select_layers. rewrite list_elem_of_In, in_map_iff. split.
  - intros (i & <- & Hi). apply in_seq in Hi. exists i. split; [lia | done].
  - intros (i & Hi & ->). exists i. split; [done|]. apply in_seq. lia.
Qed.

Lemma random_single_lookup (L i : nat) :
  (i < L)%nat → select_layers RANDOM_SINGLE L !! i = Some [i].
Proof.
  intros Hi. unfold select_layers.
  apply (map_lookup (λ j : nat, [j]) (seq 0 L) i i). by apply lookup_seq_lt.
Qed.

(** Among the singletons of an interval, [[i]] is there once if [i] is in the
    interval, and not at all otherwise. *)
Lemma count_singleton (s n i : nat) :
  length (filter (λ sel, sel = [i]) (map (λ j, [j]) (seq s n)))
    = (if decide (s ≤ i < s + n)%nat then 1 else 0)%nat.
Proof.
  revert s. induction n as [|n IH]; intros s; simpl.
  - destruct (decide _); [lia | reflexivity].
  - rewrite filter_cons. destruct (decide ([s] = [i])) as [Heq | Hne].
    + injection Heq as ->. simpl. rewrite IH.
      destruct (decide (S i ≤ i < _)%nat); [lia|].
      destruct (decide (i ≤ i < _)%nat); [reflexivity | lia].
    + rewrite IH. assert (s ≠ i) by congruence.
      destruct (decide (S s ≤ i < _)%nat), (decide (s ≤ i < _)%nat); lia || reflexivity.
Qed.

Lemma random_single_uniform (L i : nat) :
  (i < L)%nat →
  probability (λ sel, sel = [i]) (select_layers RANDOM_SINGLE L) = 1 / INR L.
Proof.
  intros Hi. unfold probability, select_layers.
  rewrite count_singleton, length_map, length_seq.
  destruct (decide _); [reflexivity | lia].
Qed.

Lemma update_hidden_single f i (n : Network) :
  hidden_layers (update_hidden f [i] n) = alter (f i) i (hidden_layers n).
Proof. reflexivity. Qed.

Lemma update_hidden_selected f i (n : Network) (l : Layer) :
  hidden_layers n !! i = Some l →
  hidden_layers (update_hidden f [i] n) !! i = Some (f i l).
Proof. intros Hl. rewrite update_hidden_single, list_lookup_alter_eq. by rewrite Hl. Qed.

Lemma update_hidden_others f i j (n : Network) :
  j ≠ i → hidden_layers (update_hidden f [i] n) !! j = hidden_layers n !! j.
Proof. intros Hj. rewrite update_hidden_single. by apply list_lookup_alter_ne. Qed.

(** C5. Under RANDOM_SINGLE with [L > 0] hidden layers the selection has [L]
    equally likely outcomes, each a single hidden layer, and every hidden
    layer is the outcome with probability [1/L]; a step under the policy is
    the step on the layer drawn. When layer [i] is drawn, the
    feedback step gives layer [i] the feedback mapping that the optimizer
    computes for it and keeps its forward weights, the randomized forward step
    gives it the forward weights and bias that the optimizer computes and
    keeps its feedback mapping; every other hidden layer and the output layer
    are the same after the step. *)
Theorem random_single_trains_one_layer
    (feedback_step : Network → nat → array → Layer → FeedbackMapping)
    (forward_step : Network → nat → Layer → matrix * option array)
    (n : Network) (noise : nat → array) :
  (0 < num_hidden n)%nat →
  let outcomes := select_layers RANDOM_SINGLE (num_hidden n) in
  length outcomes = num_hidden n ∧
  (∀ sel, sel ∈ outcomes ↔ ∃ i, (i < num_hidden n)%nat ∧ sel = [i]) ∧
  (∀ i, (i < num_hidden n)%nat →
     probability (λ sel, sel = [i]) outcomes = 1 / INR (num_hidden n)) ∧
  ∀ i l, hidden_layers n !! i = Some l →
    let fb := train_feedback feedback_step [i] noise n in
    let fw := train_forward forward_step [i] n in
    outcomes !! i = Some [i] ∧
    feedback_outcomes feedback_step RANDOM_SINGLE noise n !! i = Some fb ∧
    forward_outcomes forward_step RANDOM_SINGLE n !! i = Some fw ∧
    (∃ l', hidden_layers fb !! i = Some l' ∧
           feedback_mapping l' = feedback_step n i (noise i) l ∧
           weights l' = weights l ∧ bias l' = bias l) ∧
    (∃ l', hidden_layers fw !! i = Some l' ∧
           (weights l', bias l') = forward_step n i l ∧
           feedback_mapping l' = feedback_mapping l) ∧
    (∀ j, j ≠ i → hidden_layers fb !! j = hidden_layers n !! j) ∧
    (∀ j, j ≠ i → hidden_layers fw !! j = hidden_layers n !! j) ∧
    output_layer fb = output_layer n ∧ output_layer fw = output_layer n.
Proof.
  intros HL outcomes. subst outcomes.
  split; [unfold select_layers; by rewrite length_map, length_seq|].
  split; [apply random_single_outcomes|].
  split; [intros i Hi; by apply random_single_uniform|].
  intros i l Hl fb fw. subst fb fw.
  assert (select_layers RANDOM_SINGLE (num_hidden n) !! i = Some [i]) as Hsel
    by (apply random_single_lookup; by eapply lookup_lt_Some).
  split; [exact Hsel|].
  split; [exact (map_lookup (λ sel, train_feedback feedback_step sel noise n) _ _ _ Hsel)|].
  split; [exact (map_lookup (λ sel, train_forward forward_step sel n) _ _ _ Hsel)|].
  unfold train_feedback, train_forward.
  split.
  { eexists. split; [by apply update_hidden_selected|]. by simpl. }
  split.
  { eexists. split; [by apply update_hidden_selected|]. simpl.
    split; [by destruct (forward_step n i l) | reflexivity]. }
  split; [intros j Hj; by apply update_hidden_others|].
  split; [intros j Hj; by apply update_hidden_others|].
  split; reflexivity.
Qed.

End CoreFacts.

(** * Properties of [launch] and [run] *)

Section LaunchFacts.
Import Py Main MainSpec Launch.
Variable L : Lib.
Variable W : World.

(** *** The event monad *)

Lemma mbind_inv {A B : Type} (m : M A) (f : A → M B) (tr : list event) (o : outcome B) :
  mbind m f = (tr, o) →
  (∃ e, m = (tr, Failed e) ∧ o = Failed e) ∨
  (∃ t1 a t2, m = (t1, Done a) ∧ f a = (t2, o) ∧ tr = (t1 ++ t2)%list).
Proof.
  destruct m as [t [a|e]]; simpl; intros [= <- <-].
  - right. exists t, a, (f a).1. by destruct (f a).
  - left. eauto.
Qed.

Lemma mbind_Done {A B : Type} (m : M A) (f : A → M B) (tr : list event) (b : B) :
  mbind m f = (tr, Done b) →
  ∃ t1 a t2, m = (t1, Done a) ∧ f a = (t2, Done b) ∧ tr = (t1 ++ t2)%list.
Proof.
  intros H. apply mbind_inv in H as [(e & _ & ?) | H]; [discriminate | exact H].
Qed.

Lemma mbind_assoc {A B C : Type} (m : M A) (f : A → M B) (g : B → M C) :
  mbind (mbind m f) g = mbind m (λ a, mbind (f a) g).
Proof.
  destruct m as [t [a|e]]; simpl; [| reflexivity].
  destruct (f a) as [t' [b|e]]; simpl; [| reflexivity].
  by rewrite app_assoc.
Qed.

Lemma lift_inv {A : Type} (r : result A) (tr : list event) (a : A) :
  lift r = (tr, Done a) → r = Ok a ∧ tr = [].
Proof. destruct r; simpl; intros [= <- <-]; done. Qed.

Lemma events_ret {A : Type} P (a : A) : events P (ret a).
Proof. constructor. Qed.

Lemma events_fail {A : Type} P e : events P (@fail A e).
Proof. constructor. Qed.

Lemma events_lift {A : Type} P (r : result A) : events P (lift r).
Proof. destruct r; constructor. Qed.

Lemma events_emit P e : P e → events P (emit W e).
Proof. intros H. unfold events, trace, emit. simpl. by repeat constructor. Qed.

Lemma events_mbind {A B : Type} P (m : M A) (f : A → M B) :
  events P m → (∀ a, events P (f a)) → events P (mbind m f).
Proof.
  unfold events, trace. destruct m as [t [a|e]]; simpl; intros Hm Hf; [| done].
  apply Forall_app. split; [done | apply Hf].
Qed.

Lemma events_flag P args name : events P (flag args name).
Proof. apply events_lift. Qed.

Lemma events_weaken {A : Type} (P Q : event → Prop) (m : M A) :
  (∀ e, P e → Q e) → events P m → events Q m.
Proof. intros H Hm. unfold events in *. by eapply Forall_impl. Qed.

(** Prove [events P m] for a computation [m] written with the operations of
    the monad: [P] is checked on each emitted event. *)
Ltac events_step :=
  first
    [ apply events_ret | apply events_fail | apply events_lift
    | apply events_flag
    | apply events_mbind; [| intros ?]
    | apply events_emit
    | match goal with
      | |- events _ (if ?c then _ else _) => destruct c
      | |- events _ (match ?d with _ => _ end) => destruct d
      end ].

Ltac events_auto := repeat events_step.


(** *** Phases *)

Lemma phased_of_events {A : Type} (p lo hi : nat) (m : M A) :
  (lo ≤ p ≤ hi)%nat → events (λ e, phase e = p) m → phased lo hi m.
Proof.
  intros Hp Hm. unfold phased, within, events in *. split.
  - eapply Forall_impl; [exact Hm|]. simpl. intros e ->. exact Hp.
  - induction Hm as [|e t He Ht IH]; constructor; [exact IH|].
    eapply Forall_impl; [exact Ht|]. simpl. intros e' ->. lia.
Qed.

Lemma phased_silent {A : Type} (lo hi : nat) (m : M A) :
  events (λ _, False) m → phased lo hi m.
Proof.
  intros Hm. unfold phased, within, events in *.
  destruct (trace m) as [|e t]; [split; constructor|].
  by apply Forall_cons in Hm as [[] _].
Qed.

Lemma phased_mbind {A B : Type} (lo mid hi : nat) (m : M A) (f : A → M B) :
  (lo ≤ mid ≤ hi)%nat →
  phased lo mid m → (∀ a, phased mid hi (f a)) → phased lo hi (mbind m f).
Proof.
  intros Hmid [Hm Sm] Hf. unfold phased, within, events, trace in *.
  destruct m as [t [a|e]]; simpl in *.
  - destruct (Hf a) as [Hfa Sfa]. split.
    + apply Forall_app. split.
      * eapply Forall_impl; [exact Hm|]. simpl. lia.
      * eapply Forall_impl; [exact Hfa|]. simpl. lia.
    + apply StronglySorted_app_2; [| done | done].
      intros x1 x2 H1 H2. rewrite Forall_forall in Hm, Hfa.
      specialize (Hm x1 H1). specialize (Hfa x2 H2). simpl in *. lia.
  - split; [| done]. eapply Forall_impl; [exact Hm|]. simpl. lia.
Qed.

Lemma events_seed_all P args :
  (∀ g s, P (ManualSeed g s)) → events P (seed_all L W args).
Proof. intros HP. unfold seed_all, int_random_seed. events_auto; apply HP. Qed.

Lemma events_simple_steps args :
  events (λ e, phase e = 1) (set_determinism W args) ∧
  events (λ e, phase e = 2) (select_device W args) ∧
  events (λ e, phase e = 3) (set_precision W args) ∧
  events (λ _, False) (set_log_interval W args) ∧
  events (λ _, False) (open_writer args).
Proof.
  unfold set_determinism, select_device, set_precision, set_log_interval, open_writer.
  repeat split; events_auto; reflexivity.
Qed.

Lemma events_image_loaders P args name tf sizes gen :
  events P tf →
  (∀ e, phase e = 4 → P e) →
  events P (image_loaders W args name tf sizes gen).
Proof.
  intros Htf HP. unfold image_loaders, data_dir, make_loader.
  events_auto; try exact Htf; by apply HP.
Qed.

Lemma events_create_dataloaders P args :
  (∀ e, phase e = 4 → P e) → events P (create_dataloaders L W args).
Proof.
  intros HP. unfold create_dataloaders, teacher_loaders, mnist_transform.
  events_auto; try (by apply HP);
    apply events_image_loaders; try done; events_auto.
Qed.

Lemma phased_prepare args : phased 0 4 (prepare L W args).
Proof.
  destruct (events_simple_steps args) as (H1 & H2 & H3 & H4 & H5).
  unfold prepare.
  apply (phased_mbind 0 0 4); [lia | |intros _].
  { apply (phased_of_events 0); [lia|]. by apply events_seed_all. }
  apply (phased_mbind 0 1 4); [lia | apply (phased_of_events 1); [lia | done] |intros _].
  apply (phased_mbind 1 2 4); [lia | apply (phased_of_events 2); [lia | done] |intros _].
  apply (phased_mbind 2 3 4); [lia | apply (phased_of_events 3); [lia | done] |intros _].
  apply (phased_mbind 3 4 4); [lia | |intros _].
  { apply (phased_of_events 4); [lia|]. by apply events_create_dataloaders. }
  apply (phased_mbind 4 4 4); [lia | |intros a].
  { apply phased_silent, events_simple_steps. }
  apply (phased_mbind 4 4 4); [lia | |intros _].
  { apply phased_silent, events_simple_steps. }
  apply phased_silent, events_ret.
Qed.

Lemma phased_emit (lo hi : nat) (e : event) :
  (lo ≤ phase e ≤ hi)%nat → phased lo hi (emit W e).
Proof.
  intros H. apply (phased_of_events (phase e)); [done|]. by apply events_emit.
Qed.

Lemma phased_train_network args : phased 5 7 (train_network W args).
Proof.
  unfold train_network.
  apply (phased_mbind 5 5 7); [lia | apply phased_emit; simpl; lia |intros _].
  apply (phased_mbind 5 6 7); [lia | apply phased_emit; simpl; lia |intros _].
  apply (phased_mbind 6 7 7); [lia | apply phased_silent, events_lift |intros nt].
  apply (phased_mbind 7 7 7); [lia | apply phased_silent, events_lift |intros bp].
  apply (phased_mbind 7 7 7); [lia | |intros _].
  { apply phased_emit. destruct bp; simpl; lia. }
  apply phased_silent, events_ret.
Qed.

Lemma phased_write_results args s : phased 10 11 (write_results W args s).
Proof.
  unfold write_results.
  apply (phased_mbind 10 10 11); [lia | apply phased_silent, events_flag |intros p].
  apply (phased_mbind 10 10 11); [lia | |intros _].
  { apply (phased_of_events 10); [lia|]. events_auto; reflexivity. }
  apply (phased_mbind 10 11 11); [lia | apply phased_silent, events_lift |intros d].
  apply (phased_of_events 11); [lia|]. events_auto; reflexivity.
Qed.

(** X10. [launch] does its work in a fixed order that no configuration and no
    failure can change: the four generators are seeded first, then cuDNN
    determinism, the default tensor type and the default precision are set,
    then data sets are opened, split and wrapped in loaders, then the summary
    is set up and the network built, then the network is trained, then the
    angle trajectories are read, then the summary is saved, then the loss is
    plotted, and last the results are pickled. *)
Theorem launch_phases_in_order (args : Namespace) :
  StronglySorted (λ a b, (phase a ≤ phase b)%nat) (trace (launch L W args)).
Proof.
  enough (phased 0 11 (launch L W args)) as [_ H] by exact H.
  unfold launch.
  apply (phased_mbind 0 4 11); [lia | apply phased_prepare |intros a].
  apply (phased_mbind 4 7 11); [lia | |intros s].
  { destruct (phased_train_network a) as [H1 H2]. split; [| done].
    eapply events_weaken; [| exact H1]. simpl. lia. }
  apply (phased_mbind 7 8 11); [lia | |intros s'].
  { apply (phased_of_events 8); [lia|]. unfold collect_angles.
    events_auto; reflexivity. }
  apply (phased_mbind 8 9 11); [lia | |intros s''].
  { apply (phased_of_events 9); [lia|]. unfold mark_finished.
    events_auto; reflexivity. }
  destruct (phased_write_results a s'') as [H1 H2]. split; [| done].
  eapply events_weaken; [| exact H1]. simpl. lia.
Qed.


(** *** Runs that return *)

Lemma emit_Done e t u : emit W e = (t, Done u) → t = [e] ∧ call W e = None.
Proof.
  unfold emit. intros [= <- H]. split; [done|]. by destruct (call W e).
Qed.

Lemma flag_Done args name t b :
  flag args name = (t, Done b) →
  t = [] ∧ ∃ v, args !! name = Some v ∧ truthy v = Ok b.
Proof.
  unfold flag. intros H. apply lift_inv in H as [H ->]. split; [done|].
  apply bind_Ok in H as (v & Hv & H). apply getattr_Ok in Hv. eauto.
Qed.

Lemma ret_Done {A : Type} (a b : A) t : ret a = (t, Done b) → t = [] ∧ a = b.
Proof. by intros [= <- <-]. Qed.

(** Break a run [H : m = (t, Done _)] that returned into the runs of its
    parts. *)
Ltac m_inv H :=
  match type of H with
  | mbind _ _ = (_, Done _) =>
      let t1 := fresh "t" in
      let a := fresh "a" in
      let t2 := fresh "t" in
      let E := fresh "E" in
      apply mbind_Done in H as (t1 & a & t2 & E & H & ->); m_inv E; m_inv H
  | (if ?c then _ else _) = (_, Done _) =>
      let C := fresh "C" in destruct c eqn:C; m_inv H
  | match ?x with _ => _ end = (_, Done _) =>
      let C := fresh "C" in destruct x eqn:C; m_inv H
  | ret _ = (_, Done _) => apply ret_Done in H as [-> H]
  | fail _ = (_, Done _) => discriminate H
  | lift _ = (_, Done _) =>
      apply lift_inv in H as [H ->]; try apply getattr_Ok in H
  | emit _ _ = (_, Done _) => apply emit_Done in H as [-> H]
  | flag _ _ = (_, Done _) =>
      let v := fresh "v" in
      let Hv := fresh "Hv" in
      apply flag_Done in H as [-> (v & Hv & H)]
  | _ => idtac
  end.

Lemma launch_Done args t s :
  launch L W args = (t, Done s) →
  ∃ tp a t1 s1 t2 s2 t3 s3 t4,
    prepare L W args = (tp, Done a) ∧
    train_network W a = (t1, Done s1) ∧
    collect_angles W a s1 = (t2, Done s2) ∧
    mark_finished W s2 = (t3, Done s3) ∧
    write_results W a s3 = (t4, Done s) ∧
    t = (tp ++ t1 ++ t2 ++ t3 ++ t4)%list.
Proof.
  unfold launch. intros H.
  apply mbind_Done in H as (tp & a & r1 & Hp & H & ->).
  apply mbind_Done in H as (t1 & s1 & r2 & H1 & H & ->).
  apply mbind_Done in H as (t2 & s2 & r3 & H2 & H & ->).
  apply mbind_Done in H as (t3 & s3 & t4 & H3 & H & ->).
  by exists tp, a, t1, s1, t2, s2, t3, s3, t4.
Qed.

Lemma set_log_interval_Done args t a :
  set_log_interval W args = (t, Done a) →
  t = [] ∧ ∀ k, k ≠ "log_interval" → a !! k = args !! k.
Proof.
  unfold set_log_interval. intros H. m_inv H; subst; split; try done.
  intros k Hk. unfold setattr. by rewrite lookup_insert_ne.
Qed.

Lemma prepare_Done args t a :
  prepare L W args = (t, Done a) →
  (∀ k, k ≠ "log_interval" → a !! k = args !! k) ∧
  (∃ v, args !! "save_logs" = Some v ∧ truthy v = Ok false) ∧
  ∃ t0 t1 hv,
    create_dataloaders L W args = (t1, Done hv) ∧
    t = (t0 ++ t1)%list ∧ Forall (λ e, (phase e < 4)%nat) t0.
Proof.
  intros H.
  destruct (events_simple_steps args) as (H1 & H2 & H3 & _).
  pose proof (events_seed_all (λ e, phase e = 0%nat) args ltac:(done)) as H0.
  unfold prepare in H.
  apply mbind_Done in H as (ts & ? & r0 & E0 & H & ->).
  apply mbind_Done in H as (td & ? & r1 & E1 & H & ->).
  apply mbind_Done in H as (tc & ? & r2 & E2 & H & ->).
  apply mbind_Done in H as (tq & ? & r3 & E3 & H & ->).
  apply mbind_Done in H as (tl & hv & r4 & E4 & H & ->).
  apply mbind_Done in H as (ti & a' & r5 & E5 & H & ->).
  apply mbind_Done in H as (tw & ? & r6 & E6 & H & ->).
  apply ret_Done in H as [-> <-].
  apply set_log_interval_Done in E5 as [-> Hk].
  unfold open_writer in E6. m_inv E6.
  rewrite Hk in Hv by done.
  split; [exact Hk|]. split; [eauto|].
  exists (ts ++ td ++ tc ++ tq)%list, tl, hv. split; [exact E4|]. split.
  { by rewrite !app_nil_r, <- !app_assoc. }
  unfold events, trace in H0, H1, H2, H3.
  rewrite E0 in H0. rewrite E1 in H1. rewrite E2 in H2. rewrite E3 in H3.
  simpl in *. rewrite !Forall_app. repeat split.
  all: eapply Forall_impl; [eassumption|]; simpl; intros e ->; lia.
Qed.


Lemma train_network_Done a t s :
  train_network W a = (t, Done s) →
  ∃ nt bp,
    a !! "network_type" = Some nt ∧ in_strs nt ["BP"; "BPConv"] = Ok bp ∧
    t = [SetupSummary; BuildNetwork; if bp then TrainBP else Train] ∧
    s = {| finished := finished_after_training W; training_time := None;
           angle_entries := false |}.
Proof.
  unfold train_network. intros H. m_inv H. eauto 10.
Qed.

Lemma collect_angles_Done a s t s' :
  collect_angles W a s = (t, Done s') →
  ∃ nt bp,
    a !! "network_type" = Some nt ∧ eq_str nt "BP" = Ok bp ∧
    t = (if bp then [] else [ReadAngles]) ∧
    s' = (if bp then s
          else {| finished := finished s; training_time := training_time s;
                  angle_entries := true |}).
Proof.
  unfold collect_angles. intros H. m_inv H.
  - destruct a1; [discriminate|]. subst. eauto 10.
  - destruct a1; [|discriminate]. subst. eauto 10.
Qed.

Lemma mark_finished_Done s t s' :
  mark_finished W s = (t, Done s') →
  ∃ z,
    eq_zero (finished s) = Ok z ∧
    t = (if z then [SaveSummary] else []) ∧
    s' = (if z then {| finished := VInt 1; training_time := Some (elapsed W);
                       angle_entries := angle_entries s |}
          else s).
Proof.
  unfold mark_finished. intros H. m_inv H; [exists true | exists false]; by subst.
Qed.

Lemma write_results_Done a s t s' :
  write_results W a s = (t, Done s') →
  ∃ p dir,
    a !! "out_dir" = Some (VStr dir) ∧
    t = ((if p : bool then [PlotLoss (VStr dir)] else []) ++
         [PickleDump (os_path_join dir "results.pickle")])%list ∧
    s' = s.
Proof.
  unfold write_results. intros H. m_inv H; subst.
  - match goal with
    | H1 : a !! "out_dir" = Some ?x, H2 : a !! "out_dir" = Some (VStr _) |- _ =>
        rewrite H2 in H1; injection H1 as <-
    end.
    by exists true, s0.
  - by exists false, s0.
Qed.

Lemma at_phase_app p t1 t2 :
  at_phase p (t1 ++ t2) = (at_phase p t1 ++ at_phase p t2)%list.
Proof. apply filter_app. Qed.

Lemma at_phase_nil p t : Forall (λ e, phase e ≠ p) t → at_phase p t = [].
Proof.
  induction 1 as [|e t He _ IH]; [reflexivity|].
  unfold at_phase in *. rewrite filter_cons. by destruct (decide (phase e = p)).
Qed.

Lemma prepare_phases args t a :
  prepare L W args = (t, Done a) → Forall (λ e, (phase e ≤ 4)%nat) t.
Proof.
  intros H. destruct (phased_prepare args) as [Hw _].
  unfold within, events, trace in Hw. rewrite H in Hw. simpl in Hw.
  eapply Forall_impl; [exact Hw|]. simpl. lia.
Qed.

(** What a returned [launch] did after the loaders were built. *)
Lemma launch_returned args t s :
  launch L W args = (t, Done s) →
  ∃ tp nt bp bp' z p dir,
    Forall (λ e, (phase e ≤ 4)%nat) tp ∧
    args !! "network_type" = Some nt ∧
    in_strs nt ["BP"; "BPConv"] = Ok bp ∧ eq_str nt "BP" = Ok bp' ∧
    eq_zero (finished_after_training W) = Ok z ∧
    args !! "out_dir" = Some (VStr dir) ∧
    t = (tp ++ [SetupSummary; BuildNetwork; if bp then TrainBP else Train] ++
         (if bp' then [] else [ReadAngles]) ++
         (if z then [SaveSummary] else []) ++
         (if p : bool then [PlotLoss (VStr dir)] else []) ++
         [PickleDump (os_path_join dir "results.pickle")])%list ∧
    s = {| finished := if z then VInt 1 else finished_after_training W;
           training_time := if z then Some (elapsed W) else None;
           angle_entries := negb bp' |}.
Proof.
  intros H.
  apply launch_Done in H
    as (tp & a & t1 & s1 & t2 & s2 & t3 & s3 & t4 & Hp & H1 & H2 & H3 & H4 & ->).
  pose proof (prepare_phases _ _ _ Hp) as Htp.
  apply prepare_Done in Hp as (Hk & _).
  apply train_network_Done in H1 as (nt & bp & Hnt & Hbp & -> & ->).
  apply collect_angles_Done in H2 as (nt' & bp' & Hnt' & Hbp' & -> & ->).
  rewrite Hnt in Hnt'. injection Hnt' as <-.
  apply mark_finished_Done in H3 as (z & Hz & -> & ->).
  apply write_results_Done in H4 as (p & dir & Hdir & -> & ->).
  rewrite Hk in Hnt, Hdir by done.
  exists tp, nt, bp, bp', z, p, dir.
  repeat (split; [first [done | by destruct bp'] |]).
  by destruct bp', z.
Qed.

Lemma launch_returned_str args t s n :
  launch L W args = (t, Done s) → args !! "network_type" = Some (VStr n) →
  at_phase 7 t = [if is_in n ["BP"; "BPConv"] then TrainBP else Train] ∧
  at_phase 8 t = (if n =? "BP" then [] else [ReadAngles]) ∧
  angle_entries s = negb (n =? "BP").
Proof.
  intros H Hn.
  apply launch_returned in H
    as (tp & nt & bp & bp' & z & p & dir & Htp & Hnt & Hbp & Hbp' & Hz & Hdir & -> & ->).
  rewrite Hn in Hnt. injection Hnt as <-.
  rewrite in_strs_str in Hbp. injection Hbp as <-.
  simpl in Hbp'. injection Hbp' as <-.
  rewrite !at_phase_app.
  rewrite !(at_phase_nil _ tp)
    by (eapply Forall_impl; [exact Htp|]; simpl; lia).
  unfold is_in. simpl.
  split; [| split; [| reflexivity]];
    destruct (n =? "BP"), (n =? "BPConv"), z, p; reflexivity.
Qed.

(** X11. Which training routine a returned [launch] called: exactly one, and
    it is [train_bp] for the network types ["BP"] and ["BPConv"] and [train]
    for every other type (["BPConvCIFAR"] included). The angle and distance
    trajectories are read from the network for every type but ["BP"], so also
    for the ["BPConv"] network that [train_bp] trained. *)
Theorem training_routine_by_network_type (args : Namespace) (nt : string) (s : Summary) :
  args !! "network_type" = Some (VStr nt) →
  result_of (launch L W args) = Done s →
  at_phase 7 (trace (launch L W args)) =
    [if is_in nt ["BP"; "BPConv"] then TrainBP else Train] ∧
  at_phase 8 (trace (launch L W args)) =
    (if nt =? "BP" then [] else [ReadAngles]).
Proof.
  intros Hnt Hs. destruct (launch L W args) as [t o] eqn:H.
  unfold result_of, trace in *. simpl in *. subst o.
  by destruct (launch_returned_str _ _ _ _ H Hnt) as (? & ? & _).
Qed.

(** X12. The summary a returned [launch] hands back. Its [finished] entry is
    never an unset [0]: a run that training left at [0] is marked [1], gets
    its [training_time] and is saved with [save_summary_dict]; a run that
    training marked otherwise is neither timed nor saved. The angle entries
    are there for every network type but ["BP"]. The very last thing done is
    pickling to [results.pickle] in [out_dir]. *)
Theorem returned_summary (args : Namespace) (nt dir : string) (z : bool) (s : Summary) :
  args !! "network_type" = Some (VStr nt) →
  args !! "out_dir" = Some (VStr dir) →
  eq_zero (finished_after_training W) = Ok z →
  result_of (launch L W args) = Done s →
  s = {| finished := if z then VInt 1 else finished_after_training W;
         training_time := if z then Some (elapsed W) else None;
         angle_entries := negb (nt =? "BP") |} ∧
  eq_zero (finished s) = Ok false ∧
  at_phase 9 (trace (launch L W args)) = (if z then [SaveSummary] else []) ∧
  last (trace (launch L W args)) =
    Some (PickleDump (os_path_join dir "results.pickle")).
Proof.
  intros Hn Hd Hz' Hs. destruct (launch L W args) as [t o] eqn:H.
  unfold result_of, trace in *. simpl in *. subst o.
  apply launch_returned in H
    as (tp & nt' & bp & bp' & z' & p & dir' & Htp & Hnt & Hbp & Hbp' & Hz & Hdir & -> & ->).
  rewrite Hn in Hnt. injection Hnt as <-.
  rewrite Hd in Hdir. injection Hdir as <-.
  rewrite Hz' in Hz. injection Hz as <-.
  simpl in Hbp'. injection Hbp' as <-.
  split; [reflexivity|]. split; [by destruct z|]. split.
  - rewrite !at_phase_app.
    rewrite !(at_phase_nil _ tp)
      by (eapply Forall_impl; [exact Htp|]; simpl; lia).
    by destruct bp, (nt =? "BP"), z, p.
  - rewrite !app_assoc. apply last_snoc.
Qed.


(** *** The loaders *)

(** The steps of [prepare] that follow the seeding. *)
Ltac after_seeding HP Hl :=
  let simple_step H :=
    (eapply events_weaken; [| exact H]; simpl; intros ? ?; apply HP; lia) in
  match goal with
  | |- events _ (mbind (set_determinism _ ?args) _) =>
      destruct (events_simple_steps args) as (H1 & H2 & H3 & H4 & H5);
      apply events_mbind; [simple_step H1 | intros _];
      apply events_mbind; [simple_step H2 | intros _];
      apply events_mbind; [simple_step H3 | intros _];
      apply events_mbind; [exact Hl | intros _];
      apply events_mbind;
        [eapply events_weaken; [| apply events_simple_steps]; by simpl | intros ?];
      apply events_mbind;
        [eapply events_weaken; [| apply events_simple_steps]; by simpl | intros _];
      apply events_ret
  end.

Lemma events_prepare P args :
  (∀ e, (phase e < 4)%nat → P e) →
  events P (create_dataloaders L W args) →
  events P (prepare L W args).
Proof.
  intros HP Hl. unfold prepare.
  apply events_mbind; [| intros _].
  { apply events_seed_all. intros. by apply HP; simpl; lia. }
  after_seeding HP Hl.
Qed.

Lemma events_after_prepare P a :
  (∀ e, (4 < phase e)%nat → P e) →
  events P (s <~ train_network W a; s <~ collect_angles W a s;
            s <~ mark_finished W s; write_results W a s).
Proof.
  intros HP.
  apply events_mbind; [| intros s].
  { destruct (phased_train_network a) as [H _].
    eapply events_weaken; [| exact H]. simpl. intros e He. apply HP. lia. }
  apply events_mbind; [| intros s'].
  { unfold collect_angles. events_auto. by apply HP; simpl; lia. }
  apply events_mbind; [| intros s''].
  { unfold mark_finished. events_auto. by apply HP; simpl; lia. }
  destruct (phased_write_results a s'') as [H _].
  eapply events_weaken; [| exact H]. simpl. intros e He. apply HP. lia.
Qed.

Lemma events_launch P args :
  (∀ e, phase e ≠ 4%nat → P e) →
  (∀ a, events P (create_dataloaders L W a)) →
  events P (launch L W args).
Proof.
  intros HP Hl. unfold launch. apply events_mbind; [| intros a].
  - apply events_prepare; [| apply Hl]. intros e He. apply HP. lia.
  - apply events_after_prepare. intros e He. apply HP. lia.
Qed.

(** X13. Whatever the configuration, and also when [launch] fails on the way:
    only a training loader shuffles, the test loader and no other reads the
    test set, a split always holds out 5000 samples (45000/5000 with a CUDA
    generator, 55000/5000 without), and a generator is only ever passed to
    the loaders of a split. *)
Theorem loaders_well_formed (args : Namespace) :
  events loader_ok (launch L W args).
Proof.
  apply events_launch.
  - by intros [].
  - intros a. unfold create_dataloaders, teacher_loaders, mnist_transform.
    events_auto; simpl; try done.
    all: repeat split; try done; auto.
Qed.


Lemma create_dataloaders_Done args t hv d v b bs :
  create_dataloaders L W args = (t, Done hv) →
  args !! "dataset" = Some (VStr d) →
  args !! "no_val_set" = Some v → truthy v = Ok b →
  args !! "batch_size" = Some bs →
  is_in d ["mnist"; "fashion_mnist"; "cifar10"] = true ∧
  hv = negb b ∧
  loaders t =
    ((if b then [(TrainRole, TrainTotal, bs, true, false)]
      else [(TrainRole, SplitPart 0, bs, true, d =? "cifar10");
            (ValRole, SplitPart 1, bs, false, d =? "cifar10")]) ++
     [(TestRole, TestSet, bs, false, false)])%list.
Proof.
  intros H Hd Hv Hb Hbs.
  unfold create_dataloaders, image_loaders, data_dir, make_loader,
    mnist_transform, teacher_loaders in H.
  m_inv H.
  all: repeat match goal with
       | H1 : ?o !! ?k = Some _, H2 : ?o !! ?k = Some _ |- _ =>
           rewrite H1 in H2; injection H2 as ?; subst
       | H1 : truthy ?x = Ok _, H2 : truthy ?x = Ok _ |- _ =>
           rewrite H1 in H2; injection H2 as ?; subst
       | H : eq_str (VStr _) _ = Ok _ |- _ => simpl in H; injection H as H
       end.
  all: repeat match goal with
       | H : (_ =? _) = true |- _ => apply String.eqb_eq in H; subst
       end.
  all: done.
Qed.


Lemma loaders_nil t : Forall (λ e, phase e ≠ 4%nat) t → loaders t = [].
Proof.
  induction 1 as [|e t He _ IH]; [reflexivity|].
  destruct e; simpl in He; try done; exact IH.
Qed.

(** X14. The loaders of a run that returned. Only ["mnist"],
    ["fashion_mnist"] and ["cifar10"] get that far. With [no_val_set] there
    are two loaders, a shuffled one over the whole training set and the test
    loader; without it three: a shuffled training loader and an unshuffled
    validation loader over the two parts of the split, then the test loader.
    All take [batch_size] as it is, and only for ["cifar10"] do the loaders of
    the split get a generator. *)
Theorem loaders_created (args : Namespace) (d : string) (v : value) (b : bool)
    (bs : value) (s : Summary) :
  args !! "dataset" = Some (VStr d) →
  args !! "no_val_set" = Some v → truthy v = Ok b →
  args !! "batch_size" = Some bs →
  result_of (launch L W args) = Done s →
  is_in d ["mnist"; "fashion_mnist"; "cifar10"] = true ∧
  loaders (trace (launch L W args)) =
    ((if b then [(TrainRole, TrainTotal, bs, true, false)]
      else [(TrainRole, SplitPart 0, bs, true, d =? "cifar10");
            (ValRole, SplitPart 1, bs, false, d =? "cifar10")]) ++
     [(TestRole, TestSet, bs, false, false)])%list.
Proof.
  intros Hd Hv Hb Hbs Hs. destruct (launch L W args) as [t o] eqn:H.
  unfold result_of, trace in *. simpl in *. subst o.
  apply launch_Done in H
    as (tp & a & t1 & s1 & t2 & s2 & t3 & s3 & t4 & Hp & H1 & H2 & H3 & H4 & ->).
  apply prepare_Done in Hp as (_ & _ & t0 & tl & hv & Hl & -> & Ht0).
  destruct (create_dataloaders_Done _ _ _ _ _ _ _ Hl Hd Hv Hb Hbs) as (Hin & _ & Hlo).
  split; [exact Hin|].
  apply train_network_Done in H1 as (? & bp & _ & _ & -> & _).
  apply collect_angles_Done in H2 as (? & bp' & _ & _ & -> & _).
  apply mark_finished_Done in H3 as (z & _ & -> & _).
  apply write_results_Done in H4 as (p & dir & _ & -> & _).
  unfold loaders in *. rewrite !omap_app, Hlo.
  fold (loaders t0). rewrite (loaders_nil t0)
    by (eapply Forall_impl; [exact Ht0|]; simpl; lia).
  destruct bp, bp', z, p; simpl; by rewrite app_nil_r.
Qed.


(** *** Seeding *)

(** X15. When [int(args.random_seed)] is [s] and the four seeding calls go
    through, [launch] starts by seeding torch, torch.cuda, numpy and [random],
    in this order and all with [s], and never seeds anything again. *)
Theorem generators_seeded_first (args : Namespace) (v s : value) :
  args !! "random_seed" = Some v → py_int L v = Ok s →
  (∀ g, call W (ManualSeed g s) = None) →
  ∃ rest,
    trace (launch L W args) = (seed_events s ++ rest)%list ∧
    Forall (λ e, phase e ≠ 0%nat) rest.
Proof.
  intros Hv Hs Hcall.
  assert (seed_all L W args = (seed_events s, Done tt)) as Hseed.
  { unfold seed_all, int_random_seed. rewrite (getattr_lookup _ _ _ Hv).
    simpl. rewrite Hs. simpl. unfold emit. rewrite !Hcall. reflexivity. }
  unfold launch, prepare. rewrite mbind_assoc, Hseed.
  unfold trace. simpl. eexists. split; [reflexivity|].
  match goal with |- Forall ?P (?m).1 => change (events P m) end.
  assert (∀ e, (0 < phase e)%nat → phase e ≠ 0%nat) as HP by (intros; lia).
  apply events_mbind; [| intros a; apply events_after_prepare; intros; lia].
  after_seeding HP (events_create_dataloaders (λ e, phase e ≠ 0%nat) args
                      ltac:(intros e He; simpl; lia)).
Qed.


(** *** Configurations that cannot run *)

Lemma launch_Failed args t e :
  prepare L W args = (t, Failed e) → launch L W args = (t, Failed e).
Proof. intros H. unfold launch. by rewrite H. Qed.

Lemma teacher_loaders_spec args :
  ∃ t e,
    teacher_loaders W args = (t, Failed e) ∧
    (t = [] ∨
     t = [GenerateTeacherData] ∧
     e = match call W GenerateTeacherData with
         | Some err => err
         | None => UnboundLocalError "DataLoader"
         end).
Proof.
  unfold teacher_loaders, emit.
  destruct (getattr args "size_input"); simpl; [| eauto].
  destruct (getattr args "size_output"); simpl; [| eauto].
  destruct (getattr args "num_train"); simpl; [| eauto].
  destruct (getattr args "num_test"); simpl; [| eauto].
  destruct (getattr args "num_val"); simpl; [| eauto].
  destruct (call W GenerateTeacherData); simpl; eauto 10.
Qed.

Lemma create_dataloaders_teacher args :
  args !! "dataset" = Some (VStr "student_teacher") →
  create_dataloaders L W args = teacher_loaders W args.
Proof.
  intros Hd. unfold create_dataloaders. rewrite (getattr_lookup _ _ _ Hd).
  simpl. by destruct (teacher_loaders W args) as [t [x|e]].
Qed.

(** [prepare] when the loaders cannot be created: it stops there, unless an
    earlier step has failed. *)
Lemma prepare_failed_loaders args tl e :
  create_dataloaders L W args = (tl, Failed e) →
  ∃ t0 e',
    Forall (λ x, (phase x < 4)%nat) t0 ∧
    (prepare L W args = ((t0 ++ tl)%list, Failed e) ∨
     prepare L W args = (t0, Failed e')).
Proof.
  intros Hl.
  destruct (events_simple_steps args) as (H1 & H2 & H3 & _).
  pose proof (events_seed_all (λ e, phase e = 0%nat) args ltac:(done)) as H0.
  assert (∀ p (t : list event), (p < 4)%nat → Forall (λ e, phase e = p) t →
            Forall (λ x, (phase x < 4)%nat) t) as Hlt.
  { intros p t Hp Ht. eapply Forall_impl; [exact Ht|]. simpl. intros x ->. exact Hp. }
  unfold prepare, events, trace in *.
  destruct (seed_all L W args) as [ts [[]|e0]]; simpl in *;
    [| exists ts, e0; split; [by apply (Hlt 0%nat); [lia|] | by right]].
  destruct (set_determinism W args) as [td [[]|e1]]; simpl in *;
    [| exists (ts ++ td)%list, e1; split;
       [rewrite Forall_app; split; [by apply (Hlt 0%nat); [lia|] | by apply (Hlt 1%nat); [lia|]]
       | by right]].
  destruct (select_device W args) as [tc [[]|e2]]; simpl in *;
    [| exists (ts ++ td ++ tc)%list, e2; split;
       [rewrite !Forall_app; repeat split;
          [by apply (Hlt 0%nat); [lia|] | by apply (Hlt 1%nat); [lia|]
          | by apply (Hlt 2%nat); [lia|]]
       | by right]].
  destruct (set_precision W args) as [tq [[]|e3]]; simpl in *;
    [| exists (ts ++ td ++ tc ++ tq)%list, e3; split;
       [rewrite !Forall_app; repeat split;
          [by apply (Hlt 0%nat); [lia|] | by apply (Hlt 1%nat); [lia|]
          | by apply (Hlt 2%nat); [lia|] | by apply (Hlt 3%nat); [lia|]]
       | by right]].
  rewrite Hl. simpl.
  exists (ts ++ td ++ tc ++ tq)%list, e. split.
  - rewrite !Forall_app; repeat split;
      [by apply (Hlt 0%nat); [lia|] | by apply (Hlt 1%nat); [lia|]
      | by apply (Hlt 2%nat); [lia|] | by apply (Hlt 3%nat); [lia|]].
  - left. by rewrite <- !app_assoc.
Qed.

(** X16. A configuration with [dataset = "student_teacher"] never gets to
    train: [launch] fails before any loader exists and before the network is
    built. If the teacher data was generated, what then fails is the read of
    the local name [DataLoader], which only the CIFAR-10 branch binds. *)
Theorem student_teacher_never_trains (args : Namespace) :
  args !! "dataset" = Some (VStr "student_teacher") →
  (∃ err, result_of (launch L W args) = Failed err) ∧
  events (λ e, (phase e ≤ 4)%nat ∧ loader_of e = None) (launch L W args) ∧
  (GenerateTeacherData ∈ trace (launch L W args) →
   call W GenerateTeacherData = None →
   result_of (launch L W args) = Failed (UnboundLocalError "DataLoader")).
Proof.
  intros Hd.
  destruct (teacher_loaders_spec args) as (tl & e & Htl & Hcase).
  rewrite <- (create_dataloaders_teacher _ Hd) in Htl.
  destruct (prepare_failed_loaders _ _ _ Htl) as (t0 & e' & Ht0 & Hp).
  assert (Forall (λ e, (phase e ≤ 4)%nat ∧ loader_of e = None) t0) as Ht0'.
  { eapply Forall_impl; [exact Ht0|]. simpl. intros x Hx.
    split; [lia|]. destruct x; simpl in *; (reflexivity || lia). }
  assert (GenerateTeacherData ∉ t0) as Hnot.
  { intros Hin. rewrite Forall_forall in Ht0. apply Ht0 in Hin. simpl in Hin. lia. }
  destruct Hp as [Hp | Hp]; apply launch_Failed in Hp;
    unfold events, result_of, trace; rewrite Hp; simpl.
  - split; [eauto|]. split.
    + apply Forall_app. split; [exact Ht0'|].
      destruct Hcase as [-> | [-> _]]; repeat constructor.
    + intros Hin Hcall. apply elem_of_app in Hin as [Hin | Hin]; [done|].
      destruct Hcase as [-> | [_ ->]]; [by apply elem_of_nil in Hin|].
      by rewrite Hcall.
  - split; [eauto|]. split; [exact Ht0' | done].
Qed.

(** Two namespaces that differ at most in [save_logs]. *)
Lemma getattr_agree (a b : Namespace) (k : string) :
  (∀ k, k ≠ "save_logs" → a !! k = b !! k) → k ≠ "save_logs" →
  getattr a k = getattr b k.
Proof. intros H Hk. unfold getattr. by rewrite (H k Hk). Qed.

Lemma steps_agree (a b : Namespace) :
  (∀ k, k ≠ "save_logs" → a !! k = b !! k) →
  seed_all L W a = seed_all L W b ∧
  set_determinism W a = set_determinism W b ∧
  select_device W a = select_device W b ∧
  set_precision W a = set_precision W b ∧
  create_dataloaders L W a = create_dataloaders L W b.
Proof.
  intros H.
  unfold seed_all, int_random_seed, set_determinism, select_device, set_precision,
    create_dataloaders, image_loaders, data_dir, make_loader, mnist_transform,
    teacher_loaders, flag.
  rewrite !(getattr_agree a b _ H) by done. done.
Qed.


Lemma prepare_with_save_logs (a b : Namespace) (v : value) tp a' :
  (∀ k, k ≠ "save_logs" → a !! k = b !! k) →
  b !! "save_logs" = Some v → truthy v = Ok true →
  prepare L W a = (tp, Done a') →
  prepare L W b = (tp, Failed (NameError "out_dir")).
Proof.
  intros Hab Hv Ht H.
  destruct (steps_agree a b Hab) as (S0 & S1 & S2 & S3 & S4).
  unfold prepare in *. rewrite S0, S1, S2, S3, S4 in H.
  apply mbind_Done in H as (ts & ? & r0 & E0 & H & ->).
  apply mbind_Done in H as (td & ? & r1 & E1 & H & ->).
  apply mbind_Done in H as (tc & ? & r2 & E2 & H & ->).
  apply mbind_Done in H as (tq & ? & r3 & E3 & H & ->).
  apply mbind_Done in H as (tl & hv & r4 & E4 & H & ->).
  apply mbind_Done in H as (ti & a1 & r5 & E5 & H & ->).
  apply mbind_Done in H as (tw & ? & r6 & E6 & H & ->).
  apply ret_Done in H as [-> _].
  unfold open_writer in E6. m_inv E6.
  unfold set_log_interval in E5.
  apply mbind_Done in E5 as (? & li & ? & Hli & E5 & ->).
  apply lift_inv in Hli as [Hli ->].
  rewrite (getattr_agree a b _ Hab) in Hli by done.
  rewrite E0, E1, E2, E3, E4. simpl.
  unfold set_log_interval, open_writer, flag. rewrite Hli. simpl.
  assert (∀ n, getattr (setattr "log_interval" n b) "save_logs" = Ok v) as Hset.
  { intros n. apply getattr_lookup. unfold setattr. by rewrite lookup_insert_ne. }
  destruct (is_None li); simpl in E5; apply ret_Done in E5 as [-> _]; simpl.
  - rewrite Hset. simpl. rewrite Ht. simpl. by rewrite !app_nil_r.
  - rewrite (getattr_lookup _ _ _ Hv). simpl. rewrite Ht. simpl.
    by rewrite !app_nil_r.
Qed.

(** X17. With [save_logs] set, [launch] never returns and never gets to
    building the network: the writer is to be opened on [out_dir], a name
    that [launch] does not have. Any configuration that runs to the end with
    [save_logs] off does the same things up to and including the loaders with
    [save_logs] on, and then fails with this [NameError]. *)
Theorem save_logs_never_runs (args : Namespace) (v : value) :
  args !! "save_logs" = Some v → truthy v = Ok true →
  (∃ err, result_of (launch L W args) = Failed err) ∧
  within 0 4 (launch L W args) ∧
  (∀ t s,
     launch L W (<["save_logs" := VBool false]> args) = (t, Done s) →
     ∃ t', launch L W args = (t', Failed (NameError "out_dir")) ∧
           t' `prefix_of` t ∧ at_phase 4 t' = at_phase 4 t).
Proof.
  intros Hv Ht.
  assert (∃ tp err, prepare L W args = (tp, Failed err)) as (tp & err & Hp).
  { destruct (prepare L W args) as [tp [a|err]] eqn:Hp; [| eauto].
    apply prepare_Done in Hp as (_ & (v' & Hv' & Ht') & _).
    rewrite Hv in Hv'. injection Hv' as <-. rewrite Ht in Ht'. discriminate. }
  split; [| split].
  - exists err. unfold result_of. by rewrite (launch_Failed _ _ _ Hp).
  - destruct (phased_prepare args) as [Hw _].
    unfold within, events, trace in *.
    rewrite Hp in Hw. by rewrite (launch_Failed _ _ _ Hp).
  - intros t s H. clear tp err Hp.
    apply launch_Done in H
      as (tp & a & t1 & s1 & t2 & s2 & t3 & s3 & t4 & Hp & H1 & H2 & H3 & H4 & ->).
    assert (prepare L W args = (tp, Failed (NameError "out_dir"))) as Hb.
    { eapply prepare_with_save_logs; [| exact Hv | exact Ht | exact Hp].
      intros k Hk. by rewrite lookup_insert_ne. }
    exists tp. split; [by apply launch_Failed|]. split; [by eexists|].
    apply train_network_Done in H1 as (? & bp & _ & _ & -> & _).
    apply collect_angles_Done in H2 as (? & bp' & _ & _ & -> & _).
    apply mark_finished_Done in H3 as (z & _ & -> & _).
    apply write_results_Done in H4 as (p & dir & _ & -> & _).
    rewrite !at_phase_app.
    destruct bp, bp', z, p; simpl; by rewrite app_nil_r.
Qed.


(** *** [run]: post-processing, then [launch] *)

Lemma resolve_alias_backprop s :
  is_in (resolve_alias s) ["BP"; "BPConv"] = is_in s ["BP"; "BPConv"].
Proof.
  unfold resolve_alias.
  destruct (s =? "DFA") eqn:H1; [apply String.eqb_eq in H1 as ->; reflexivity|].
  destruct (s =? "DFAConv") eqn:H2; [apply String.eqb_eq in H2 as ->; reflexivity|].
  destruct (s =? "DFAConvCIFAR") eqn:H3; [apply String.eqb_eq in H3 as ->|]; reflexivity.
Qed.

(** X18. [run] from the parsed command line on. A run that returns was
    trained by [train_bp] exactly when the parsed [network_type] is ["BP"] or
    ["BPConv"]; the aliases resolved by post-processing (["DFA"] and its
    convolutional variants) are trained by [train] like their targets. The
    angle entries of the summary are there unless the type is ["BP"], and a
    run with [shallow_training] set returns only for ["BP"]. *)
Theorem run_trains_by_parsed_network_type (parsed : Namespace) (nt : string)
    (s : Summary) :
  parsed !! "network_type" = Some (VStr nt) →
  result_of (run L W parsed) = Done s →
  at_phase 7 (trace (run L W parsed)) =
    [if is_in nt ["BP"; "BPConv"] then TrainBP else Train] ∧
  angle_entries s = negb (nt =? "BP") ∧
  (∀ v, parsed !! "shallow_training" = Some v → truthy v = Ok true → nt = "BP").
Proof.
  intros Hnt Hs. unfold run, result_of, trace in *.
  destruct (postprocess_args L parsed) as [a|e] eqn:Hpost; simpl in *;
    [| discriminate].
  destruct (launch L W a) as [t o] eqn:Hl. simpl in *. subst o.
  unfold postprocess_args in Hpost. apply bind_Ok in Hpost as (a0 & Hbody & Hchk).
  pose proof (check_shallow_training_Ok _ _ Hchk) as Ha. subst a.
  pose proof (postprocess_args_body_network_type L _ _ _ Hbody Hnt) as [Hnt' _].
  simpl in Hnt'.
  destruct (launch_returned_str _ _ _ _ Hl Hnt') as (H7 & _ & Ha).
  rewrite resolve_alias_backprop in H7. rewrite resolve_alias_BP in Ha.
  split; [exact H7|]. split; [exact Ha|].
  intros v Hv Htv.
  assert ("shallow_training" ∉ assigned_attributes) as Hk.
  { unfold assigned_attributes.
    repeat (apply not_elem_of_cons; split; [done|]). apply not_elem_of_nil. }
  pose proof (preserves_postprocess_args_body L _ Hk _ _ Hbody) as Hst.
  rewrite Hv in Hst.
  unfold check_shallow_training in Hchk.
  rewrite (getattr_lookup _ _ _ Hst), (getattr_lookup _ _ _ Hnt') in Hchk.
  simpl in Hchk. rewrite Htv in Hchk. simpl in Hchk.
  rewrite resolve_alias_BP in Hchk.
  destruct (nt =? "BP") eqn:Hbp; [by apply String.eqb_eq in Hbp | discriminate].
Qed.


(** *** The default logging interval *)

Lemma create_dataloaders_dataset args t hv :
  create_dataloaders L W args = (t, Done hv) →
  ∃ d, args !! "dataset" = Some (VStr d) ∧ d ∈ ["mnist"; "fashion_mnist"; "cifar10"].
Proof.
  intros H. unfold create_dataloaders in H.
  apply mbind_Done in H as (? & dv & ? & Hd & H & _).
  apply lift_inv in Hd as [Hd _]. apply getattr_Ok in Hd.
  apply mbind_Done in H as (? & c1 & ? & H1 & H & _). apply lift_inv in H1 as [H1 _].
  destruct c1.
  { apply eq_str_true in H1 as ->. exists "mnist". split; [done|]. repeat constructor. }
  apply mbind_Done in H as (? & c2 & ? & H2 & H & _). apply lift_inv in H2 as [H2 _].
  destruct c2.
  { apply eq_str_true in H2 as ->. exists "fashion_mnist".
    split; [done|]. repeat constructor. }
  apply mbind_Done in H as (? & c3 & ? & H3 & H & _). apply lift_inv in H3 as [H3 _].
  destruct c3.
  { apply eq_str_true in H3 as ->. exists "cifar10". split; [done|]. repeat constructor. }
  apply mbind_Done in H as (? & c4 & ? & H4 & H & _).
  destruct c4; [| discriminate].
  destruct (teacher_loaders_spec args) as (? & ? & Ht & _). rewrite Ht in H. discriminate.
Qed.

(** C9. When no [log_interval] is configured, a [launch] that gets past the
    data loading has set it to [max(1, floor(len(train_loader) / 100))] and
    changed nothing else; this happens for the data sets mnist, fashion_mnist
    and cifar10, the only ones whose loaders are ever built. Then an epoch of
    at least 100 batches is logged between 100 and 199 times, and a shorter
    one at every batch. *)
Theorem default_log_interval (args a : Namespace) (t : list event) :
  (0 ≤ len_train_loader W)%Z →
  args !! "log_interval" = Some VNone →
  prepare L W args = (t, Done a) →
  let interval := Z.max 1 (len_train_loader W `div` 100) in
  a = <["log_interval" := VInt interval]> args ∧
  (∃ d, args !! "dataset" = Some (VStr d) ∧
        d ∈ ["mnist"; "fashion_mnist"; "cifar10"]) ∧
  (100 ≤ len_train_loader W →
     100 ≤ len_train_loader W `div` interval ≤ 199)%Z ∧
  (len_train_loader W < 100 → interval = 1)%Z.
Proof.
  intros Hn Hli H interval. split; [| split; [| split]].
  - unfold prepare in H.
    apply mbind_Done in H as (? & ? & ? & _ & H & _).
    apply mbind_Done in H as (? & ? & ? & _ & H & _).
    apply mbind_Done in H as (? & ? & ? & _ & H & _).
    apply mbind_Done in H as (? & ? & ? & _ & H & _).
    apply mbind_Done in H as (? & ? & ? & _ & H & _).
    apply mbind_Done in H as (? & a' & ? & E5 & H & _).
    apply mbind_Done in H as (? & ? & ? & _ & H & _).
    apply ret_Done in H as [_ <-].
    unfold set_log_interval in E5. rewrite (getattr_lookup _ _ _ Hli) in E5.
    simpl in E5. apply ret_Done in E5 as [_ <-].
    unfold setattr, interval. by rewrite int_div_100_floor.
  - apply prepare_Done in H as (_ & _ & ? & ? & ? & Hl & _).
    by eapply create_dataloaders_dataset.
  - intros H100. subst interval.
    assert (1 ≤ len_train_loader W `div` 100)%Z
      by (apply Z.div_le_lower_bound; lia).
    rewrite Z.max_r by lia.
    pose proof (Z.div_mod (len_train_loader W) 100 ltac:(lia)) as Hdm.
    pose proof (Z.mod_pos_bound (len_train_loader W) 100 ltac:(lia)) as Hm.
    set (q := (len_train_loader W `div` 100)%Z) in *.
    split.
    + apply Z.div_le_lower_bound; lia.
    + apply Z.lt_succ_r. apply Z.div_lt_upper_bound; nia.
  - intros Hlt. subst interval. rewrite Z.div_small by lia. reflexivity.
Qed.

End LaunchFacts.

(** * Worked instances *)

Section Instances.
Import Py Main Example.

Lemma returned_Ok (r : result Namespace) : returns r = true → r = Ok (returned r).
Proof. destruct r; [reflexivity | discriminate]. Qed.

Lemma DFA_becomes_frozen_linear_DMLPDTP2_witness :
  dfa_args !! "network_type" = Some (VStr "DFA") ∧
  postprocess_args table_lib dfa_args = Ok dfa_args_post ∧
  dfa_args_post !! "network_type" = Some (VStr "DMLPDTP2") ∧
  dfa_args_post !! "fb_activation" = Some (VStr "linear") ∧
  dfa_args_post !! "size_mlp_fb" = Some VNone ∧
  dfa_args_post !! "freeze_fb_weights" = Some (VBool true) ∧
  dfa_args_post !! "train_randomized" = Some (VBool false).
Proof.
  assert (dfa_args !! "network_type" = Some (VStr "DFA")) as H1
    by (vm_compute; reflexivity).
  assert (postprocess_args table_lib dfa_args = Ok dfa_args_post) as H2
    by (apply returned_Ok; vm_compute; reflexivity).
  split; [exact H1|]. split; [exact H2|].
  exact (DFA_becomes_frozen_linear_DMLPDTP2 table_lib dfa_args dfa_args_post
           H1 (or_introl H2)).
Defined.

Lemma shallow_training_only_with_BP_witness :
  shallow_dtp_args !! "shallow_training" = Some (VBool true) ∧
  shallow_dtp_args !! "network_type" = Some (VStr "DTP") ∧
  postprocess_args table_lib shallow_dtp_args
    = Raise (ValueError shallow_training_msg) ∧
  postprocess_args table_lib shallow_bp_args = Ok shallow_bp_body.
Proof.
  assert (shallow_dtp_args !! "shallow_training" = Some (VBool true)) as H1
    by (vm_compute; reflexivity).
  assert (shallow_dtp_args !! "network_type" = Some (VStr "DTP")) as H2
    by (vm_compute; reflexivity).
  split; [exact H1|]. split; [exact H2|]. split.
  - destruct (shallow_training_only_with_BP table_lib shallow_dtp_args (VStr "DTP") H1 H2)
      as [Hne _].
    destruct (Hne ltac:(discriminate)) as (_ & _ & Hraise & _).
    apply (Hraise shallow_dtp_body). apply returned_Ok. vm_compute. reflexivity.
  - assert (shallow_bp_args !! "shallow_training" = Some (VBool true)) as B1
      by (vm_compute; reflexivity).
    assert (shallow_bp_args !! "network_type" = Some (VStr "BP")) as B2
      by (vm_compute; reflexivity).
    destruct (shallow_training_only_with_BP table_lib shallow_bp_args (VStr "BP") B1 B2)
      as [_ Heq].
    apply (proj1 (Heq eq_refl)). apply returned_Ok. vm_compute. reflexivity.
Defined.

Lemma normalize_lr_divides_by_target_stepsize_witness :
  normalized_args !! "normalize_lr" = Some (VBool true) ∧
  normalized_args !! "target_stepsize" = Some (VFloat 0.5%float) ∧
  postprocess_args table_lib normalized_args = Ok normalized_args_post ∧
  ∃ lr0 lr fb0 fb,
    normalized_args !! "lr" = Some lr0 ∧ process_lr table_lib lr0 = Ok lr ∧
    normalized_args !! "lr_fb" = Some fb0 ∧ process_lr table_lib fb0 = Ok fb ∧
    normalized_args_post !! "lr_fb" = Some fb ∧
    (true = false → normalized_args_post !! "lr" = Some lr) ∧
    (true = true →
       ∃ q, normalized_args_post !! "lr" = Some q ∧
            ∀ q', lr_over_stepsize lr (VFloat 0.5%float) = Some q' → q = q').
Proof.
  assert (normalized_args !! "normalize_lr" = Some (VBool true)) as H1
    by (vm_compute; reflexivity).
  assert (normalized_args !! "target_stepsize" = Some (VFloat 0.5%float)) as H2
    by (vm_compute; reflexivity).
  assert (postprocess_args table_lib normalized_args = Ok normalized_args_post) as H3
    by (apply returned_Ok; vm_compute; reflexivity).
  split; [exact H1|]. split; [exact H2|]. split; [exact H3|].
  exact (proj1 (normalize_lr_divides_by_target_stepsize table_lib normalized_args
                  normalized_args_post true (VFloat 0.5%float) H1 H2) H3).
Defined.

End Instances.

Section CoreInstances.
Import Core CoreExample.
Local Close Scope string_scope.
Local Open Scope R_scope.

Lemma angle_reference_values_witness : angle [3; 4] [3; 4] = 0.
Proof.
  apply (proj1 angle_reference_values [3; 4]).
  exists 3. split; [repeat constructor | lra].
Defined.

(** A list of two entries is known by them. *)
Lemma two_entries (t : array) (x y : R) :
  length t = 2%nat → t !! 0%nat = Some x → t !! 1%nat = Some y → t = [x; y].
Proof.
  destruct t as [|a [|b [|c t]]]; simpl; try discriminate.
  by intros _ [= ->] [= ->].
Qed.

Lemma output_target_is_activation_minus_step_witness :
  direct_fb single_layer_net = false ∧ num_hidden single_layer_net = 0%nat ∧
  compute_targets single_layer_net (ClassLabel 0) = [[1 / 2; 1 / 2]].
Proof.
  assert (direct_fb single_layer_net = false) as H1 by reflexivity.
  assert (num_hidden single_layer_net = 0%nat) as H2 by reflexivity.
  split; [exact H1|]. split; [exact H2|].
  destruct (output_target_is_activation_minus_step single_layer_net (ClassLabel 0))
    as (t & _ & _ & Hlen & Hentry & Hgrad & Honly).
  destruct (Honly H1 H2) as [-> _]. f_equal.
  destruct (Hgrad 0%nat) as [Hglen Hg].
  apply two_entries.
  - rewrite Hlen, Hglen. reflexivity.
  - rewrite (Hentry 0%nat 0 (0 - 1) eq_refl (Hg 0%nat 0 eq_refl)).
    f_equal. unfold single_layer_net. simpl. lra.
  - rewrite (Hentry 1%nat 1 (1 - 0) eq_refl (Hg 1%nat 1 eq_refl)).
    f_equal. unfold single_layer_net. simpl. lra.
Defined.

Lemma chained_output_target :
  output_target chained_net (ClassLabel 0) = [1 / 2; 1 / 2].
Proof.
  apply two_entries.
  - reflexivity.
  - rewrite (output_target_lookup chained_net (ClassLabel 0) 0%nat 0 (0 - 1) eq_refl
               (class_gradient_lookup [0; 1] 0%nat 0%nat 0 eq_refl)).
    f_equal. unfold chained_net. simpl. lra.
  - rewrite (output_target_lookup chained_net (ClassLabel 0) 1%nat 1 (1 - 0) eq_refl
               (class_gradient_lookup [0; 1] 0%nat 1%nat 1 eq_refl)).
    f_equal. unfold chained_net. simpl. lra.
Qed.

Lemma chained_target_from_downstream_witness :
  direct_fb chained_net = false ∧ (1 < num_hidden chained_net)%nat ∧
  compute_targets chained_net (ClassLabel 0) !! 1%nat = Some [5 / 2; 1 / 2].
Proof.
  assert (direct_fb chained_net = false) as H1 by reflexivity.
  assert (1 < num_hidden chained_net)%nat as H2 by (unfold num_hidden; simpl; lia).
  split; [exact H1|]. split; [exact H2|].
  destruct (chained_target_from_downstream chained_net (ClassLabel 0) 1 H1 H2)
    as [(l & down & t & ti & Hl & Hd & Ht & Hti & Heq) Hrule].
  change (Some h2 = Some l) in Hl. injection Hl as <-.
  change (Some out = Some down) in Hd. injection Hd as <-.
  change (Some (output_target chained_net (ClassLabel 0)) = Some t) in Ht.
  injection Ht as <-. rewrite chained_output_target in Heq.
  change (diff_rec chained_net) with true in Heq.
  etrans; [exact Hti|]. f_equal. subst ti.
  destruct (Hrule h2 out [1 / 2; 1 / 2]) as (_ & Hlen & Hentry).
  apply two_entries.
  - rewrite Hlen. reflexivity.
  - pose proof (Hentry 0%nat _ _ _ eq_refl eq_refl eq_refl) as E0.
    rewrite E0. f_equal. unfold out, layer, dot. simpl. lra.
  - pose proof (Hentry 1%nat _ _ _ eq_refl eq_refl eq_refl) as E1.
    rewrite E1. f_equal. unfold out, layer, dot. simpl. lra.
Defined.

Lemma random_single_trains_one_layer_witness :
  (0 < num_hidden chained_net)%nat ∧
  hidden_layers chained_net !! 1%nat = Some h2 ∧
  select_layers RANDOM_SINGLE (num_hidden chained_net) = [[0%nat]; [1%nat]] ∧
  probability (λ sel, sel = [1%nat]) (select_layers RANDOM_SINGLE (num_hidden chained_net))
    = 1 / 2 ∧
  (∃ l', hidden_layers (train_feedback doubling_feedback_step [1%nat] (λ _, []) chained_net)
           !! 1%nat = Some l' ∧
         feedback_mapping l' = identity_feedback [[2 * 2; 2 * 0]; [2 * 0; 2 * 2]] ∧
         weights l' = weights h2 ∧ bias l' = bias h2) ∧
  hidden_layers (train_feedback doubling_feedback_step [1%nat] (λ _, []) chained_net)
    !! 0%nat = Some h1.
Proof.
  assert (0 < num_hidden chained_net)%nat as H by (unfold num_hidden; simpl; lia).
  assert (hidden_layers chained_net !! 1%nat = Some h2) as Hl by reflexivity.
  split; [exact H|]. split; [exact Hl|]. split; [reflexivity|].
  destruct (random_single_trains_one_layer doubling_feedback_step bias_forward_step
              chained_net (λ _, []) H) as (_ & _ & Hprob & Hstep).
  split; [exact (Hprob 1%nat ltac:(unfold num_hidden; simpl; lia))|].
  destruct (Hstep 1%nat h2 Hl) as (_ & _ & _ & Hfb & _ & Hothers & _).
  split; [exact Hfb|]. exact (Hothers 0%nat ltac:(lia)).
Defined.

End CoreInstances.

(** * Worked instances of the further properties *)

Section MoreInstances.
Import Py Main MainSpec Example DatasetExample.

Lemma dfa_args_run : postprocess_args table_lib dfa_args = Ok dfa_args_post.
Proof. apply returned_Ok. vm_compute. reflexivity. Qed.

Lemma normalized_args_run :
  postprocess_args table_lib normalized_args = Ok normalized_args_post.
Proof. apply returned_Ok. vm_compute. reflexivity. Qed.

Lemma other_attributes_untouched_witness :
  ("dataset" ∉ assigned_attributes) ∧
  postprocess_args table_lib dfa_args = Ok dfa_args_post ∧
  dfa_args_post !! "dataset" = dfa_args !! "dataset".
Proof.
  assert ("dataset" ∉ assigned_attributes) as H1.
  { unfold assigned_attributes.
    repeat (apply not_elem_of_cons; split; [done|]). apply not_elem_of_nil. }
  split; [exact H1|]. split; [exact dfa_args_run|].
  exact (other_attributes_untouched table_lib dfa_args dfa_args_post "dataset"
           H1 (or_introl dfa_args_run)).
Defined.

Lemma network_type_alias_resolution_witness :
  dfa_args !! "network_type" = Some (VStr "DFA") ∧
  postprocess_args table_lib dfa_args = Ok dfa_args_post ∧
  dfa_args_post !! "network_type" = Some (VStr "DMLPDTP2").
Proof.
  assert (dfa_args !! "network_type" = Some (VStr "DFA")) as H1
    by (vm_compute; reflexivity).
  split; [exact H1|]. split; [exact dfa_args_run|].
  exact (proj1 (network_type_alias_resolution table_lib dfa_args dfa_args_post
                  (VStr "DFA") H1 (or_introl dfa_args_run))).
Defined.

Lemma feedback_freezing_by_network_type_witness :
  dfa_args !! "network_type" = Some (VStr "DFA") ∧
  postprocess_args table_lib dfa_args = Ok dfa_args_post ∧
  dfa_args_post !! "freeze_fb_weights" = Some (VBool true) ∧
  dfa_args_post !! "train_randomized" = Some (VBool false) ∧
  dfa_args_post !! "fb_activation" = Some (VStr "linear").
Proof.
  assert (dfa_args !! "network_type" = Some (VStr "DFA")) as H1
    by (vm_compute; reflexivity).
  split; [exact H1|]. split; [exact dfa_args_run|].
  destruct (feedback_freezing_by_network_type table_lib dfa_args dfa_args_post
              "DFA" H1 (or_introl dfa_args_run)) as (F1 & F2 & F3).
  split; [exact F1|]. split; [exact F2 | exact (F3 eq_refl)].
Defined.

Lemma derived_flags_by_network_type_witness :
  dfa_args !! "network_type" = Some (VStr "DFA") ∧
  postprocess_args table_lib dfa_args = Ok dfa_args_post ∧
  dfa_args_post !! "direct_fb" = Some (VBool true) ∧
  dfa_args_post !! "diff_rec_loss" = Some (VBool false).
Proof.
  assert (dfa_args !! "network_type" = Some (VStr "DFA")) as H1
    by (vm_compute; reflexivity).
  split; [exact H1|]. split; [exact dfa_args_run|].
  destruct (derived_flags_by_network_type table_lib dfa_args dfa_args_post
              "DFA" H1 (or_introl dfa_args_run)) as (F1 & F2 & _).
  split; [exact F1 | exact F2].
Defined.

Lemma size_mlp_fb_parsed_unless_DFA_witness :
  normalized_args !! "network_type" = Some (VStr "DTP") ∧
  ("DTP" =? "DFA") = false ∧
  postprocess_args table_lib normalized_args = Ok normalized_args_post ∧
  ∃ m m',
    normalized_args !! "size_mlp_fb" = Some m ∧
    normalized_args_post !! "size_mlp_fb" = Some m' ∧
    (m = VStr "None" ∧ m' = VNone ∨
     m ≠ VStr "None" ∧ process_hdim_fb table_lib m = Ok m').
Proof.
  assert (normalized_args !! "network_type" = Some (VStr "DTP")) as H1
    by (vm_compute; reflexivity).
  assert (("DTP" =? "DFA") = false) as H2 by reflexivity.
  split; [exact H1|]. split; [exact H2|]. split; [exact normalized_args_run|].
  exact (proj1 (size_mlp_fb_parsed_unless_DFA table_lib normalized_args
                  normalized_args_post "DTP" H1 H2) normalized_args_run).
Defined.

Lemma save_angle_is_any_angle_flag_witness :
  postprocess_args table_lib dfa_args = Ok dfa_args_post ∧
  dfa_args_post !! "save_angle" = Some (VBool false).
Proof.
  split; [exact dfa_args_run|].
  exact (save_angle_is_any_angle_flag table_lib dfa_args dfa_args_post
           false false false false false
           ltac:(vm_compute; reflexivity) ltac:(vm_compute; reflexivity)
           ltac:(vm_compute; reflexivity) ltac:(vm_compute; reflexivity)
           ltac:(vm_compute; reflexivity) (or_introl dfa_args_run)).
Defined.

Lemma defaulted_options_are_filled_witness :
  dfa_args !! "network_type" = Some (VStr "DFA") ∧
  filled dfa_args "hidden_activation" ∧ filled dfa_args "optimizer" ∧
  postprocess_args table_lib dfa_args = Ok dfa_args_post ∧
  Forall (filled dfa_args_post) defaulted_options.
Proof.
  assert (dfa_args !! "network_type" = Some (VStr "DFA")) as H1
    by (vm_compute; reflexivity).
  assert (filled dfa_args "hidden_activation") as H2.
  { exists (VStr "tanh"). split; [vm_compute; reflexivity | discriminate]. }
  assert (filled dfa_args "optimizer") as H3.
  { exists (VStr "SGD"). split; [vm_compute; reflexivity | discriminate]. }
  split; [exact H1|]. split; [exact H2|]. split; [exact H3|].
  split; [exact dfa_args_run|].
  exact (proj1 (defaulted_options_are_filled table_lib dfa_args dfa_args_post
                  "DFA" H1) H2 H3 dfa_args_run).
Defined.

Lemma dataset_kind_and_support_witness :
  imagenet_args !! "dataset" = Some (VStr "imagenet") ∧
  imagenet_args !! "output_activation" = Some (VStr "softmax") ∧
  postprocess_args table_lib imagenet_args = Ok imagenet_args_post ∧
  imagenet_args_post !! "classification" = Some (VBool false) ∧
  imagenet_args_post !! "regression" = Some (VBool false) ∧
  Args.__post_init__ table_lib imagenet_args
    = Raise (ValueError "Dataset imagenet is not supported.").
Proof.
  assert (imagenet_args !! "dataset" = Some (VStr "imagenet")) as H1
    by (vm_compute; reflexivity).
  assert (imagenet_args !! "output_activation" = Some (VStr "softmax")) as H2
    by (vm_compute; reflexivity).
  assert (postprocess_args table_lib imagenet_args = Ok imagenet_args_post) as H3
    by (apply returned_Ok; vm_compute; reflexivity).
  split; [exact H1|]. split; [exact H2|]. split; [exact H3|].
  destruct (dataset_kind_and_support table_lib imagenet_args imagenet_args_post
              "imagenet" H1) as (F1 & _ & _ & F4).
  destruct (F1 (or_introl H3)) as [Fc Fr].
  split; [exact Fc|]. split; [exact Fr|].
  apply (proj1 (F4 eq_refl) imagenet_args_logged).
  apply returned_Ok. vm_compute. reflexivity.
Defined.

End MoreInstances.

Section LaunchInstances.
Import Py Main MainSpec Launch Example LaunchExample.

Lemma finishes_Done (m : M Summary) :
  finishes m = true → result_of m = Done (summary_of m).
Proof. unfold finishes, summary_of. by destruct (result_of m). Qed.

Lemma completes_Done (m : M Namespace) :
  completes m = true → m = (trace m, Done (prepared m)).
Proof.
  unfold completes, prepared, result_of, trace. destruct m as [t [a|e]]; simpl; done.
Qed.

Lemma default_log_interval_witness :
  (0 ≤ len_train_loader quiet_world)%Z ∧
  cli_args !! "log_interval" = Some VNone ∧
  completes (prepare table_lib quiet_world cli_args) = true ∧
  prepared (prepare table_lib quiet_world cli_args)
    = <["log_interval" := VInt 4]> cli_args.
Proof.
  assert (0 ≤ len_train_loader quiet_world)%Z as H0 by (simpl; lia).
  assert (cli_args !! "log_interval" = Some VNone) as H1 by (vm_compute; reflexivity).
  assert (completes (prepare table_lib quiet_world cli_args) = true) as H2
    by (vm_compute; reflexivity).
  split; [exact H0|]. split; [exact H1|]. split; [exact H2|].
  exact (proj1 (default_log_interval table_lib quiet_world cli_args _ _
                  H0 H1 (completes_Done _ H2))).
Defined.

Lemma training_routine_by_network_type_witness :
  bpconv_args !! "network_type" = Some (VStr "BPConv") ∧
  finishes (launch table_lib quiet_world bpconv_args) = true ∧
  at_phase 7 (trace (launch table_lib quiet_world bpconv_args)) = [TrainBP] ∧
  at_phase 8 (trace (launch table_lib quiet_world bpconv_args)) = [ReadAngles].
Proof.
  assert (bpconv_args !! "network_type" = Some (VStr "BPConv")) as H1
    by (vm_compute; reflexivity).
  assert (finishes (launch table_lib quiet_world bpconv_args) = true) as H2
    by (vm_compute; reflexivity).
  split; [exact H1|]. split; [exact H2|].
  exact (training_routine_by_network_type table_lib quiet_world bpconv_args
           "BPConv" _ H1 (finishes_Done _ H2)).
Defined.

Lemma returned_summary_witness :
  cli_args !! "network_type" = Some (VStr "DDTPConvCIFAR") ∧
  cli_args !! "out_dir" = Some (VStr "logs") ∧
  finishes (launch table_lib quiet_world cli_args) = true ∧
  summary_of (launch table_lib quiet_world cli_args)
    = {| finished := VInt 1; training_time := Some 3600%float;
         angle_entries := true |} ∧
  last (trace (launch table_lib quiet_world cli_args))
    = Some (PickleDump "logs/results.pickle").
Proof.
  assert (cli_args !! "network_type" = Some (VStr "DDTPConvCIFAR")) as H1
    by (vm_compute; reflexivity).
  assert (cli_args !! "out_dir" = Some (VStr "logs")) as H2
    by (vm_compute; reflexivity).
  assert (finishes (launch table_lib quiet_world cli_args) = true) as H3
    by (vm_compute; reflexivity).
  split; [exact H1|]. split; [exact H2|]. split; [exact H3|].
  destruct (returned_summary table_lib quiet_world cli_args "DDTPConvCIFAR" "logs"
              true _ H1 H2 eq_refl (finishes_Done _ H3)) as (F1 & _ & _ & F4).
  split; [exact F1 | exact F4].
Defined.

Lemma loaders_created_witness :
  cli_args !! "dataset" = Some (VStr "cifar10") ∧
  cli_args !! "no_val_set" = Some (VBool false) ∧
  cli_args !! "batch_size" = Some (VInt 100) ∧
  finishes (launch table_lib quiet_world cli_args) = true ∧
  loaders (trace (launch table_lib quiet_world cli_args))
    = [(TrainRole, SplitPart 0, VInt 100, true, true);
       (ValRole, SplitPart 1, VInt 100, false, true);
       (TestRole, TestSet, VInt 100, false, false)].
Proof.
  assert (cli_args !! "dataset" = Some (VStr "cifar10")) as H1
    by (vm_compute; reflexivity).
  assert (cli_args !! "no_val_set" = Some (VBool false)) as H2
    by (vm_compute; reflexivity).
  assert (cli_args !! "batch_size" = Some (VInt 100)) as H3
    by (vm_compute; reflexivity).
  assert (finishes (launch table_lib quiet_world cli_args) = true) as H4
    by (vm_compute; reflexivity).
  split; [exact H1|]. split; [exact H2|]. split; [exact H3|]. split; [exact H4|].
  exact (proj2 (loaders_created table_lib quiet_world cli_args "cifar10"
                  (VBool false) false (VInt 100) _ H1 H2 eq_refl H3
                  (finishes_Done _ H4))).
Defined.

Lemma generators_seeded_first_witness :
  cli_args !! "random_seed" = Some (VInt 42) ∧
  ∃ rest,
    trace (launch table_lib quiet_world cli_args)
      = (seed_events (VInt 42) ++ rest)%list ∧
    Forall (λ e, phase e ≠ 0%nat) rest.
Proof.
  assert (cli_args !! "random_seed" = Some (VInt 42)) as H1
    by (vm_compute; reflexivity).
  split; [exact H1|].
  exact (generators_seeded_first table_lib quiet_world cli_args (VInt 42) (VInt 42)
           H1 eq_refl (λ _, eq_refl)).
Defined.

Lemma student_teacher_never_trains_witness :
  teacher_args !! "dataset" = Some (VStr "student_teacher") ∧
  result_of (launch table_lib quiet_world teacher_args)
    = Failed (UnboundLocalError "DataLoader").
Proof.
  assert (teacher_args !! "dataset" = Some (VStr "student_teacher")) as H1
    by (vm_compute; reflexivity).
  split; [exact H1|].
  destruct (student_teacher_never_trains table_lib quiet_world teacher_args H1)
    as (_ & _ & F).
  apply F; [| reflexivity].
  apply list_elem_of_In. vm_compute. tauto.
Defined.

Lemma save_logs_never_runs_witness :
  save_logs_args !! "save_logs" = Some (VBool true) ∧
  (∃ err, result_of (launch table_lib quiet_world save_logs_args) = Failed err) ∧
  within 0 4 (launch table_lib quiet_world save_logs_args).
Proof.
  assert (save_logs_args !! "save_logs" = Some (VBool true)) as H1
    by (vm_compute; reflexivity).
  split; [exact H1|].
  destruct (save_logs_never_runs table_lib quiet_world save_logs_args (VBool true)
              H1 eq_refl) as (F1 & F2 & _).
  split; [exact F1 | exact F2].
Defined.

Lemma run_trains_by_parsed_network_type_witness :
  dfa_cli_args !! "network_type" = Some (VStr "DFA") ∧
  finishes (run table_lib quiet_world dfa_cli_args) = true ∧
  at_phase 7 (trace (run table_lib quiet_world dfa_cli_args)) = [Train] ∧
  angle_entries (summary_of (run table_lib quiet_world dfa_cli_args)) = true.
Proof.
  assert (dfa_cli_args !! "network_type" = Some (VStr "DFA")) as H1
    by (vm_compute; reflexivity).
  assert (finishes (run table_lib quiet_world dfa_cli_args) = true) as H2
    by (vm_compute; reflexivity).
  split; [exact H1|]. split; [exact H2|].
  destruct (run_trains_by_parsed_network_type table_lib quiet_world dfa_cli_args
              "DFA" _ H1 (finishes_Done _ H2)) as (F1 & F2 & _).
  split; [exact F1 | exact F2].
Defined.

End LaunchInstances.
